(** * mindpilot-mcp: live diagram synchronisation and persistence

    A shallow embedding of the TypeScript sources of the Electron shell
    (embedded MCP server, IPC handlers, main-process glue) and of the
    viewer's message handler, together with the history store they call.

    Layout: the run-time values of JavaScript that the code inspects
    ([Js]), the history store ([HistoryStore], [HistoryService]), the
    main process and its windows ([Electron]), the embedded MCP server
    ([EmbeddedServer]), the IPC handlers ([IpcHandlers]), the viewer
    ([Viewer]), the wiring of [main.ts] ([Main]), sample inputs
    ([Samples]), command lines ([CommandLine]), window geometry
    ([WindowGeometry]), the handler registry and the application events
    ([IpcRegistry], [AppLifecycle]), the stand-alone MCP server
    ([StandaloneServer]), the [second-instance] listener
    ([SecondInstance]), the saved window state ([WindowState]), runs of
    the viewer ([ViewerRuns]); then the properties. *)

From Stdlib Require Import String Ascii List ZArith Bool Arith Lia.
From Stdlib Require Import DecimalString DecimalNat.
Import ListNotations.
Local Open Scope list_scope.
Local Open Scope string_scope.
Set Warnings "-register-all".

(* ===================================================================== *)
(** ** JavaScript values                                                  *)
(* ===================================================================== *)

Module Js.

(** Values that reach the code through [JSON.parse], the MCP transport or
    an object literal.  An object is its list of own enumerable
    properties in insertion order; numbers are the integers that a
    double holds exactly, those of absolute value up to 2^53. *)
Inductive JsVal : Type :=
| JUndefined
| JNull
| JBool (b : bool)
| JNum (n : Z)
| JStr (s : string)
| JArr (items : list JsVal)
| JObj (fields : list (string * JsVal)).

Definition Obj : Type := list (string * JsVal).

(** What a [throw] carries.  [error instanceof Error] holds exactly for
    [ErrorObject]; [name] is the error class, [message] its message. *)
Inductive Thrown : Type :=
| ErrorObject (name : string) (message : string)
| NonError (v : JsVal).

(** The completion of a call: a returned value or a pending exception. *)
Inductive Outcome (A : Type) : Type :=
| Returned (a : A)
| Threw (e : Thrown).
Arguments Returned {A} a.
Arguments Threw {A} e.

(** [ToBoolean]. *)
Definition truthy (v : JsVal) : bool :=
  match v with
  | JUndefined | JNull => false
  | JBool b => b
  | JNum n => negb (n =? 0)%Z
  | JStr s => negb (s =? EmptyString)
  | JArr _ | JObj _ => true
  end.

Definition truthy_str (s : string) : bool := negb (s =? EmptyString).

(** [if (x)] for [x : string | undefined]. *)
Definition truthy_opt (o : option string) : bool :=
  match o with
  | Some s => truthy_str s
  | None => false
  end.

Fixpoint get (o : Obj) (k : string) : JsVal :=
  match o with
  | [] => JUndefined
  | (k', v) :: rest => if k' =? k then v else get rest k
  end.

(** [{ ...o, k: v }] : the property keeps its place when [o] has it and
    is added last otherwise. *)
Fixpoint set (o : Obj) (k : string) (v : JsVal) : Obj :=
  match o with
  | [] => [(k, v)]
  | (k', v') :: rest =>
      if k' =? k then (k', v) :: rest else (k', v') :: set rest k v
  end.

(** [data.k]: reading a property of [null] or [undefined] throws a
    [TypeError]; a primitive or an array has no property of the names
    used here. *)
Definition get_prop (data : JsVal) (k : string) : Outcome JsVal :=
  match data with
  | JUndefined | JNull =>
      Threw (ErrorObject "TypeError" "Cannot read properties of null or undefined")
  | JObj fields => Returned (get fields k)
  | _ => Returned JUndefined
  end.

(** [x === "lit"]. *)
Definition is_str (v : JsVal) (lit : string) : bool :=
  match v with
  | JStr s => s =? lit
  | _ => false
  end.

(** [error instanceof Error ? error.message : fallback]. *)
Definition message_or (e : Thrown) (fallback : string) : string :=
  match e with
  | ErrorObject _ m => m
  | NonError _ => fallback
  end.

(** *** [JSON.stringify] *)

Definition dquote : ascii := ascii_of_nat 34.
Definition backslash : ascii := ascii_of_nat 92.
Definition newline : string := String (ascii_of_nat 10) EmptyString.

Definition hex_digit (n : nat) : ascii :=
  if (n <? 10)%nat then ascii_of_nat (48 + n) else ascii_of_nat (87 + n).

Definition escape_char (c : ascii) : string :=
  let n := nat_of_ascii c in
  let esc (x : string) := String backslash x in
  if (n =? 34)%nat then esc (String dquote EmptyString)
  else if (n =? 92)%nat then esc (String backslash EmptyString)
  else if (n =? 8)%nat then esc "b"
  else if (n =? 9)%nat then esc "t"
  else if (n =? 10)%nat then esc "n"
  else if (n =? 12)%nat then esc "f"
  else if (n =? 13)%nat then esc "r"
  else if (n <? 32)%nat then
    esc (String "u" (String "0" (String "0"
          (String (hex_digit (n / 16)) (String (hex_digit (n mod 16)) EmptyString)))))
  else String c EmptyString.

Fixpoint escape (s : string) : string :=
  match s with
  | EmptyString => EmptyString
  | String c rest => escape_char c ++ escape rest
  end.

(** [QuoteJSONString]. *)
Definition quote (s : string) : string :=
  String dquote (escape s ++ String dquote EmptyString).

(** The decimal digits of an integer, which is how [JSON.stringify]
    prints the numbers above; a larger double is printed in its shortest
    round-trip form, which is not modelled. *)
Definition string_of_Z (n : Z) : string :=
  NilZero.string_of_int (Z.to_int n).


Fixpoint join (sep : string) (parts : list string) : string :=
  match parts with
  | [] => EmptyString
  | [p] => p
  | p :: rest => p ++ sep ++ join sep rest
  end.

(** The brackets around the serialised members, by the rules of
    [SerializeJSONObject] and [SerializeJSONArray]. *)
Definition wrap (opening closing gap stepback indent : string)
    (parts : list string) : string :=
  match parts with
  | [] => opening ++ closing
  | _ =>
      if gap =? EmptyString then opening ++ join "," parts ++ closing
      else opening ++ newline ++ indent
           ++ join ("," ++ newline ++ indent) parts
           ++ newline ++ stepback ++ closing
  end.

Fixpoint serialize (gap indent : string) (v : JsVal) {struct v} : option string :=
  match v with
  | JUndefined => None
  | JNull => Some "null"
  | JBool true => Some "true"
  | JBool false => Some "false"
  | JNum n => Some (string_of_Z n)
  | JStr s => Some (quote s)
  | JArr items =>
      let inner := indent ++ gap in
      let parts :=
        (fix elements (l : list JsVal) : list string :=
           match l with
           | [] => []
           | x :: rest =>
               match serialize gap inner x with
               | Some s => s
               | None => "null"
               end :: elements rest
           end) items in
      Some (wrap "[" "]" gap indent inner parts)
  | JObj fields =>
      let inner := indent ++ gap in
      let colon := if gap =? EmptyString then ":" else ": " in
      let parts :=
        (fix members (l : list (string * JsVal)) : list string :=
           match l with
           | [] => []
           | (k, x) :: rest =>
               match serialize gap inner x with
               | Some s => (quote k ++ colon ++ s) :: members rest
               | None => members rest
               end
           end) fields in
      Some (wrap "{" "}" gap indent inner parts)
  end.

Fixpoint spaces (n : nat) : string :=
  match n with
  | O => EmptyString
  | S m => String " " (spaces m)
  end.

(** [JSON.stringify(o, null, space)] for an object [o]; [space] is
    clamped to ten as the language prescribes, and [0] stands for the
    call without the third argument. *)
Definition JSON_stringify (o : Obj) (space : nat) : string :=
  match serialize (spaces (Nat.min space 10)) EmptyString (JObj o) with
  | Some s => s
  | None => EmptyString
  end.

End Js.

(* ===================================================================== *)
(** ** The history store                                                  *)
(* ===================================================================== *)

(** The repository's [shared/historyService] is imported by every file
    above it but is not among the sources at hand; the store is therefore
    written down from the specification of the history component, one
    definition per operation. *)

Module HistoryStore.

(** Modelled from the spec: the error taxonomy of the history operations
    ([shared/historyService] is missing): I/O failure on the backing
    file, unknown id, name already taken. *)
Inductive HistoryError : Type :=
| StorageError
| NotFoundError
| ConflictError.

Inductive Result (A : Type) : Type :=
| Ok (a : A)
| Err (e : HistoryError).
Arguments Ok {A} a.
Arguments Err {A} e.

Definition EntryId : Type := string.

(** Modelled from the spec: the persisted unit [DiagramEntry] of the
    missing [shared/types]: id, diagram source, title, nullable
    collection, creation and update time stamps. *)
Record DiagramEntry : Type := mkEntry {
  id : EntryId;
  diagram : string;
  title : string;
  collection : option string;
  createdAt : Z;
  updatedAt : Z
}.

(** Modelled from the spec: the content of the single backing file of the
    missing [HistoryService]: every entry in insertion order (oldest
    first), the collection names, and how many ids were handed out since
    the store was created. *)
Record Store : Type := mkStore {
  entries : list DiagramEntry;
  collections : list string;
  issued : nat
}.

Definition empty : Store := mkStore [] [] 0.

(** What a call reads from its surroundings: the clock, and whether the
    backing file can be written at that moment. *)
Record Env : Type := mkEnv {
  now : Z;
  writable : bool
}.

(** Modelled from the spec: the freshly generated unique id of the
    missing [HistoryService.saveDiagram].  The spec leaves the format
    open (the id is opaque); here the n-th id issued by a store is the
    decimal numeral of n. *)
Definition fresh_id (n : nat) : EntryId :=
  NilEmpty.string_of_uint (Nat.to_uint n).

(** Modelled from the spec: the last step of the read-modify-write cycle
    of the missing [HistoryService]: the new content is persisted in
    full, or the mutation is abandoned with [StorageError]. *)
Definition persist {A : Type} (env : Env) (a : A) : Result A :=
  if writable env then Ok a else Err StorageError.

Definition known (name : string) (names : list string) : bool :=
  existsb (String.eqb name) names.

(** Modelled from the spec: a collection is created implicitly when an
    entry first refers to it (missing [HistoryService]). *)
Definition refer (c : option string) (names : list string) : list string :=
  match c with
  | Some name => if known name names then names else (names ++ [name])%list
  | None => names
  end.

Definition has_id (i : EntryId) (e : DiagramEntry) : bool := id e =? i.

Definition exists_id (i : EntryId) (st : Store) : bool :=
  existsb (has_id i) (entries st).

(** Modelled from the spec: [saveDiagram(diagram, title, collection)] of
    the missing [HistoryService]: a new entry with a fresh id is appended
    and returned; an unknown collection is created implicitly;
    [StorageError] when the file cannot be written. *)
Definition saveDiagram (d t : string) (c : option string) (env : Env)
    (st : Store) : Result (DiagramEntry * Store) :=
  let e := mkEntry (fresh_id (issued st)) d t c (now env) (now env) in
  persist env
    (e, mkStore (entries st ++ [e])%list (refer c (collections st)) (S (issued st))).

(** Modelled from the spec: [getDiagrams(collection?)] of the missing
    [HistoryService]: all entries, or those of the given collection, in
    insertion order. *)
Definition getDiagrams (c : option string) (st : Store) : list DiagramEntry :=
  match c with
  | None => entries st
  | Some name =>
      filter (fun e => match collection e with
                       | Some n => n =? name
                       | None => false
                       end) (entries st)
  end.

(** Modelled from the spec: the partial fields of [updateDiagram]; the
    IPC handler types them
    [Partial<Pick<DiagramHistoryEntry, 'title' | 'collection' | 'diagram'>>]. *)
Record PartialFields : Type := mkPartial {
  new_title : option string;
  new_collection : option (option string);
  new_diagram : option string
}.

Definition supplied {A : Type} (o : option A) (old : A) : A :=
  match o with
  | Some a => a
  | None => old
  end.

Definition amend (p : PartialFields) (t : Z) (e : DiagramEntry) : DiagramEntry :=
  mkEntry (id e)
          (supplied (new_diagram p) (diagram e))
          (supplied (new_title p) (title e))
          (supplied (new_collection p) (collection e))
          (createdAt e)
          t.

(** Modelled from the spec: [updateDiagram(id, partialFields)] of the
    missing [HistoryService]: [NotFoundError] when no entry has the id;
    otherwise the supplied fields are set, [updatedAt] is refreshed and
    the file is rewritten. *)
Definition updateDiagram (i : EntryId) (p : PartialFields) (env : Env)
    (st : Store) : Result Store :=
  if exists_id i st then
    persist env
      (mkStore (map (fun e => if has_id i e then amend p (now env) e else e)
                    (entries st))
               (match new_collection p with
                | Some c => refer c (collections st)
                | None => collections st
                end)
               (issued st))
  else Err NotFoundError.

(** Modelled from the spec: [deleteDiagram(id)] of the missing
    [HistoryService]: removes the entry; [NotFoundError] when no entry
    has the id. *)
Definition deleteDiagram (i : EntryId) (env : Env) (st : Store) : Result Store :=
  if exists_id i st then
    persist env
      (mkStore (filter (fun e => negb (has_id i e)) (entries st))
               (collections st) (issued st))
  else Err NotFoundError.

(** Modelled from the spec: [moveDiagram(id, collection)] of the missing
    [HistoryService], a targeted [updateDiagram]. *)
Definition moveDiagram (i : EntryId) (c : option string) (env : Env)
    (st : Store) : Result Store :=
  updateDiagram i (mkPartial None (Some c) None) env st.

Definition getCollections (st : Store) : list string := collections st.

(** Modelled from the spec: [createCollection(name)] of the missing
    [HistoryService]: [ConflictError] when the name exists. *)
Definition createCollection (name : string) (env : Env) (st : Store)
    : Result Store :=
  if known name (collections st) then Err ConflictError
  else persist env
         (mkStore (entries st) (collections st ++ [name])%list (issued st)).

(** *** Sequences of calls *)

Inductive Call : Type :=
| CallSave (d t : string) (c : option string)
| CallUpdate (i : EntryId) (p : PartialFields)
| CallDelete (i : EntryId)
| CallMove (i : EntryId) (c : option string)
| CallCreateCollection (name : string).

(** One call: the store afterwards and the entry that a successful
    [saveDiagram] returned.  A failed call leaves the store as it was. *)
Definition call (env : Env) (c : Call) (st : Store)
    : Store * option DiagramEntry :=
  let keep (r : Result Store) :=
    match r with
    | Ok st' => (st', None)
    | Err _ => (st, None)
    end in
  match c with
  | CallSave d t col =>
      match saveDiagram d t col env st with
      | Ok (e, st') => (st', Some e)
      | Err _ => (st, None)
      end
  | CallUpdate i p => keep (updateDiagram i p env st)
  | CallDelete i => keep (deleteDiagram i env st)
  | CallMove i col => keep (moveDiagram i col env st)
  | CallCreateCollection name => keep (createCollection name env st)
  end.

Fixpoint run (cs : list (Env * Call)) (st : Store) : Store :=
  match cs with
  | [] => st
  | (env, c) :: rest => run rest (fst (call env c st))
  end.

(** The entries returned by the successful saves of a run, in order. *)
Fixpoint saved (cs : list (Env * Call)) (st : Store) : list DiagramEntry :=
  match cs with
  | [] => []
  | (env, c) :: rest =>
      match call env c st with
      | (st', Some e) => e :: saved rest st'
      | (st', None) => saved rest st'
      end
  end.

(** *** Invariants *)

(** Every id in the store was issued by the store. *)
Definition issued_ids (st : Store) : Prop :=
  forall e, In e (entries st) -> exists k, k < issued st /\ id e = fresh_id k.

Definition well_formed (st : Store) : Prop :=
  NoDup (map id (entries st)) /\ issued_ids st.

(** An id that was issued and is no longer in the store. *)
Definition retired (i : EntryId) (st : Store) : Prop :=
  (forall e, In e (entries st) -> id e <> i) /\
  exists k, k < issued st /\ i = fresh_id k.

End HistoryStore.

(* ===================================================================== *)
(** ** The Electron main process                                          *)
(* ===================================================================== *)

Module Electron.
Import Js.

(** The main-to-renderer channels: [main.ts] sends on the first two,
    the [focus] and [show] listeners of the newest [window.ts] on the
    third. *)
Inductive IpcChannel : Type :=
| MCP_DIAGRAM_UPDATE
| MCP_STATUS
| WINDOW_FOCUS.

(** [webContents.send(channel, ...args)]. *)
Record IpcMessage : Type := mkIpc {
  channel : IpcChannel;
  args : list JsVal
}.

(** A [BrowserWindow] object: its identity, the flags the code tests or
    sets, and what [webContents.send] has put on its way to the
    renderer, oldest first. *)
Record BrowserWindow : Type := mkWindow {
  wid : nat;
  destroyed : bool;
  minimized : bool;
  shown : bool;
  focused : bool;
  received : list IpcMessage
}.

Inductive ConsoleEntry : Type :=
| ConsoleLog (text : string)
| ConsoleError (text : string) (err : Thrown).

(** Everything of the process that the modelled code reads or writes. *)
Record Process : Type := mkProcess {
  cwd : string;                              (* process.cwd() *)
  clock : Z;                                 (* Date.now() *)
  disk_writable : bool;                      (* can the history file be written *)
  history_file : HistoryStore.Store;         (* content of the history file *)
  console : list ConsoleEntry;               (* console.log / console.error *)
  windows : list BrowserWindow;              (* every BrowserWindow created *)
  mainWindow : option nat;                   (* window.ts: let mainWindow *)
  next_window : nat;                         (* identity of the next window *)
  renders : list (string * option string)    (* calls made to the renderer *)
}.

Definition set_history (h : HistoryStore.Store) (p : Process) : Process :=
  mkProcess (cwd p) (clock p) (disk_writable p) h (console p) (windows p)
            (mainWindow p) (next_window p) (renders p).

Definition set_console (c : list ConsoleEntry) (p : Process) : Process :=
  mkProcess (cwd p) (clock p) (disk_writable p) (history_file p) c (windows p)
            (mainWindow p) (next_window p) (renders p).

Definition set_windows (ws : list BrowserWindow) (p : Process) : Process :=
  mkProcess (cwd p) (clock p) (disk_writable p) (history_file p) (console p) ws
            (mainWindow p) (next_window p) (renders p).

Definition set_mainWindow (m : option nat) (p : Process) : Process :=
  mkProcess (cwd p) (clock p) (disk_writable p) (history_file p) (console p)
            (windows p) m (next_window p) (renders p).

Definition set_next_window (n : nat) (p : Process) : Process :=
  mkProcess (cwd p) (clock p) (disk_writable p) (history_file p) (console p)
            (windows p) (mainWindow p) n (renders p).

Definition set_renders (r : list (string * option string)) (p : Process) : Process :=
  mkProcess (cwd p) (clock p) (disk_writable p) (history_file p) (console p)
            (windows p) (mainWindow p) (next_window p) r.

(** *** Effectful code

    An [async] function is a state transformer that ends in a returned
    value or in a thrown one; the effects made before a [throw] stay. *)
Definition Proc (A : Type) : Type := Process -> Process * Outcome A.

Definition ret {A : Type} (a : A) : Proc A := fun p => (p, Returned a).

Definition throw {A : Type} (e : Thrown) : Proc A := fun p => (p, Threw e).

Definition bind {A B : Type} (m : Proc A) (k : A -> Proc B) : Proc B :=
  fun p =>
    match m p with
    | (p', Returned a) => k a p'
    | (p', Threw e) => (p', Threw e)
    end.

(** [try { body } catch (error) { handler }]. *)
Definition try_catch {A : Type} (body : Proc A) (handler : Thrown -> Proc A)
    : Proc A :=
  fun p =>
    match body p with
    | (p', Returned a) => (p', Returned a)
    | (p', Threw e) => handler e p'
    end.

(** A completed call whose completion is already known. *)
Definition lift {A : Type} (o : Outcome A) : Proc A := fun p => (p, o).

(** Reading the process. *)
Definition read {A : Type} (f : Process -> A) : Proc A :=
  fun p => (p, Returned (f p)).

Notation "x <- m ;; k" := (bind m (fun x => k))
  (at level 61, m at next level, right associativity).
Notation "m ;;; k" := (bind m (fun _ => k))
  (at level 61, right associativity).

Definition console_log (text : string) : Proc unit :=
  fun p => (set_console (console p ++ [ConsoleLog text])%list p, Returned tt).

Definition console_error (text : string) (err : Thrown) : Proc unit :=
  fun p => (set_console (console p ++ [ConsoleError text err])%list p, Returned tt).

(** *** Windows ([window.ts] and the [BrowserWindow] API) *)

Definition is_window (i : nat) (w : BrowserWindow) : bool := (wid w =? i)%nat.

Definition update_window (i : nat) (f : BrowserWindow -> BrowserWindow)
    (ws : list BrowserWindow) : list BrowserWindow :=
  map (fun w => if is_window i w then f w else w) ws.

(** [BrowserWindow.getAllWindows()]: the windows that are not destroyed. *)
Definition getAllWindows (p : Process) : list BrowserWindow :=
  filter (fun w => negb (destroyed w)) (windows p).

(** [getMainWindow()]: the object that the module variable refers to. *)
Definition getMainWindow (p : Process) : option BrowserWindow :=
  match mainWindow p with
  | Some i => find (is_window i) (windows p)
  | None => None
  end.

(** [createMainWindow]: a new window, created with [show: false],
    becomes the main window. *)
Definition createMainWindow (p : Process) : Process :=
  let w := mkWindow (next_window p) false false false false [] in
  set_next_window (S (next_window p))
    (set_mainWindow (Some (wid w))
       (set_windows (windows p ++ [w])%list p)).

(** [w.webContents.send(channel, ...args)]. *)
Definition webContents_send (m : IpcMessage) (w : BrowserWindow) : BrowserWindow :=
  mkWindow (wid w) (destroyed w) (minimized w) (shown w) (focused w)
           (received w ++ [m])%list.

(** [if (w.isMinimized()) w.restore(); w.show(); w.focus()]. *)
Definition raise_window (w : BrowserWindow) : BrowserWindow :=
  mkWindow (wid w) (destroyed w) false true true (received w).

Definition close_window (w : BrowserWindow) : BrowserWindow :=
  mkWindow (wid w) true (minimized w) false false (received w).

(** [w.show()]: the window is shown and given the focus. *)
Definition show_window (w : BrowserWindow) : BrowserWindow :=
  mkWindow (wid w) (destroyed w) (minimized w) true true (received w).

(** [if (w.isMinimized()) w.restore(); w.focus()]. *)
Definition restore_and_focus (w : BrowserWindow) : BrowserWindow :=
  mkWindow (wid w) (destroyed w) false (shown w) true (received w).

(** The user or the window manager puts the window into a state:
    minimised or not, shown or hidden, focused or not. *)
Definition place_window (mi sh fo : bool) (w : BrowserWindow) : BrowserWindow :=
  mkWindow (wid w) (destroyed w) mi sh fo (received w).

(** [w.webContents.send(channel, ...args)] on the window object [i]. *)
Definition send_to (i : nat) (m : IpcMessage) : Proc unit :=
  fun p => (set_windows (update_window i (webContents_send m) (windows p)) p,
            Returned tt).

(** *** Listeners installed by [createMainWindow] *)

Definition is_live (i : nat) (p : Process) : bool :=
  existsb (is_window i) (getAllWindows p).

(** [mainWindow.on('close', () => { if (mainWindow) saveWindowState(mainWindow) })],
    where [saveWindowState] only logs the state. *)
Definition on_close (p : Process) : Process :=
  match mainWindow p with
  | Some _ => set_console (console p ++ [ConsoleLog "Window state to save:"])%list p
  | None => p
  end.

(** The window object [i] is destroyed. *)
Definition destroy (i : nat) (p : Process) : Process :=
  set_windows (update_window i close_window (windows p)) p.

(** [mainWindow.on('closed', () => { mainWindow = null })]. *)
Definition on_closed (p : Process) : Process := set_mainWindow None p.

(** *** Observations *)

(** The viewers connected to the main process: its live windows. *)
Definition viewers (p : Process) : list nat := map wid (getAllWindows p).

(** What window [i] has been sent so far. *)
Definition inbox (i : nat) (p : Process) : list IpcMessage :=
  match find (is_window i) (windows p) with
  | Some w => received w
  | None => []
  end.

(** The number of messages sent to windows so far. *)
Definition deliveries (p : Process) : nat :=
  list_sum (map (fun w => length (received w)) (windows p)).

End Electron.

(* ===================================================================== *)
(** ** The history service as the main process calls it                   *)
(* ===================================================================== *)

Module HistoryService.
Import Js Electron.

(** Modelled from the spec: how a failure of the missing
    [HistoryService] reaches JavaScript: an [Error] object named after
    its kind. *)
Definition to_thrown (e : HistoryStore.HistoryError) : Thrown :=
  match e with
  | HistoryStore.StorageError =>
      ErrorObject "StorageError" "the backing file cannot be written"
  | HistoryStore.NotFoundError =>
      ErrorObject "NotFoundError" "no entry has that id"
  | HistoryStore.ConflictError =>
      ErrorObject "ConflictError" "the name already exists"
  end.

Definition env_of (p : Process) : HistoryStore.Env :=
  HistoryStore.mkEnv (clock p) (disk_writable p).

(** A mutating call: the file is replaced on success and left alone on
    failure, which is thrown to the caller. *)
Definition mutate (f : HistoryStore.Env -> HistoryStore.Store ->
                       HistoryStore.Result HistoryStore.Store) : Proc unit :=
  fun p =>
    match f (env_of p) (history_file p) with
    | HistoryStore.Ok st => (set_history st p, Returned tt)
    | HistoryStore.Err e => (p, Threw (to_thrown e))
    end.

Definition saveDiagram (d t : string) (c : option string)
    : Proc HistoryStore.DiagramEntry :=
  fun p =>
    match HistoryStore.saveDiagram d t c (env_of p) (history_file p) with
    | HistoryStore.Ok (e, st) => (set_history st p, Returned e)
    | HistoryStore.Err e => (p, Threw (to_thrown e))
    end.

Definition getDiagrams (c : option string) : Proc (list HistoryStore.DiagramEntry) :=
  fun p => (p, Returned (HistoryStore.getDiagrams c (history_file p))).

Definition updateDiagram (i : string) (u : HistoryStore.PartialFields) : Proc unit :=
  mutate (HistoryStore.updateDiagram i u).

Definition deleteDiagram (i : string) : Proc unit :=
  mutate (HistoryStore.deleteDiagram i).

Definition moveDiagram (i : string) (c : option string) : Proc unit :=
  mutate (HistoryStore.moveDiagram i c).

Definition getCollections : Proc (list string) :=
  fun p => (p, Returned (HistoryStore.getCollections (history_file p))).

Definition createCollection (name : string) : Proc unit :=
  mutate (HistoryStore.createCollection name).

End HistoryService.

(* ===================================================================== *)
(** ** [src/electron/mcp/embeddedServer.ts]                               *)
(* ===================================================================== *)

Module EmbeddedServer.
Import Js Electron.

(** The fields of [EmbeddedMCPServer] that its methods read. *)
Record EmbeddedMCPServer : Type := mkServer {
  isRunning : bool;
  onDiagramUpdate : option (string -> string -> string -> Proc unit)
}.

(** [setDiagramUpdateHandler(handler)]. *)
Definition setDiagramUpdateHandler
    (handler : string -> string -> string -> Proc unit)
    (self : EmbeddedMCPServer) : EmbeddedMCPServer :=
  mkServer (isRunning self) (Some handler).

(** The arguments of a tool call after the casts of the handler
    ([args?.diagram as string], ...): a missing optional is [None]. *)
Record ToolArguments : Type := mkArgs {
  arg_diagram : string;
  arg_background : option string;
  arg_title : option string;
  arg_autoOpen : option bool
}.

Record CallToolRequest : Type := mkRequest {
  name : string;
  arguments : ToolArguments
}.

Record TextContent : Type := mkContent {
  type : string;
  text : string
}.

Record CallToolResult : Type := mkResult {
  content : list TextContent
}.

Definition text_result (t : string) : CallToolResult :=
  mkResult [mkContent "text" t].

(** [focusWindow()]. *)
Definition focusWindow : Proc unit :=
  fun p =>
    match getAllWindows p with
    | w :: _ =>
        (set_windows (update_window (wid w) raise_window (windows p)) p,
         Returned tt)
    | [] => (p, Returned tt)
    end.

(** [start()], with the completion of [this.server.connect(transport)]
    given: the server that is running afterwards.  The timer that
    watches the parent process and the [close] listener of [stdin] are
    set up for later and touch nothing here.
<<
  if (this.isRunning) { console.log('[EmbeddedMCP] Server already running'); return; }
  console.log('[EmbeddedMCP] Starting embedded MCP server...');
  ...
  await this.server.connect(transport);
  this.isRunning = true;
  console.log('[EmbeddedMCP] MCP server connected and ready');
>> *)
Definition start (connect : Outcome unit) (self : EmbeddedMCPServer)
    : Proc EmbeddedMCPServer :=
  if isRunning self then
    console_log "[EmbeddedMCP] Server already running" ;;;
    ret self
  else
    console_log "[EmbeddedMCP] Starting embedded MCP server..." ;;;
    lift connect ;;;
    console_log "[EmbeddedMCP] MCP server connected and ready" ;;;
    ret (mkServer true (onDiagramUpdate self)).

(** [openUI(autoOpen = true)]. *)
Definition openUI (autoOpen : option bool) : Proc Obj :=
  (if match autoOpen with Some b => b | None => true end
   then focusWindow else ret tt) ;;;
  ret [("message", JStr "Mindpilot window focused")].

(** The rendering library rejected the source: it threw, or it
    returned a result with [type === 'error']. *)
Definition rejected (o : Outcome Obj) : Prop :=
  match o with
  | Threw _ => True
  | Returned r => is_str (get r "type") "error" = true
  end.

(** The state in which the rendering library has just been called. *)
Definition rendering (d : string) (bg : option string) (p : Process) : Process :=
  set_renders (renders p ++ [(d, bg)])%list p.

(** [{ type: "error", diagram, error: error instanceof Error ?
    error.message : "Failed to render diagram" }]. *)
Definition error_result (diagram : string) (e : Thrown) : Obj :=
  [("type", JStr "error");
   ("diagram", JStr diagram);
   ("error", JStr (message_or e "Failed to render diagram"))].

Section Collaborators.

(** The diagram-rendering library, [renderMermaid] of [shared/renderer]:
    from the source text and a background it returns a render result,
    an object whose [type] is ['success'] or ['error'], or throws. *)
Variable renderer : string -> option string -> Outcome Obj.

(** [detectGitRepo] of [shared/gitRepoDetector]: the collection of a
    working directory, if any. *)
Variable detectGitRepo : string -> Outcome (option string).

(** One call of the rendering library, recorded in [renders]. *)
Definition call_renderer (diagram : string) (background : option string)
    : Proc Obj :=
  fun p => (rendering diagram background p, renderer diagram background).

Definition call_detectGitRepo (workingDir : string) : Proc (option string) :=
  lift (detectGitRepo workingDir).

Definition saved_line (title id : string) : string :=
  "[EmbeddedMCP] Saved diagram " ++ String dquote (title ++ String dquote
    (" with ID " ++ id)).

(** The block under [// Save to history]: the id of the saved entry, or
    [None] for [undefined]. *)
Definition save_to_history (diagram : string) (title : option string)
    : Proc (option string) :=
  match title with
  | Some t =>
      if truthy_str t then
        try_catch
          (workingDir <- read cwd ;;
           collection <- call_detectGitRepo workingDir ;;
           savedEntry <- HistoryService.saveDiagram diagram t collection ;;
           console_log (saved_line t (HistoryStore.id savedEntry)) ;;;
           ret (Some (HistoryStore.id savedEntry)))
          (fun error =>
             console_error "[EmbeddedMCP] Failed to save diagram to history:" error ;;;
             ret None)
      else ret None
  | None => ret None
  end.

(** [if (this.onDiagramUpdate && diagramId && title) ...]. *)
Definition notify_renderer (self : EmbeddedMCPServer) (diagram : string)
    (title diagramId : option string) : Proc unit :=
  match onDiagramUpdate self, diagramId, title with
  | Some handler, Some i, Some t =>
      if truthy_str i && truthy_str t then handler diagram t i else ret tt
  | _, _, _ => ret tt
  end.

(** The private method [renderMermaid(diagram, background?, title?)]. *)
Definition renderMermaid (self : EmbeddedMCPServer) (diagram : string)
    (background title : option string) : Proc Obj :=
  try_catch
    (result <- call_renderer diagram background ;;
     if is_str (get result "type") "error" then ret result
     else
       diagramId <- save_to_history diagram title ;;
       notify_renderer self diagram title diagramId ;;;
       focusWindow ;;;
       ret (set result "type" (JStr "success")))
    (fun error => ret (error_result diagram error)).

End Collaborators.

(** The [CallToolRequestSchema] handler, over the two methods it
    dispatches to. *)
Definition callTool
    (render_mermaid : string -> option string -> option string -> Proc Obj)
    (open_ui : option bool -> Proc Obj)
    (request : CallToolRequest) : Proc CallToolResult :=
  let args := arguments request in
  try_catch
    (if name request =? "render_mermaid" then
       renderResult <- render_mermaid (arg_diagram args) (arg_background args)
                                      (arg_title args) ;;
       ret (text_result (JSON_stringify renderResult 2))
     else if name request =? "open_ui" then
       uiResult <- open_ui (arg_autoOpen args) ;;
       ret (text_result (JSON_stringify uiResult 2))
     else throw (ErrorObject "Error" ("Unknown tool: " ++ name request)))
    (fun error =>
       ret (text_result
              (JSON_stringify [("error", JStr (message_or error "Unknown error"))] 0))).

(** The handler as [setupHandlers] installs it. *)
Definition handleCallTool
    (renderer : string -> option string -> Outcome Obj)
    (detectGitRepo : string -> Outcome (option string))
    (self : EmbeddedMCPServer) (request : CallToolRequest)
    : Proc CallToolResult :=
  callTool (renderMermaid renderer detectGitRepo self) openUI request.

End EmbeddedServer.

(* ===================================================================== *)
(** ** The IPC handlers ([electron/ipc/handlers.ts])                      *)
(* ===================================================================== *)

Module IpcHandlers.
Import Js Electron.
Import EmbeddedServer (call_renderer, call_detectGitRepo).

Definition success_true : Obj := [("success", JBool true)].

Section Collaborators.

Variable renderer : string -> option string -> Outcome Obj.
Variable detectGitRepo : string -> Outcome (option string).

(** [ipcMain.handle(IPC_CHANNELS.DIAGRAM_RENDER, ...)]: the render
    result, with the id of the saved entry when one was saved.  The
    [return result] after the [catch] is the handler of [try_catch]. *)
Definition DIAGRAM_RENDER (diagram : string)
    (background workingDir title : option string) : Proc Obj :=
  result <- call_renderer renderer diagram background ;;
  match workingDir, title with
  | Some wd, Some t =>
      if is_str (get result "type") "success" && truthy_str wd && truthy_str t
      then
        try_catch
          (collection <- call_detectGitRepo detectGitRepo wd ;;
           savedEntry <- HistoryService.saveDiagram diagram t collection ;;
           ret (set result "diagramId" (JStr (HistoryStore.id savedEntry))))
          (fun error =>
             console_error "Failed to save diagram to history:" error ;;;
             ret result)
      else ret result
  | _, _ => ret result
  end.

End Collaborators.

Definition HISTORY_LIST (collection : option string)
    : Proc (list HistoryStore.DiagramEntry) :=
  HistoryService.getDiagrams collection.

Definition HISTORY_SAVE (diagram title : string) (collection : option string)
    : Proc HistoryStore.DiagramEntry :=
  HistoryService.saveDiagram diagram title collection.

Definition HISTORY_UPDATE (id : string) (updates : HistoryStore.PartialFields)
    : Proc Obj :=
  HistoryService.updateDiagram id updates ;;; ret success_true.

Definition HISTORY_DELETE (id : string) : Proc Obj :=
  HistoryService.deleteDiagram id ;;; ret success_true.

Definition HISTORY_MOVE (id : string) (collection : option string) : Proc Obj :=
  HistoryService.moveDiagram id collection ;;; ret success_true.

Definition COLLECTIONS_LIST : Proc (list string) :=
  HistoryService.getCollections.

Definition COLLECTIONS_CREATE (name : string) : Proc Obj :=
  HistoryService.createCollection name ;;; ret success_true.

End IpcHandlers.

(* ===================================================================== *)
(** ** The viewer ([client/src/App.tsx], [hooks/useWindowActive.ts])      *)
(* ===================================================================== *)

Module Viewer.
Import Js.

(** [document.hidden] and [document.hasFocus()]. *)
Record Document : Type := mkDocument {
  hidden : bool;
  hasFocus : bool
}.

(** [useWindowActive]: the state starts from [document.hasFocus()] (or
    [true] without a document) and follows the focus and blur events of
    the window. *)
Inductive WindowEvent : Type :=
| WindowFocus
| WindowBlur.

Definition useWindowActive_initial (document : option Document) : bool :=
  match document with
  | Some d => hasFocus d
  | None => true
  end.

Definition useWindowActive_handle (ev : WindowEvent) (isWindowActive : bool)
    : bool :=
  match ev with
  | WindowFocus => true
  | WindowBlur => false
  end.

(** A callback given to [setTimeout], with its delay in milliseconds. *)
Inductive Timer : Type :=
| FitToScreen (isAutoResize : bool) (delay : nat).

Inductive ConsoleEntry : Type :=
| ConsoleLog (text : string) (args : list JsVal).

(** The state of [App] that [onMessage] touches, the focus state that
    [useWindowActive] keeps, the document, and what the handler leaves
    behind: messages passed to [send], timers set, console output. *)
Record App : Type := mkApp {
  diagram : JsVal;
  status : string;
  hasManuallyZoomed : bool;
  isWindowActive : bool;
  document : Document;
  sent : list Obj;
  timers : list Timer;
  console : list ConsoleEntry
}.

(** [useState("")], [useState("Ready")], [useState(false)]. *)
Definition initial (doc : Document) : App :=
  mkApp (JStr EmptyString) "Ready" false (useWindowActive_initial (Some doc))
        doc [] [] [].

Definition log (text : string) (args : list JsVal) (a : App) : App :=
  mkApp (diagram a) (status a) (hasManuallyZoomed a) (isWindowActive a)
        (document a) (sent a) (timers a)
        (console a ++ [ConsoleLog text args])%list.

(** [setDiagram(d); setStatus(...); setHasManuallyZoomed(false);
    setTimeout(() => handleFitToScreen(true), 100)]. *)
Definition adopt (d : JsVal) (a : App) : App :=
  mkApp d "Rendered successfully (via broadcast)" false (isWindowActive a)
        (document a) (sent a) (timers a ++ [FitToScreen true 100])%list
        (console a).

(** [send(message)] of the connection hook. *)
Definition send (message : Obj) (a : App) : App :=
  mkApp (diagram a) (status a) (hasManuallyZoomed a) (isWindowActive a)
        (document a) (sent a ++ [message])%list (timers a) (console a).

(** The window gains or loses focus. *)
Definition window_event (ev : WindowEvent) (a : App) : App :=
  mkApp (diagram a) (status a) (hasManuallyZoomed a)
        (useWindowActive_handle ev (isWindowActive a))
        (document a) (sent a) (timers a) (console a).

(** The [onMessage] callback of [App]:
<<
  console.log('[WebSocket Message]', data);
  if (data.type === "render_result" && data.diagram) {
    console.log("Updating diagram from WebSocket broadcast");
    setDiagram(data.diagram); ...
  } else if (data.type === "visibility_query") {
    const isVisible = !document.hidden;
    console.log('[Visibility Query] Responding with:', { isVisible, hidden: document.hidden });
    send({ type: "visibility_response", isVisible });
  }
>> *)
Definition onMessage (data : JsVal) (a : App) : App * Outcome unit :=
  let a := log "[WebSocket Message]" [data] a in
  match get_prop data "type", get_prop data "diagram" with
  | Returned ty, Returned d =>
      if is_str ty "render_result" && truthy d then
        (adopt d (log "Updating diagram from WebSocket broadcast" [] a),
         Returned tt)
      else if is_str ty "visibility_query" then
        let isVisible := negb (hidden (document a)) in
        (send [("type", JStr "visibility_response");
               ("isVisible", JBool isVisible)]
              (log "[Visibility Query] Responding with:"
                   [JObj [("isVisible", JBool isVisible);
                          ("hidden", JBool (hidden (document a)))]] a),
         Returned tt)
      else (a, Returned tt)
  | Threw e, _ => (a, Threw e)
  | _, Threw e => (a, Threw e)
  end.

End Viewer.

(* ===================================================================== *)
(** ** [src/electron/main.ts]                                             *)
(* ===================================================================== *)

Module Main.
Import Js Electron.

(** [send(IPC_CHANNELS.MCP_DIAGRAM_UPDATE, { diagram, title, id })]. *)
Definition update_message (diagram title id : string) : IpcMessage :=
  mkIpc MCP_DIAGRAM_UPDATE
        [JObj [("diagram", JStr diagram); ("title", JStr title);
               ("id", JStr id)]].

(** [send(IPC_CHANNELS.MCP_STATUS, { active: true })]. *)
Definition status_message : IpcMessage :=
  mkIpc MCP_STATUS [JObj [("active", JBool true)]].

(** The callback that [initialize] hands to [setDiagramUpdateHandler]:
<<
  const mainWindow = getMainWindow();
  if (mainWindow && !mainWindow.isDestroyed()) {
    console.log(`[Main] Sending diagram update to renderer: ${title} (${id})`);
    mainWindow.webContents.send(IPC_CHANNELS.MCP_DIAGRAM_UPDATE, { diagram, title, id });
  }
>> *)
Definition diagramUpdateHandler (diagram title id : string) : Proc unit :=
  main <- read getMainWindow ;;
  match main with
  | Some w =>
      if negb (destroyed w) then
        console_log ("[Main] Sending diagram update to renderer: "
                     ++ title ++ " (" ++ id ++ ")") ;;;
        send_to (wid w) (update_message diagram title id)
      else ret tt
  | None => ret tt
  end.

(** [mcpServer] once [initialize] has registered the callback. *)
Definition mcpServer : EmbeddedServer.EmbeddedMCPServer :=
  EmbeddedServer.setDiagramUpdateHandler diagramUpdateHandler
    (EmbeddedServer.mkServer false None).

(** [initialize()], on the process: [isMCPMode] is the constant of that
    name, [connect] the completion of [server.connect(transport)].  The
    steps before the window is created (arguments, server object, IPC
    handlers, callback, menu) and [ensureWindowVisible] leave the
    process as it is.
<<
  createMainWindow(preloadPath, isDev);
  ensureWindowVisible();
  if (isMCPMode) {
    console.log('[Main] Detected MCP mode - starting embedded MCP server');
    try {
      await mcpServer.start();
      console.log('[Main] MCP server started successfully');
      const mainWindow = getMainWindow();
      if (mainWindow && !mainWindow.isDestroyed()) {
        mainWindow.webContents.send(IPC_CHANNELS.MCP_STATUS, { active: true });
      }
    } catch (error) { console.error('[Main] Failed to start MCP server:', error); }
  } else { console.log('[Main] Standalone mode - no MCP server'); }
>> *)
Definition initialize (isMCPMode : bool) (connect : Outcome unit) : Proc unit :=
  (fun p => (createMainWindow p, Returned tt)) ;;;
  if isMCPMode then
    console_log "[Main] Detected MCP mode - starting embedded MCP server" ;;;
    try_catch
      (EmbeddedServer.start connect mcpServer ;;;
       console_log "[Main] MCP server started successfully" ;;;
       main <- read getMainWindow ;;
       match main with
       | Some w =>
           if negb (destroyed w) then send_to (wid w) status_message
           else ret tt
       | None => ret tt
       end)
      (fun error => console_error "[Main] Failed to start MCP server:" error)
  else console_log "[Main] Standalone mode - no MCP server".

(** What happens to the windows of the running application. *)
Inductive AppEvent : Type :=
| Activate                                   (* app.on('activate') *)
| WindowClosed (i : nat)                     (* the user closes window i *)
| DiagramUpdate (diagram title id : string)  (* the server calls the callback *)
| FocusWindow                                (* the server calls focusWindow() *)
| ReadyToShow                                (* the window's 'ready-to-show' *)
| SecondInstance                             (* app.on('second-instance') *)
| WindowManager (i : nat) (minimized shown focused : bool).
                                             (* the user or the window manager
                                                acts on window i *)

(** A method of the main window is called; on a destroyed window
    Electron throws and nothing changes. *)
Definition on_main_window (f : BrowserWindow -> BrowserWindow) (p : Process)
    : Process :=
  match getMainWindow p with
  | Some w =>
      if negb (destroyed w)
      then set_windows (update_window (wid w) f (windows p)) p
      else p
  | None => p
  end.

(** - [activate] re-creates the window when none is left;
    - closing a window runs its [close] listener, destroys the window
      and runs its [closed] listener;
    - a diagram update runs the callback above;
    - [focusWindow] raises the first live window;
    - [ready-to-show] runs [mainWindow?.show()];
    - [second-instance] runs, when there is a main window,
      [if (mainWindow.isMinimized()) mainWindow.restore(); mainWindow.focus()];
    - the user or the window manager minimises, restores, hides, shows,
      focuses or blurs a live window. *)
Definition on_event (ev : AppEvent) (p : Process) : Process :=
  match ev with
  | Activate =>
      if (length (getAllWindows p) =? 0)%nat then createMainWindow p else p
  | WindowClosed i =>
      if is_live i p then on_closed (destroy i (on_close p)) else p
  | DiagramUpdate d t i => fst (diagramUpdateHandler d t i p)
  | FocusWindow => fst (EmbeddedServer.focusWindow p)
  | ReadyToShow => on_main_window show_window p
  | SecondInstance => on_main_window restore_and_focus p
  | WindowManager i mi sh fo =>
      if is_live i p
      then set_windows (update_window i (place_window mi sh fo) (windows p)) p
      else p
  end.

(** Two states of the process with the same windows. *)
Definition same_windows (p p' : Process) : Prop :=
  windows p' = windows p /\ mainWindow p' = mainWindow p /\
  next_window p' = next_window p.

(** The states of a running application: [initialize] ran in a process
    without windows, in either mode and whether or not the server
    connected; then window events arrived, and the rest of the process
    (history file, console, clock, disk) changed at will. *)
Inductive running : Process -> Prop :=
| running_init p isMCPMode connect :
    windows p = [] -> mainWindow p = None ->
    running (fst (initialize isMCPMode connect p))
| running_event p ev :
    running p -> running (on_event ev p)
| running_elsewhere p p' :
    running p -> same_windows p p' -> running p'.


(** The main window is the only live window, and window identities are
    never reused. *)
Definition single_window (p : Process) : Prop :=
  viewers p = match mainWindow p with Some i => [i] | None => [] end /\
  NoDup (map wid (windows p)) /\
  (forall w, In w (windows p) -> wid w < next_window p).

End Main.

(* ===================================================================== *)
(** ** Sample inputs                                                      *)
(* ===================================================================== *)

Module Samples.
Import Js Electron Main.

(** A rendering library that accepts every source. *)
Definition accepting_renderer (d : string) (bg : option string) : Outcome Obj :=
  Returned [("type", JStr "success"); ("diagram", JStr d); ("svg", JStr "<svg/>")].

(** A rendering library that rejects every source with an error result. *)
Definition rejecting_renderer (d : string) (bg : option string) : Outcome Obj :=
  Returned [("type", JStr "error"); ("diagram", JStr d);
            ("error", JStr "Parse error on line 1")].


(** A working directory outside any repository. *)
Definition no_repository (dir : string) : Outcome (option string) :=
  Returned None.

(** A process that has just started, without windows. *)
Definition fresh_process : Process :=
  mkProcess "/home/user/project" 1000 true HistoryStore.empty [] [] None 0 [].

(** The same process on a disk that cannot be written. *)
Definition read_only_process : Process :=
  mkProcess "/home/user/project" 1000 false HistoryStore.empty [] [] None 0 [].

(** The application of [main.ts] after [initialize] in MCP mode with a
    server that connected: one window, not yet shown, that has been
    sent the MCP status. *)
Definition started : Process :=
  fst (initialize true (Returned tt) fresh_process).

(** The same on a disk that cannot be written. *)
Definition started_read_only : Process :=
  fst (initialize true (Returned tt) read_only_process).

(** The started application with its window shown and then minimised
    by the user. *)
Definition minimised : Process :=
  on_event (WindowManager 0 true true false) (on_event ReadyToShow started).

(** The UI of the stand-alone entry point with one stored diagram and
    its window minimised. *)
Definition ui_minimised : Process :=
  mkProcess "/home/user/project" 2000 true
    (HistoryStore.mkStore
       [HistoryStore.mkEntry "0" "graph TD;A-->B" "flow" None 1000 1000] [] 1)
    [] [mkWindow 0 false true true false []] (Some 0) 1 [].

(** The server of [main.ts], started. *)
Definition server : EmbeddedServer.EmbeddedMCPServer :=
  EmbeddedServer.mkServer true
    (EmbeddedServer.onDiagramUpdate Main.mcpServer).

Definition render_request : EmbeddedServer.CallToolRequest :=
  EmbeddedServer.mkRequest "render_mermaid"
    (EmbeddedServer.mkArgs "graph TD;A-->B" None (Some "flow") None).

Definition render_result_message (d : string) : JsVal :=
  JObj [("type", JStr "render_result"); ("diagram", JStr d)].

Definition visible_page : Viewer.Document := Viewer.mkDocument false false.

(** A viewer that has adopted a first diagram. *)
Definition viewer_showing_diagram : Viewer.App :=
  fst (Viewer.onMessage (render_result_message "graph TD;A-->B")
         (Viewer.initial visible_page)).

End Samples.


(* ===================================================================== *)
(** ** Command lines ([main.ts], the UI entry point, the MCP server)      *)
(* ===================================================================== *)

Module CommandLine.
Import Js.

(** [args[i]], [undefined] past the end. *)
Definition arg (args : list string) (i : nat) : option string :=
  nth_error args i.

(** [x === flag] for [x : string | undefined]. *)
Definition is_flag (x : option string) (flag : string) : bool :=
  match x with
  | Some s => s =? flag
  | None => false
  end.

(** *** [parseArgs] of [src/electron/main.ts] *)

Record Parsed : Type := mkParsed {
  dataPath : option string;
  disableAnalytics : bool
}.

(** The body of the [for] loop, from index [i]; every turn moves [i]
    forward, so [length args] turns are enough:
<<
  for (let i = 0; i < args.length; i++) {
    if (args[i] === '--data-path' && args[i + 1]) { dataPath = args[i + 1]; i++; }
    if (args[i] === '--disable-analytics') { disableAnalytics = true; }
  }
>> *)
Fixpoint loop (fuel : nat) (args : list string) (i : nat) (r : Parsed) : Parsed :=
  match fuel with
  | O => r
  | S fuel' =>
      if (i <? length args)%nat then
        let hit := is_flag (arg args i) "--data-path" && truthy_opt (arg args (i + 1)) in
        let r1 := if hit then mkParsed (arg args (i + 1)) (disableAnalytics r) else r in
        let i1 := if hit then i + 1 else i in
        let r2 := if is_flag (arg args i1) "--disable-analytics"
                  then mkParsed (dataPath r1) true else r1 in
        loop fuel' args (i1 + 1) r2
      else r
  end.

(** [parseArgs()], from [process.argv]. *)
Definition parseArgs (argv : list string) : Parsed :=
  let args := skipn 2 argv in
  loop (length args) args 0 (mkParsed None false).

(** The same loop as a recursion over the arguments not yet read. *)
Definition mark (s : string) (r : Parsed) : Parsed :=
  if s =? "--disable-analytics" then mkParsed (dataPath r) true else r.

Fixpoint walk (l : list string) (r : Parsed) : Parsed :=
  match l with
  | [] => r
  | a :: rest =>
      match rest with
      | v :: rest' =>
          if (a =? "--data-path") && truthy_str v
          then walk rest' (mark v (mkParsed (Some v) (disableAnalytics r)))
          else walk rest (mark a r)
      | [] => mark a r
      end
  end.

(** *** [parseArgs] of the stand-alone UI entry point *)

Record UiParsed : Type := mkUiParsed {
  ui_dataPath : option string;
  ui_disableAnalytics : bool;
  showDiagramId : option string
}.

(** The loop with its third test:
<<
    if (args[i] === '--show-diagram' && args[i + 1]) { showDiagramId = args[i + 1]; i++; }
>> *)
Fixpoint ui_loop (fuel : nat) (args : list string) (i : nat) (r : UiParsed)
    : UiParsed :=
  match fuel with
  | O => r
  | S fuel' =>
      if (i <? length args)%nat then
        let hit := is_flag (arg args i) "--data-path" && truthy_opt (arg args (i + 1)) in
        let r1 := if hit then mkUiParsed (arg args (i + 1)) (ui_disableAnalytics r)
                                         (showDiagramId r) else r in
        let i1 := if hit then i + 1 else i in
        let r2 := if is_flag (arg args i1) "--disable-analytics"
                  then mkUiParsed (ui_dataPath r1) true (showDiagramId r1) else r1 in
        let show := is_flag (arg args i1) "--show-diagram"
                    && truthy_opt (arg args (i1 + 1)) in
        let r3 := if show then mkUiParsed (ui_dataPath r2) (ui_disableAnalytics r2)
                                          (arg args (i1 + 1)) else r2 in
        let i2 := if show then i1 + 1 else i1 in
        ui_loop fuel' args (i2 + 1) r3
      else r
  end.

Definition ui_parseArgs (argv : list string) : UiParsed :=
  let args := skipn 2 argv in
  ui_loop (length args) args 0 (mkUiParsed None false None).

(** *** The command line that [launchElectronUI] builds

<<
  const args = [electronMainPath];
  if (diagramId) { args.push('--show-diagram', diagramId); }
  if (this.dataPath) { args.push('--data-path', this.dataPath); }
>> *)
Definition launch_args (electronMainPath : string)
    (diagramId dataPath : option string) : list string :=
  ([electronMainPath]
   ++ (match diagramId with
       | Some i => if truthy_str i then ["--show-diagram"; i] else []
       | None => []
       end)
   ++ (match dataPath with
       | Some d => if truthy_str d then ["--data-path"; d] else []
       | None => []
       end))%list.

(** *** The [second-instance] listener of the UI entry point

<<
  const showDiagramIndex = commandLine.indexOf('--show-diagram');
  if (showDiagramIndex !== -1 && commandLine[showDiagramIndex + 1]) {
    const diagramId = commandLine[showDiagramIndex + 1];
>> *)
Fixpoint indexOf (l : list string) (s : string) : option nat :=
  match l with
  | [] => None
  | a :: rest =>
      if a =? s then Some 0
      else match indexOf rest s with
           | Some n => Some (S n)
           | None => None
           end
  end.

Definition requested_diagram (commandLine : list string) : option string :=
  match indexOf commandLine "--show-diagram" with
  | Some showDiagramIndex =>
      if truthy_opt (arg commandLine (showDiagramIndex + 1))
      then arg commandLine (showDiagramIndex + 1)
      else None
  | None => None
  end.

(** What a value survives as when it is passed only if truthy. *)
Definition if_truthy (o : option string) : option string :=
  if truthy_opt o then o else None.

End CommandLine.

(* ===================================================================== *)
(** ** [ensureWindowVisible] of [src/electron/window.ts]                  *)
(* ===================================================================== *)

Module WindowGeometry.

(** Electron's [Rectangle]; its fields are integers. *)
Record Rectangle : Type := mkRectangle {
  x : Z;
  y : Z;
  width : Z;
  height : Z
}.

Local Open Scope Z_scope.

(** The test under [// Check if window is at least partially visible]. *)
Definition isVisible (bounds workArea : Rectangle) : bool :=
  (x bounds <? x workArea + width workArea) &&
  (x bounds + width bounds >? x workArea) &&
  (y bounds <? y workArea + height workArea) &&
  (y bounds + height bounds >? y workArea).

Section Screen.

(** [screen.getDisplayMatching(bounds).workArea]. *)
Variable workAreaMatching : Rectangle -> Rectangle.

(** The bounds of a window after [center()]. *)
Variable center : Rectangle -> Rectangle.

(** [ensureWindowVisible()], on the bounds of the main window ([None]
    when there is no main window): the bounds afterwards. *)
Definition ensureWindowVisible (mainWindow : option Rectangle)
    : option Rectangle :=
  match mainWindow with
  | None => None
  | Some bounds =>
      let workArea := workAreaMatching bounds in
      if negb (isVisible bounds workArea) then Some (center bounds)
      else Some bounds
  end.

End Screen.

(** The pixel [(px, py)] lies in the rectangle. *)
Definition covers (r : Rectangle) (px py : Z) : Prop :=
  x r <= px < x r + width r /\ y r <= py < y r + height r.

End WindowGeometry.

(* ===================================================================== *)
(** ** IPC channels and their handlers                                    *)
(* ===================================================================== *)

Module IpcRegistry.
Import Js.

(** [IPC_CHANNELS] of [electron/ipc/channels.ts], in the order of the
    object literal. *)
Definition IPC_CHANNELS : list (string * string) :=
  [("DIAGRAM_RENDER", "diagram:render");
   ("DIAGRAM_VALIDATE", "diagram:validate");
   ("HISTORY_LIST", "history:list");
   ("HISTORY_SAVE", "history:save");
   ("HISTORY_UPDATE", "history:update");
   ("HISTORY_DELETE", "history:delete");
   ("HISTORY_MOVE", "history:move");
   ("COLLECTIONS_LIST", "collections:list");
   ("COLLECTIONS_CREATE", "collections:create");
   ("APP_GET_STATUS", "app:getStatus");
   ("APP_OPEN_EXTERNAL", "app:openExternal");
   ("APP_SHOW_SAVE_DIALOG", "app:showSaveDialog");
   ("APP_SHOW_OPEN_DIALOG", "app:showOpenDialog");
   ("APP_GET_VERSION", "app:getVersion");
   ("WINDOW_MINIMIZE", "window:minimize");
   ("WINDOW_MAXIMIZE", "window:maximize");
   ("WINDOW_CLOSE", "window:close");
   ("THEME_GET", "theme:get");
   ("THEME_SET", "theme:set")].

(** [IPC_CHANNELS.KEY]; a key that the table lacks reads [undefined]. *)
Fixpoint channel_in (table : list (string * string)) (key : string)
    : option string :=
  match table with
  | [] => None
  | (k, v) :: rest => if k =? key then Some v else channel_in rest key
  end.

Definition channel (key : string) : option string := channel_in IPC_CHANNELS key.

(** [Object.values(IPC_CHANNELS)]. *)
Definition channel_values : list string := map snd IPC_CHANNELS.

(** The channels that have a handler in [ipcMain]. *)
Definition Handlers : Type := list string.

Definition has_handler (hs : Handlers) (ch : string) : bool :=
  existsb (String.eqb ch) hs.

(** [ipcMain.handle(channel, listener)]: Electron refuses a second
    handler for a channel. *)
Definition handle (ch : string) (hs : Handlers) : Handlers * Outcome unit :=
  if has_handler hs ch then
    (hs, Threw (ErrorObject "Error"
                  ("Attempted to register a second handler for '" ++ ch ++ "'")))
  else ((hs ++ [ch])%list, Returned tt).

(** [ipcMain.removeHandler(channel)]. *)
Definition removeHandler (ch : string) (hs : Handlers) : Handlers :=
  filter (fun c => negb (c =? ch)) hs.

(** The keys on which [initializeIPCHandlers] calls [ipcMain.handle], in
    the order of the calls. *)
Definition handled_keys : list string :=
  ["DIAGRAM_RENDER"; "DIAGRAM_VALIDATE";
   "HISTORY_LIST"; "HISTORY_SAVE"; "HISTORY_UPDATE"; "HISTORY_DELETE";
   "HISTORY_MOVE";
   "COLLECTIONS_LIST"; "COLLECTIONS_CREATE";
   "APP_GET_STATUS"; "APP_OPEN_EXTERNAL"; "APP_SHOW_SAVE_DIALOG";
   "APP_SHOW_OPEN_DIALOG"; "APP_GET_VERSION";
   "WINDOW_MINIMIZE"; "WINDOW_MAXIMIZE"; "WINDOW_CLOSE";
   "THEME_GET"; "THEME_SET"].

(** The calls of [ipcMain.handle] one after the other; the first that
    throws ends the function. *)
Fixpoint handle_all (chs : list string) (hs : Handlers)
    : Handlers * Outcome unit :=
  match chs with
  | [] => (hs, Returned tt)
  | ch :: rest =>
      match handle ch hs with
      | (hs', Returned _) => handle_all rest hs'
      | (hs', Threw e) => (hs', Threw e)
      end
  end.

(** The channel names behind a list of keys; a key outside the table
    contributes the name ["undefined"], as [ipcMain.handle(undefined)]
    would. *)
Definition channels_of (keys : list string) : list string :=
  map (fun k => match channel k with
                | Some c => c
                | None => "undefined"
                end) keys.

(** [initializeIPCHandlers], as far as [ipcMain] goes. *)
Definition initializeIPCHandlers (hs : Handlers) : Handlers * Outcome unit :=
  handle_all (channels_of handled_keys) hs.

(** [cleanupIPCHandlers]:
    [Object.values(IPC_CHANNELS).forEach(c => ipcMain.removeHandler(c))]. *)
Definition cleanupIPCHandlers (hs : Handlers) : Handlers :=
  fold_left (fun acc ch => removeHandler ch acc) channel_values hs.

(** No channel name occurs twice in the list. *)
Fixpoint distinct (l : list string) : bool :=
  match l with
  | [] => true
  | a :: rest => negb (existsb (String.eqb a) rest) && distinct rest
  end.

End IpcRegistry.

(* ===================================================================== *)
(** ** Application events and the IPC handlers                            *)
(* ===================================================================== *)

Module AppLifecycle.
Import Js Electron IpcRegistry.

(** The main process with its handler registry; [quit] records a call
    of [app.quit()]. *)
Record MainApp : Type := mkMainApp {
  process : Process;
  handlers : Handlers;
  quit : bool
}.

(** The listener of [main.ts]:
<<
  app.on('window-all-closed', () => {
    cleanupIPCHandlers();
    if (process.platform !== 'darwin') { app.quit(); }
  });
>> *)
Definition window_all_closed (platform : string) (a : MainApp) : MainApp :=
  let hs := cleanupIPCHandlers (handlers a) in
  if negb (platform =? "darwin") then mkMainApp (process a) hs true
  else mkMainApp (process a) hs (quit a).

(** [app.on('activate', ...)]: a window is created when none is open. *)
Definition activate (a : MainApp) : MainApp :=
  mkMainApp (Main.on_event Main.Activate (process a)) (handlers a) (quit a).

End AppLifecycle.

(* ===================================================================== *)
(** ** The stand-alone MCP server ([MindpilotMCPServer])                  *)
(* ===================================================================== *)

Module StandaloneServer.
Import Js Electron CommandLine.
Import EmbeddedServer (rendering, error_result).

(** What the server hands to [logger.info] and [logger.error]. *)
Inductive LogEntry : Type :=
| LogInfo (message : string) (meta : Obj)
| LogError (message : string) (error : Thrown).

(** The server process: the process state shared with the history
    service, the child processes that [spawn] started, with their
    command lines, and the log. *)
Record Node : Type := mkNode {
  proc : Process;
  spawned : list (string * list string);
  log : list LogEntry
}.

Definition set_proc (p : Process) (n : Node) : Node :=
  mkNode p (spawned n) (log n).

Definition logger_info (message : string) (meta : Obj) (n : Node) : Node :=
  mkNode (proc n) (spawned n) (log n ++ [LogInfo message meta])%list.

Definition logger_error (message : string) (error : Thrown) (n : Node) : Node :=
  mkNode (proc n) (spawned n) (log n ++ [LogError message error])%list.

Definition opt_str (o : option string) : JsVal :=
  match o with
  | Some s => JStr s
  | None => JUndefined
  end.

Section Host.

Variable renderer : string -> option string -> Outcome Obj.
Variable detectGitRepo : string -> Outcome (option string).

(** [spawn(command, args, options)] of [child_process]: it starts the
    child or throws. *)
Variable spawn : string -> list string -> Outcome unit.

(** [path.resolve(a, b)] and [path.join(...parts)]. *)
Variable path_resolve : string -> string -> string.
Variable path_join : list string -> string.

(** [__dirname], [process.platform] and [this.dataPath]. *)
Variable dirname : string.
Variable platform : string.
Variable dataPath : option string.

Definition electronMainPath : string :=
  path_resolve dirname "../electron/main.js".

Definition electronBin : string :=
  path_join [path_resolve dirname "../.."; "node_modules"; ".bin";
             if platform =? "win32" then "electron.cmd" else "electron"].

(** [launchElectronUI(diagramId?)]; the whole body is in a [try] whose
    [catch] logs the failure. *)
Definition launchElectronUI (diagramId : option string) (n : Node) : Node :=
  let args := launch_args electronMainPath diagramId dataPath in
  let n1 := logger_info "Launching Electron UI"
              [("diagramId", opt_str diagramId);
               ("electronMainPath", JStr electronMainPath)] n in
  let n2 := logger_info "Using electron binary"
              [("electronBin", JStr electronBin)] n1 in
  match spawn electronBin args with
  | Returned _ =>
      mkNode (proc n2) (spawned n2 ++ [(electronBin, args)])%list (log n2)
  | Threw error => logger_error "Failed to launch Electron UI" error n2
  end.

Definition saved_line (title id : string) : string :=
  "Saved diagram " ++ String dquote (title ++ String dquote
    (" with ID " ++ id)).

(** The block under [// Save to history]: the id of the saved entry, or
    [None] for [undefined]. *)
Definition save_to_history (diagram : string) (title : option string)
    (n : Node) : Node * option string :=
  match title with
  | Some t =>
      if truthy_str t then
        match detectGitRepo (cwd (proc n)) with
        | Returned collection =>
            match HistoryService.saveDiagram diagram t collection (proc n) with
            | (p1, Returned savedEntry) =>
                (logger_info (saved_line t (HistoryStore.id savedEntry)) []
                   (set_proc p1 n),
                 Some (HistoryStore.id savedEntry))
            | (p1, Threw error) =>
                (logger_error "Failed to save diagram to history" error
                   (set_proc p1 n),
                 None)
            end
        | Threw error =>
            (logger_error "Failed to save diagram to history" error n, None)
        end
      else (n, None)
  | None => (n, None)
  end.

(** [handleRenderMermaid(diagram, background?, title?)].  After the call
    of the library nothing can throw, the two later blocks catch their
    own exceptions, so the outer [catch] only sees the library's. *)
Definition handleRenderMermaid (diagram : string)
    (background title : option string) (n : Node) : Node * Obj :=
  let n0 := set_proc (rendering diagram background (proc n)) n in
  match renderer diagram background with
  | Returned result =>
      if is_str (get result "type") "error" then (n0, result)
      else
        let (n1, diagramId) := save_to_history diagram title n0 in
        let n2 := if truthy_opt diagramId then launchElectronUI diagramId n1
                  else n1 in
        (n2, set result "type" (JStr "success"))
  | Threw error => (n0, error_result diagram error)
  end.

(** [handleOpenUI()]. *)
Definition handleOpenUI (n : Node) : Node * Obj :=
  (launchElectronUI None n, [("message", JStr "Mindpilot UI launched")]).

End Host.

End StandaloneServer.

(* ===================================================================== *)
(** ** The [second-instance] listener of the UI entry point               *)
(* ===================================================================== *)

Module SecondInstance.
Import Js Electron CommandLine.

(** The methods of [BrowserWindow] that the listener calls. *)
Inductive Method : Type :=
| Restore
| Show
| Focus.

(** The flags of the window after the method: [restore()] ends the
    minimised state, [show()] shows the window and gives it the focus,
    [focus()] gives it the focus. *)
Definition after (m : Method) (w : BrowserWindow) : BrowserWindow :=
  match m with
  | Restore =>
      mkWindow (wid w) (destroyed w) false (shown w) (focused w) (received w)
  | Show =>
      mkWindow (wid w) (destroyed w) (minimized w) true true (received w)
  | Focus =>
      mkWindow (wid w) (destroyed w) (minimized w) (shown w) true (received w)
  end.

(** [mainWindow?.webContents.send(IPC_CHANNELS.WINDOW_FOCUS)]. *)
Definition window_focus_message : IpcMessage := mkIpc WINDOW_FOCUS [].

(** [diagrams.find(d => d.id === diagramId)]. *)
Definition find_diagram (diagrams : list HistoryStore.DiagramEntry)
    (diagramId : string) : option HistoryStore.DiagramEntry :=
  find (fun d => HistoryStore.id d =? diagramId) diagrams.

Section Listeners.

(** The newest [window.ts] installs on the main window
<<
  mainWindow.on('focus', () => { mainWindow?.webContents.send(IPC_CHANNELS.WINDOW_FOCUS); });
  mainWindow.on('show', () => { mainWindow?.webContents.send(IPC_CHANNELS.WINDOW_FOCUS); });
>>
    [notices m w] is the number of [focus] and [show] events that
    Electron emits, and so the number of runs of these listeners, while
    it carries out method [m] on the window in state [w]; it is zero
    for a [window.ts] without these listeners. *)
Variable notices : Method -> BrowserWindow -> nat.

(** The window after the method and the listeners it set off. *)
Definition perform (m : Method) (w : BrowserWindow) : BrowserWindow :=
  mkWindow (wid w) (destroyed (after m w)) (minimized (after m w))
           (shown (after m w)) (focused (after m w))
           (received w ++ repeat window_focus_message (notices m w))%list.

(** The method called on the window object [i]. *)
Definition call (m : Method) (i : nat) : Proc unit :=
  fun p => (set_windows (update_window i (perform m) (windows p)) p,
            Returned tt).

(** The listener, with the promise of [getDiagrams()] settled at once:
<<
  const mainWindow = getMainWindow();
  if (mainWindow) {
    if (mainWindow.isMinimized()) { mainWindow.restore(); }
    mainWindow.show();
    mainWindow.focus();
    const showDiagramIndex = commandLine.indexOf('--show-diagram');
    if (showDiagramIndex !== -1 && commandLine[showDiagramIndex + 1]) {
      const diagramId = commandLine[showDiagramIndex + 1];
      console.log(`[Main] Second instance requested diagram: ${diagramId}`);
      historyService.getDiagrams().then(diagrams => {
        const diagram = diagrams.find(d => d.id === diagramId);
        if (diagram) {
          mainWindow.webContents.send(IPC_CHANNELS.MCP_DIAGRAM_UPDATE,
            { diagram: diagram.diagram, title: diagram.title, id: diagram.id });
        }
      }).catch(error => { console.error('[Main] Failed to load diagram:', error); });
    }
  }
>> *)
Definition second_instance (commandLine : list string) : Proc unit :=
  main <- read getMainWindow ;;
  match main with
  | Some mainWindow =>
      (if minimized mainWindow then call Restore (wid mainWindow) else ret tt) ;;;
      call Show (wid mainWindow) ;;;
      call Focus (wid mainWindow) ;;;
      match requested_diagram commandLine with
      | Some diagramId =>
          console_log ("[Main] Second instance requested diagram: " ++ diagramId) ;;;
          try_catch
            (diagrams <- HistoryService.getDiagrams None ;;
             match find_diagram diagrams diagramId with
             | Some d =>
                 send_to (wid mainWindow)
                   (mkIpc MCP_DIAGRAM_UPDATE
                      [JObj [("diagram", JStr (HistoryStore.diagram d));
                             ("title", JStr (HistoryStore.title d));
                             ("id", JStr (HistoryStore.id d))]])
             | None => ret tt
             end)
            (fun error => console_error "[Main] Failed to load diagram:" error)
      | None => ret tt
      end
  | None => ret tt
  end.

End Listeners.

End SecondInstance.

(* ===================================================================== *)
(** ** The saved window state ([getWindowState] of [window.ts])           *)
(* ===================================================================== *)

Module WindowState.
Import Js Electron.



Section Parser.

(** [JSON.parse]. *)
Variable JSON_parse : string -> Outcome JsVal.


End Parser.

End WindowState.

(* ===================================================================== *)
(** ** The messages of one connection, as the viewer handles them         *)
(* ===================================================================== *)

Module ViewerRuns.
Import Js Viewer.

(** [onMessage] on each message of the connection in turn. *)
Definition deliver (messages : list JsVal) (a : App) : App :=
  fold_left (fun a data => fst (onMessage data a)) messages a.

(** The diagram of a message that [onMessage] adopts:
    [data.type === "render_result" && data.diagram]. *)
Definition adopted (data : JsVal) : option JsVal :=
  match get_prop data "type", get_prop data "diagram" with
  | Returned ty, Returned d =>
      if is_str ty "render_result" && truthy d then Some d else None
  | _, _ => None
  end.

(** [data.type === "visibility_query"]. *)
Definition is_query (data : JsVal) : bool :=
  match get_prop data "type" with
  | Returned ty => is_str ty "visibility_query"
  | Threw _ => false
  end.

(** The last diagram adopted from the messages, [d] when there is none. *)
Definition last_adopted (messages : list JsVal) (d : JsVal) : JsVal :=
  fold_left (fun d data => match adopted data with
                           | Some d' => d'
                           | None => d
                           end) messages d.

Definition visibility_response (hidden : bool) : Obj :=
  [("type", JStr "visibility_response"); ("isVisible", JBool (negb hidden))].

End ViewerRuns.
(* ===================================================================== *)
(** * Properties                                                          *)
(* ===================================================================== *)

(** ** History store: identifiers *)

Section StoreFacts.
Import HistoryStore.

Lemma fresh_id_inj (a b : nat) : fresh_id a = fresh_id b -> a = b.
Proof.
  unfold fresh_id. intro H.
  assert (Hu : Nat.to_uint a = Nat.to_uint b).
  { apply (f_equal NilEmpty.uint_of_string) in H.
    rewrite !NilEmpty.usu in H. congruence. }
  apply (f_equal Nat.of_uint) in Hu.
  now rewrite !DecimalNat.Unsigned.of_to in Hu.
Qed.

Lemma well_formed_empty : well_formed empty.
Proof.
  split; [constructor | intros e []].
Qed.

Lemma persist_ok {A : Type} (env : Env) (a b : A) :
  persist env a = Ok b -> a = b /\ writable env = true.
Proof.
  unfold persist. destruct (writable env); intro H; inversion H; auto.
Qed.

Lemma NoDup_map_filter {A B : Type} (f : A -> B) (g : A -> bool) (l : list A) :
  NoDup (map f l) -> NoDup (map f (filter g l)).
Proof.
  induction l as [|x l IH]; simpl; intro H; [constructor|].
  inversion H as [|? ? Hnin Hnd]; subst.
  destruct (g x); simpl; auto.
  constructor; auto.
  intro Hin. apply Hnin. apply in_map_iff in Hin.
  destruct Hin as [y [Hy Hin]]. apply filter_In in Hin.
  apply in_map_iff. exists y. tauto.
Qed.

Lemma map_id_amend (i : EntryId) (p : PartialFields) (t : Z) (l : list DiagramEntry) :
  map id (map (fun e => if has_id i e then amend p t e else e) l) = map id l.
Proof.
  induction l as [|x l IH]; simpl; [reflexivity|].
  rewrite IH. destruct (has_id i x); reflexivity.
Qed.

Lemma in_amended (i : EntryId) (p : PartialFields) (t : Z) (l : list DiagramEntry) e :
  In e (map (fun e => if has_id i e then amend p t e else e) l) ->
  exists e0, In e0 l /\ id e = id e0.
Proof.
  intro H. apply in_map_iff in H. destruct H as [e0 [He Hin]].
  exists e0. split; auto. subst e. destruct (has_id i e0); reflexivity.
Qed.

(** A call that failed, or that rewrote entries in place, keeps the ids
    and issues none. *)
Ltac ids_kept :=
  (split; [lia | split; [| split]]); auto; try discriminate;
  try (intros ? ?; left; eauto; fail).

(** The shape of the store after one call. *)
Lemma call_shape (env : Env) (c : Call) (st : Store) :
  let st' := fst (call env c st) in
  issued st <= issued st' /\
  (forall e, In e (entries st') ->
     (exists e0, In e0 (entries st) /\ id e = id e0) \/
     (id e = fresh_id (issued st) /\ issued st' = S (issued st) /\
      snd (call env c st) = Some e)) /\
  (NoDup (map id (entries st)) -> issued_ids st -> NoDup (map id (entries st'))) /\
  (forall e, snd (call env c st) = Some e ->
     id e = fresh_id (issued st) /\ issued st' = S (issued st)).
Proof.
  destruct c as [d t col | i p | i | i col | name]; simpl.
  - unfold saveDiagram, persist. destruct (writable env); simpl; [|ids_kept].
    split; [lia | split; [| split]].
    + intros e He. apply in_app_or in He. destruct He as [He | [He | []]].
      * left. eauto.
      * right. subst e. auto.
    + intros Hnd Hiss. rewrite map_app. simpl.
      apply NoDup_app.
      * exact Hnd.
      * repeat constructor. intros [].
      * intros x Hx [Hx' | []]. subst x.
        apply in_map_iff in Hx. destruct Hx as [e [He Hin]].
        destruct (Hiss e Hin) as [k [Hk Hid]].
        rewrite Hid in He. apply fresh_id_inj in He. lia.
    + intros e He. inversion He. auto.
  - unfold updateDiagram, persist.
    destruct (exists_id i st); destruct (writable env); simpl; ids_kept.
    + intros e He. left. eapply in_amended; eauto.
    + intros Hnd _. now rewrite map_id_amend.
  - unfold deleteDiagram, persist.
    destruct (exists_id i st); destruct (writable env); simpl; ids_kept.
    + intros e He. apply filter_In in He. left. exists e. tauto.
    + intros Hnd _. now apply NoDup_map_filter.
  - unfold moveDiagram, updateDiagram, persist.
    destruct (exists_id i st); destruct (writable env); simpl; ids_kept.
    + intros e He. left. eapply in_amended; eauto.
    + intros Hnd _. now rewrite map_id_amend.
  - unfold createCollection, persist.
    destruct (known name (collections st)); destruct (writable env); simpl;
      ids_kept.
Qed.

Lemma call_well_formed (env : Env) (c : Call) (st : Store) :
  well_formed st -> well_formed (fst (call env c st)).
Proof.
  intros [Hnd Hiss].
  destruct (call_shape env c st) as [Hle [Hin [Hnd' _]]].
  split; [auto|].
  intros e He. destruct (Hin e He) as [[e0 [He0 Hid]] | [Hid [Hs _]]].
  - destruct (Hiss e0 He0) as [k [Hk Hk']]. exists k. split; [lia | congruence].
  - exists (issued st). split; [lia | assumption].
Qed.

Lemma run_well_formed (cs : list (Env * Call)) (st : Store) :
  well_formed st -> well_formed (run cs st).
Proof.
  revert st. induction cs as [|[env c] cs IH]; simpl; intros st H; auto.
  apply IH. now apply call_well_formed.
Qed.

(** The entries returned by a run carry ids not issued before it, all
    different. *)
Lemma saved_fresh (cs : list (Env * Call)) (st : Store) :
  NoDup (map id (saved cs st)) /\
  forall e, In e (saved cs st) -> exists k, issued st <= k /\ id e = fresh_id k.
Proof.
  revert st. induction cs as [|[env c] cs IH]; intro st; simpl.
  - split; [constructor | intros e []].
  - destruct (call_shape env c st) as [Hle [_ [_ Hret]]].
    destruct (call env c st) as [st' [e|]] eqn:Hc; simpl in *.
    + destruct (Hret e eq_refl) as [Hid Hs].
      destruct (IH st') as [Hnd Hfresh]. split.
      * simpl. constructor; auto.
        intro Hin. apply in_map_iff in Hin. destruct Hin as [e' [He' Hin]].
        destruct (Hfresh e' Hin) as [k [Hk Hk']].
        rewrite Hid, Hk' in He'. apply fresh_id_inj in He'. lia.
      * intros e' [He' | He'].
        -- subst e'. exists (issued st). split; [lia | assumption].
        -- destruct (Hfresh e' He') as [k [Hk Hk']]. exists k. split; [lia | assumption].
    + destruct (IH st') as [Hnd Hfresh]. split; auto.
      intros e' He'. destruct (Hfresh e' He') as [k [Hk Hk']].
      exists k. split; [lia | assumption].
Qed.

End StoreFacts.

Section StoreClaims.
Import HistoryStore.

Lemma exists_id_In (i : EntryId) (st : Store) :
  exists_id i st = true <-> exists e, In e (entries st) /\ id e = i.
Proof.
  unfold exists_id, has_id. rewrite existsb_exists.
  split; intros [e [He Hi]]; exists e; split; auto; now apply String.eqb_eq.
Qed.

Lemma exists_id_false (i : EntryId) (st : Store) :
  (forall e, In e (entries st) -> id e <> i) -> exists_id i st = false.
Proof.
  intro H. destruct (exists_id i st) eqn:E; [|reflexivity].
  apply exists_id_In in E. destruct E as [e [He Hi]]. now elim (H e He).
Qed.

Lemma call_retired (i : EntryId) (env : Env) (c : Call) (st : Store) :
  retired i st -> retired i (fst (call env c st)).
Proof.
  intros [Hout [k [Hk Hi]]].
  destruct (call_shape env c st) as [Hle [Hin _]].
  split.
  - intros e He Heq. destruct (Hin e He) as [[e0 [He0 Hid]] | [Hid _]].
    + apply (Hout e0 He0). congruence.
    + rewrite Heq, Hi in Hid. apply fresh_id_inj in Hid. lia.
  - exists k. split; [lia | assumption].
Qed.

Lemma run_retired (i : EntryId) (cs : list (Env * Call)) (st : Store) :
  retired i st -> retired i (run cs st).
Proof.
  revert st. induction cs as [|[env c] cs IH]; simpl; intros st H; auto.
  apply IH. now apply call_retired.
Qed.

Lemma getDiagrams_incl (c : option string) (st : Store) e :
  In e (getDiagrams c st) -> In e (entries st).
Proof.
  destruct c; simpl; auto. intro H. apply filter_In in H. tauto.
Qed.

Lemma nth_error_amended (i : EntryId) (p : PartialFields) (t : Z)
    (l : list DiagramEntry) (n : nat) e :
  nth_error l n = Some e ->
  nth_error (map (fun e => if has_id i e then amend p t e else e) l) n
  = Some (if has_id i e then amend p t e else e).
Proof.
  intro H. rewrite nth_error_map, H. reflexivity.
Qed.

(** C1. For every sequence of calls on a new history store, the entries
    returned by its [saveDiagram] calls carry pairwise distinct ids, and
    at no point of the store's life do two of its entries share an id. *)
Theorem C1_saved_ids_unique (cs : list (Env * Call)) :
  NoDup (map id (saved cs empty)) /\
  NoDup (map id (entries (run cs empty))).
Proof.
  split.
  - apply saved_fresh.
  - apply (run_well_formed cs empty well_formed_empty).
Qed.

(** C8. Once [deleteDiagram(id)] has succeeded on a store, no later
    [getDiagrams] result, after whatever calls, holds an entry with that
    id, and a further [deleteDiagram(id)] fails with [NotFoundError]. *)
Theorem C8_delete_is_final (before later : list (Env * Call)) (i : EntryId)
    (env env' : Env) (st' : Store) :
  deleteDiagram i env (run before empty) = Ok st' ->
  (forall c e, In e (getDiagrams c (run later st')) -> id e <> i) /\
  deleteDiagram i env' (run later st') = Err NotFoundError.
Proof.
  intro Hdel.
  pose proof (run_well_formed before empty well_formed_empty) as [_ Hiss].
  set (st := run before empty) in *.
  assert (Hret : retired i st').
  { unfold deleteDiagram in Hdel.
    destruct (exists_id i st) eqn:Hex; [|discriminate].
    apply persist_ok in Hdel. destruct Hdel as [Hst _]. subst st'. simpl.
    split.
    - intros e He Heq. apply filter_In in He. destruct He as [_ He].
      unfold has_id in He. apply String.eqb_eq in Heq. now rewrite Heq in He.
    - apply exists_id_In in Hex. destruct Hex as [e [He Hid]].
      destruct (Hiss e He) as [k [Hk Hk']]. exists k. split; [assumption | congruence]. }
  pose proof (run_retired i later st' Hret) as [Hout _].
  split.
  - intros c e He. apply Hout. eapply getDiagrams_incl; eauto.
  - unfold deleteDiagram. now rewrite (exists_id_false _ _ Hout).
Qed.

Lemma C8_delete_is_final_witness :
  deleteDiagram "0" (mkEnv 2000 true)
    (run [(mkEnv 1000 true, CallSave "graph TD;A-->B" "flow" None)] empty)
  = Ok (mkStore [] [] 1) /\
  ((forall c e,
      In e (getDiagrams c
              (run [(mkEnv 3000 true, CallSave "graph LR;X-->Y" "next" (Some "project-x"))]
                   (mkStore [] [] 1))) -> id e <> "0") /\
   deleteDiagram "0" (mkEnv 4000 true)
     (run [(mkEnv 3000 true, CallSave "graph LR;X-->Y" "next" (Some "project-x"))]
          (mkStore [] [] 1))
   = Err NotFoundError).
Proof.
  split; [reflexivity|].
  apply (C8_delete_is_final
           [(mkEnv 1000 true, CallSave "graph TD;A-->B" "flow" None)]
           [(mkEnv 3000 true, CallSave "graph LR;X-->Y" "next" (Some "project-x"))]
           "0" (mkEnv 2000 true) (mkEnv 4000 true) (mkStore [] [] 1)).
  reflexivity.
Defined.

(** C9. [updateDiagram(id, partialFields)] fails with [NotFoundError]
    when no entry has the id.  When it succeeds, every entry stays at its
    place with its [id] and [createdAt]; the entries with another id are
    untouched; in the entry with that id each supplied field takes the
    supplied value, each field not supplied keeps its value, and
    [updatedAt] is the time of the call.  In particular
    [updateDiagram(id, {title: t2})] leaves [diagram], [collection],
    [id] and [createdAt] of the entry, and the collections, as they were. *)
Theorem C9_update_isolation (st : Store) (i : EntryId) (p : PartialFields)
    (env : Env) :
  ((forall e, In e (entries st) -> id e <> i) ->
   updateDiagram i p env st = Err NotFoundError) /\
  (forall st', updateDiagram i p env st = Ok st' ->
     length (entries st') = length (entries st) /\
     issued st' = issued st /\
     (new_collection p = None -> collections st' = collections st) /\
     forall n e, nth_error (entries st) n = Some e ->
       exists e', nth_error (entries st') n = Some e' /\
         id e' = id e /\ createdAt e' = createdAt e /\
         (id e <> i -> e' = e) /\
         (id e = i ->
            updatedAt e' = now env /\
            title e' = match new_title p with Some t => t | None => title e end /\
            diagram e' = match new_diagram p with Some d => d | None => diagram e end /\
            collection e' = match new_collection p with Some c => c | None => collection e end)).
Proof.
  split.
  - intro H. unfold updateDiagram. now rewrite (exists_id_false _ _ H).
  - intros st' H. unfold updateDiagram in H.
    destruct (exists_id i st); [|discriminate].
    apply persist_ok in H. destruct H as [Hst _]. subst st'. simpl.
    split; [now rewrite length_map|]. split; [reflexivity|].
    split; [intro Hc; now rewrite Hc|].
    intros n e Hn. rewrite (nth_error_amended i p (now env) _ n e Hn).
    eexists. split; [reflexivity|].
    unfold has_id. destruct (id e =? i) eqn:E.
    + apply String.eqb_eq in E. simpl.
      repeat split; try tauto.
    + apply String.eqb_neq in E. repeat split; tauto.
Qed.

Lemma C9_update_isolation_witness :
  exists st',
    updateDiagram "0" (mkPartial (Some "t2") None None) (mkEnv 2000 true)
      (mkStore [mkEntry "0" "graph TD;A-->B" "flow" (Some "project-x") 1000 1000]
               ["project-x"] 1) = Ok st' /\
    collections st' = ["project-x"] /\
    exists e',
      nth_error (entries st') 0 = Some e' /\
      id e' = "0" /\ createdAt e' = 1000%Z /\ updatedAt e' = 2000%Z /\
      title e' = "t2" /\ diagram e' = "graph TD;A-->B" /\
      collection e' = Some "project-x".
Proof.
  eexists. split; [reflexivity|].
  destruct (proj2 (C9_update_isolation
              (mkStore [mkEntry "0" "graph TD;A-->B" "flow" (Some "project-x") 1000 1000]
                       ["project-x"] 1)
              "0" (mkPartial (Some "t2") None None) (mkEnv 2000 true)) _ eq_refl)
    as [_ [_ [Hc Hn]]].
  split; [exact (Hc eq_refl)|].
  destruct (Hn 0 _ eq_refl) as [e' [He' [Hid [Hcr [_ Hup]]]]].
  destruct (Hup eq_refl) as [Hu [Ht [Hd Hcol]]].
  exists e'. simpl in *. repeat split; assumption.
Defined.

End StoreClaims.

(** ** Main process: fan-out of diagram updates *)

Section WindowFacts.
Import Js Electron Main.

Lemma find_is_window (i : nat) (ws : list BrowserWindow) w :
  find (is_window i) ws = Some w -> In w ws /\ wid w = i.
Proof.
  intro H. apply find_some in H. destruct H as [Hin Hw].
  split; auto. now apply Nat.eqb_eq.
Qed.

Lemma NoDup_map_eq {A B : Type} (f : A -> B) (l : list A) (a b : A) :
  NoDup (map f l) -> In a l -> In b l -> f a = f b -> a = b.
Proof.
  induction l as [|x l IH]; simpl; [tauto|].
  intros Hnd Ha Hb Hf. inversion Hnd as [|? ? Hnin Hnd']; subst.
  destruct Ha as [Ha | Ha]; destruct Hb as [Hb | Hb]; subst; auto.
  - elim Hnin. rewrite Hf. now apply in_map.
  - elim Hnin. rewrite <- Hf. now apply in_map.
Qed.

Lemma find_live (i : nat) (p : Process) :
  NoDup (map wid (windows p)) -> In i (viewers p) ->
  exists w, find (is_window i) (windows p) = Some w /\ wid w = i /\
            destroyed w = false.
Proof.
  intros Hnd Hin. unfold viewers, getAllWindows in Hin.
  apply in_map_iff in Hin. destruct Hin as [w0 [Hw0 Hin]].
  apply filter_In in Hin. destruct Hin as [Hin Hlive].
  destruct (find (is_window i) (windows p)) as [w|] eqn:Hf.
  - destruct (find_is_window _ _ _ Hf) as [Hw Hi].
    assert (w = w0) by (eapply NoDup_map_eq; eauto; congruence).
    subst w0. exists w. repeat split; auto.
    now destruct (destroyed w).
  - exfalso. apply (find_none _ _ Hf) in Hin.
    unfold is_window in Hin. rewrite Hw0, Nat.eqb_refl in Hin. discriminate.
Qed.

Lemma find_update_window (v j : nat) (f : BrowserWindow -> BrowserWindow)
    (ws : list BrowserWindow) :
  (forall w, wid (f w) = wid w) ->
  find (is_window v) (update_window j f ws)
  = option_map (fun w => if is_window j w then f w else w)
               (find (is_window v) ws).
Proof.
  intro Hf. induction ws as [|x ws IH]; simpl; [reflexivity|].
  assert (E : is_window v (if is_window j x then f x else x) = is_window v x).
  { unfold is_window. destruct (wid x =? j)%nat; [now rewrite Hf | reflexivity]. }
  rewrite E. destruct (is_window v x); [reflexivity | exact IH].
Qed.

Lemma live_update_window (j : nat) (f : BrowserWindow -> BrowserWindow)
    (ws : list BrowserWindow) :
  (forall w, wid (f w) = wid w) -> (forall w, destroyed (f w) = destroyed w) ->
  map wid (filter (fun w => negb (destroyed w)) (update_window j f ws))
  = map wid (filter (fun w => negb (destroyed w)) ws).
Proof.
  intros Hw Hd. induction ws as [|x ws IH]; simpl; [reflexivity|].
  destruct (is_window j x).
  - rewrite Hd. destruct (destroyed x); simpl; [exact IH | now rewrite Hw, IH].
  - destruct (destroyed x); simpl; [exact IH | now rewrite IH].
Qed.

Lemma wid_update_window (j : nat) (f : BrowserWindow -> BrowserWindow)
    (ws : list BrowserWindow) :
  (forall w, wid (f w) = wid w) ->
  map wid (update_window j f ws) = map wid ws.
Proof.
  intro Hw. induction ws as [|x ws IH]; simpl; [reflexivity|].
  rewrite IH. destruct (is_window j x); [now rewrite Hw | reflexivity].
Qed.

Lemma live_after_close (i : nat) (ws : list BrowserWindow) :
  map wid (filter (fun w => negb (destroyed w)) (update_window i close_window ws))
  = filter (fun k => negb (k =? i)%nat)
           (map wid (filter (fun w => negb (destroyed w)) ws)).
Proof.
  induction ws as [|x ws IH]; simpl; [reflexivity|].
  unfold is_window. destruct (wid x =? i)%nat eqn:E; simpl.
  - destruct (destroyed x); simpl; [exact IH | now rewrite E].
  - destruct (destroyed x); simpl; [exact IH | now rewrite E, IH].
Qed.

(** What the handler does, by cases on the main window. *)
Lemma diagramUpdateHandler_eq (d t i : string) (p : Process) :
  fst (diagramUpdateHandler d t i p) =
  match getMainWindow p with
  | Some w =>
      if negb (destroyed w) then
        set_windows
          (update_window (wid w) (webContents_send (update_message d t i))
                         (windows p))
          (set_console
             (console p ++ [ConsoleLog ("[Main] Sending diagram update to renderer: "
                                         ++ t ++ " (" ++ i ++ ")")])%list p)
      else p
  | None => p
  end.
Proof.
  unfold diagramUpdateHandler, bind, read.
  destruct (getMainWindow p) as [w|]; [|reflexivity].
  destruct (destroyed w); reflexivity.
Qed.

Lemma single_window_create (p : Process) :
  getAllWindows p = [] -> NoDup (map wid (windows p)) ->
  (forall w, In w (windows p) -> wid w < next_window p) ->
  single_window (createMainWindow p).
Proof.
  intros Hlive Hnd Hlt. unfold single_window, viewers, getAllWindows in *.
  simpl. split; [|split].
  - rewrite filter_app, Hlive. reflexivity.
  - rewrite map_app. simpl. apply NoDup_app; auto.
    + repeat constructor. intros [].
    + intros x Hx [Hx' | []]. subst x.
      apply in_map_iff in Hx. destruct Hx as [w [Hw Hin]].
      apply Hlt in Hin. lia.
  - intros w Hw. apply in_app_or in Hw. destruct Hw as [Hw | [Hw | []]].
    + apply Hlt in Hw. lia.
    + subst w. simpl. lia.
Qed.

Lemma single_window_update (j : nat) (f : BrowserWindow -> BrowserWindow)
    (p : Process) :
  (forall w, wid (f w) = wid w) -> (forall w, destroyed (f w) = destroyed w) ->
  single_window p ->
  single_window (set_windows (update_window j f (windows p)) p).
Proof.
  intros Hw Hd [Hv [Hnd Hlt]].
  unfold single_window, viewers, getAllWindows in *. simpl.
  split; [|split].
  - now rewrite live_update_window.
  - now rewrite wid_update_window.
  - intros w' Hin. unfold update_window in Hin. apply in_map_iff in Hin.
    destruct Hin as [w0 [Hw0 Hin]]. apply Hlt in Hin.
    destruct (is_window j w0); subst w'; [rewrite Hw|]; assumption.
Qed.

Lemma single_window_on_main (f : BrowserWindow -> BrowserWindow) (p : Process) :
  (forall w, wid (f w) = wid w) -> (forall w, destroyed (f w) = destroyed w) ->
  single_window p -> single_window (on_main_window f p).
Proof.
  intros Hw Hd Hs. unfold on_main_window.
  destruct (getMainWindow p) as [w|]; [|exact Hs].
  destruct (destroyed w); [exact Hs|]. now apply single_window_update.
Qed.

Lemma single_window_event (ev : AppEvent) (p : Process) :
  single_window p -> single_window (on_event ev p).
Proof.
  intro Hs.
  destruct ev as [| i | d t i | | | | i mi sh fo];
    try (apply single_window_on_main; [reflexivity | reflexivity | exact Hs]).
  5: { simpl. destruct (is_live i p); [|exact Hs].
       apply single_window_update; [reflexivity | reflexivity | exact Hs]. }
  all: destruct Hs as [Hv [Hnd Hlt]]; simpl.
  - destruct (length (getAllWindows p) =? 0)%nat eqn:E; [|now repeat split].
    apply Nat.eqb_eq in E. apply length_zero_iff_nil in E.
    now apply single_window_create.
  - destruct (is_live i p) eqn:E; [|now repeat split].
    assert (Hcw : windows (on_close p) = windows p)
      by (unfold on_close; destruct (mainWindow p); reflexivity).
    assert (Hcn : next_window (on_close p) = next_window p)
      by (unfold on_close; destruct (mainWindow p); reflexivity).
    unfold single_window, viewers, getAllWindows in *. simpl. rewrite Hcw, Hcn.
    split; [|split].
    + rewrite live_after_close.
      unfold is_live, getAllWindows in E. apply existsb_exists in E.
      destruct E as [w [Hw Hi]]. apply Nat.eqb_eq in Hi.
      assert (Hin : In i (map wid (filter (fun w => negb (destroyed w)) (windows p)))).
      { apply in_map_iff. eauto. }
      rewrite Hv in *. destruct (mainWindow p) as [j|]; [|destruct Hin].
      destruct Hin as [Hin | []]. subst j. simpl. now rewrite Nat.eqb_refl.
    + now rewrite wid_update_window.
    + intros w Hw. unfold update_window in Hw. apply in_map_iff in Hw.
      destruct Hw as [w0 [Hw0 Hin]]. apply Hlt in Hin.
      destruct (is_window i w0); subst w; simpl; assumption.
  - rewrite diagramUpdateHandler_eq.
    destruct (getMainWindow p) as [w|]; [|now repeat split].
    destruct (destroyed w); simpl; [now repeat split|].
    unfold single_window, viewers, getAllWindows in *. simpl.
    split; [|split].
    + now rewrite live_update_window.
    + now rewrite wid_update_window.
    + intros w' Hw. unfold update_window in Hw. apply in_map_iff in Hw.
      destruct Hw as [w0 [Hw0 Hin]]. apply Hlt in Hin.
      destruct (is_window (wid w) w0); subst w'; simpl; assumption.
  - unfold EmbeddedServer.focusWindow.
    destruct (getAllWindows p) as [|w ws] eqn:E; [now repeat split|].
    unfold single_window, viewers, getAllWindows in *. simpl.
    split; [|split].
    + now rewrite live_update_window.
    + now rewrite wid_update_window.
    + intros w' Hw. unfold update_window in Hw. apply in_map_iff in Hw.
      destruct Hw as [w0 [Hw0 Hin]]. apply Hlt in Hin.
      destruct (is_window (wid w) w0); subst w'; simpl; assumption.
Qed.

Lemma single_window_elsewhere (p p' : Process) :
  same_windows p p' -> single_window p -> single_window p'.
Proof.
  intros [Hw [Hm Hn]] Hs.
  unfold single_window, viewers, getAllWindows in *.
  now rewrite Hw, Hm, Hn.
Qed.

(** [initialize] creates the window and afterwards only writes to the
    console and to the window. *)
Lemma initialize_windows (isMCPMode : bool) (connect : Outcome unit)
    (p : Process) :
  let q := createMainWindow p in
  same_windows q (fst (initialize isMCPMode connect p)) \/
  exists w q',
    same_windows q q' /\
    fst (initialize isMCPMode connect p)
    = set_windows (update_window (wid w) (webContents_send status_message)
                                 (windows q')) q'.
Proof.
  unfold initialize, EmbeddedServer.start.
  change (EmbeddedServer.isRunning mcpServer) with false. cbv iota.
  unfold bind, try_catch, lift, read, console_log, console_error, send_to, ret.
  destruct isMCPMode; [|left; now repeat split].
  destruct connect as [[]|e]; [|left; now repeat split].
  cbv beta iota.
  match goal with
  | |- context [getMainWindow ?q] =>
      destruct (getMainWindow q) as [w|] eqn:Hm
  end; [|left; now repeat split].
  destruct (destroyed w); [left; now repeat split|].
  right. eexists w, _. split; [|reflexivity]. now repeat split.
Qed.

Lemma single_window_initialize (isMCPMode : bool) (connect : Outcome unit)
    (p : Process) :
  windows p = [] -> single_window (fst (initialize isMCPMode connect p)).
Proof.
  intro Hw.
  assert (Hq : single_window (createMainWindow p)).
  { apply single_window_create.
    - unfold getAllWindows. now rewrite Hw.
    - rewrite Hw. constructor.
    - rewrite Hw. intros w []. }
  destruct (initialize_windows isMCPMode connect p) as [Hsame | [w [q' [Hsame E]]]].
  - exact (single_window_elsewhere _ _ Hsame Hq).
  - rewrite E. apply single_window_update; [reflexivity | reflexivity |].
    exact (single_window_elsewhere _ _ Hsame Hq).
Qed.

Lemma running_single_window (p : Process) : running p -> single_window p.
Proof.
  induction 1 as [p m c Hw Hm | p ev _ IH | p p' _ IH Hsame].
  - now apply single_window_initialize.
  - now apply single_window_event.
  - now apply (single_window_elsewhere p p').
Qed.

Lemma deliveries_update (j : nat) (m : IpcMessage) (ws : list BrowserWindow) :
  NoDup (map wid ws) ->
  list_sum (map (fun w => length (received w))
                (update_window j (webContents_send m) ws))
  = list_sum (map (fun w => length (received w)) ws)
    + (if existsb (is_window j) ws then 1 else 0).
Proof.
  induction ws as [|x ws IH]; simpl; intro Hnd; [reflexivity|].
  inversion Hnd as [|? ? Hnin Hnd']; subst.
  rewrite (IH Hnd'). unfold is_window at 1 3.
  destruct (wid x =? j)%nat eqn:E; simpl.
  - apply Nat.eqb_eq in E.
    assert (Hno : existsb (is_window j) ws = false).
    { destruct (existsb (is_window j) ws) eqn:Hex; [|reflexivity].
      apply existsb_exists in Hex. destruct Hex as [w [Hw Hi]].
      apply Nat.eqb_eq in Hi. elim Hnin. rewrite E, <- Hi. now apply in_map. }
    rewrite Hno, length_app. simpl. lia.
  - lia.
Qed.


End WindowFacts.

Section WindowClaims.
Import Js Electron Main Samples.



Lemma handler_on_main (d t i : string) (p : Process) (w : BrowserWindow) :
  getMainWindow p = Some w -> destroyed w = false ->
  let p' := fst (diagramUpdateHandler d t i p) in
  inbox (wid w) p' = (inbox (wid w) p ++ [update_message d t i])%list /\
  (forall v, v <> wid w -> inbox v p' = inbox v p) /\
  (NoDup (map wid (windows p)) -> deliveries p' = deliveries p + 1).
Proof.
  intros Hm Hd p'. subst p'. rewrite diagramUpdateHandler_eq, Hm, Hd.
  assert (Hf : find (is_window (wid w)) (windows p) = Some w).
  { unfold getMainWindow in Hm. destruct (mainWindow p) as [j|]; [|discriminate].
    destruct (find_is_window _ _ _ Hm) as [_ Hj]. now rewrite Hj. }
  cbn [negb]. unfold inbox, deliveries. cbn [windows set_windows set_console].
  split; [|split].
  - rewrite find_update_window, Hf by reflexivity. cbn [option_map].
    unfold is_window. now rewrite Nat.eqb_refl.
  - intros v Hv. rewrite find_update_window by reflexivity.
    destruct (find (is_window v) (windows p)) as [w'|] eqn:Hf'; [|reflexivity].
    cbn [option_map]. destruct (find_is_window _ _ _ Hf') as [_ Hw'].
    unfold is_window. destruct (wid w' =? wid w)%nat eqn:E; [|reflexivity].
    apply Nat.eqb_eq in E. congruence.
  - intro Hnd. rewrite deliveries_update by assumption.
    assert (Hex : existsb (is_window (wid w)) (windows p) = true).
    { apply existsb_exists. exists w. split.
      - apply (find_is_window _ _ _ Hf).
      - unfold is_window. apply Nat.eqb_refl. }
    now rewrite Hex.
Qed.

(** The window of the started application when it becomes ready to be
    shown, and the minimised window when a second instance is started. *)
Lemma events_on_the_main_window :
  getMainWindow (on_event ReadyToShow started)
  = Some (mkWindow 0 false false true true
            [mkIpc MCP_STATUS [JObj [("active", JBool true)]]]) /\
  getMainWindow (on_event SecondInstance minimised)
  = Some (mkWindow 0 false false true true
            [mkIpc MCP_STATUS [JObj [("active", JBool true)]]]).
Proof. split; reflexivity. Qed.






End WindowClaims.

(** ** Embedded server and IPC handlers *)

Section ServerFacts.
Import Js Electron EmbeddedServer.

Variable renderer : string -> option string -> Outcome Obj.
Variable detectGitRepo : string -> Outcome (option string).

Lemma renderMermaid_threw self d bg title p e :
  renderer d bg = Threw e ->
  renderMermaid renderer detectGitRepo self d bg title p
  = (rendering d bg p, Returned (error_result d e)).
Proof.
  intro H. unfold renderMermaid, try_catch, bind, call_renderer.
  rewrite H. reflexivity.
Qed.

Lemma renderMermaid_error self d bg title p r :
  renderer d bg = Returned r -> is_str (get r "type") "error" = true ->
  renderMermaid renderer detectGitRepo self d bg title p
  = (rendering d bg p, Returned r).
Proof.
  intros H Ht. unfold renderMermaid, try_catch, bind, call_renderer.
  rewrite H, Ht. reflexivity.
Qed.

(** Saving never throws out of its [try]; it touches neither the
    windows nor the record of renderer calls; and the history file
    changes only when an id comes back. *)
Lemma save_to_history_returns d title p :
  exists p' oid,
    save_to_history detectGitRepo d title p = (p', Returned oid) /\
    windows p' = windows p /\ mainWindow p' = mainWindow p /\
    renders p' = renders p /\
    (oid = None -> history_file p' = history_file p) /\
    (disk_writable p = false ->
       oid = None /\
       (truthy_opt title = true ->
        exists e, console p'
                  = (console p ++
                     [ConsoleError "[EmbeddedMCP] Failed to save diagram to history:" e])%list)).
Proof.
  unfold save_to_history. destruct title as [t|]; simpl.
  2: { exists p, None. repeat split; auto; discriminate. }
  destruct (truthy_str t) eqn:Ht.
  2: { exists p, None. repeat split; auto; discriminate. }
  unfold try_catch, bind, call_detectGitRepo, lift, read.
  destruct (detectGitRepo (cwd p)) as [c|e]; simpl.
  - unfold HistoryService.saveDiagram, HistoryStore.saveDiagram, HistoryStore.persist.
    simpl. destruct (disk_writable p) eqn:Hw; simpl.
    + eexists _, _. split; [reflexivity|]. simpl.
      repeat split; auto; discriminate.
    + eexists _, _. split; [reflexivity|]. simpl.
      repeat split; auto. intros _. eexists. reflexivity.
  - eexists _, _. split; [reflexivity|]. simpl.
    repeat split; auto. intros _. eexists. reflexivity.
Qed.

Lemma focusWindow_returns p :
  exists p', focusWindow p = (p', Returned tt) /\
    history_file p' = history_file p /\ renders p' = renders p /\
    console p' = console p /\
    map received (windows p') = map received (windows p).
Proof.
  unfold focusWindow. destruct (getAllWindows p) as [|w ws].
  - exists p. auto.
  - eexists. split; [reflexivity|]. simpl. repeat split; auto.
    unfold update_window. rewrite map_map. apply map_ext.
    intro x. destruct (is_window (wid w) x); reflexivity.
Qed.

(** The render paths never call the renderer twice. *)
Lemma renderMermaid_failed self d bg title p :
  rejected (renderer d bg) ->
  exists r,
    renderMermaid renderer detectGitRepo self d bg title p
    = (rendering d bg p, Returned r) /\
    is_str (get r "type") "error" = true /\
    (renderer d bg = Returned r \/
     exists e, renderer d bg = Threw e /\ r = error_result d e).
Proof.
  destruct (renderer d bg) as [r|e] eqn:H; intro Hf.
  - exists r. split; [now apply renderMermaid_error|]. auto.
  - exists (error_result d e). split; [now apply renderMermaid_threw|].
    split; [reflexivity|]. right. eauto.
Qed.

End ServerFacts.

(** ** Tool calls and IPC calls keep the application in a running state *)

Section RunningFacts.
Import Js Electron EmbeddedServer Main.

Variable renderer : string -> option string -> Outcome Obj.
Variable detectGitRepo : string -> Outcome (option string).

Lemma diagramUpdateHandler_returns (d t i : string) (p : Process) :
  snd (diagramUpdateHandler d t i p) = Returned tt.
Proof.
  unfold diagramUpdateHandler, bind, read.
  destruct (getMainWindow p) as [w|]; [|reflexivity].
  destruct (destroyed w); reflexivity.
Qed.

Lemma focusWindow_total (p : Process) :
  focusWindow p = (on_event FocusWindow p, Returned tt).
Proof.
  simpl. unfold focusWindow. destruct (getAllWindows p); reflexivity.
Qed.

Lemma save_to_history_same_windows d title p :
  same_windows p (fst (save_to_history detectGitRepo d title p)).
Proof.
  unfold save_to_history. destruct title as [t|]; [|now repeat split].
  destruct (truthy_str t); [|now repeat split].
  unfold try_catch, bind, call_detectGitRepo, lift, read.
  destruct (detectGitRepo (cwd p)) as [c|e]; simpl; [|now repeat split].
  unfold HistoryService.saveDiagram, HistoryStore.saveDiagram, HistoryStore.persist.
  simpl. destruct (disk_writable p); now repeat split.
Qed.

Lemma renderMermaid_running self d bg title p :
  onDiagramUpdate self = None \/ onDiagramUpdate self = Some diagramUpdateHandler ->
  running p ->
  running (fst (renderMermaid renderer detectGitRepo self d bg title p)).
Proof.
  intros Hself Hrun.
  assert (R1 : running (rendering d bg p)).
  { apply (running_elsewhere p); [assumption | now repeat split]. }
  unfold renderMermaid, try_catch, bind, call_renderer.
  destruct (renderer d bg) as [r|e]; simpl; [|exact R1].
  destruct (is_str (get r "type") "error"); simpl; [exact R1|].
  pose proof (save_to_history_same_windows d title (rendering d bg p)) as Hsame.
  destruct (save_to_history_returns detectGitRepo d title (rendering d bg p))
    as [p1 [oid [Hs _]]].
  rewrite Hs in Hsame. simpl in Hsame. rewrite Hs.
  assert (R2 : running p1) by (apply (running_elsewhere _ _ R1 Hsame)).
  assert (Hnote : exists p2,
             notify_renderer self d title oid p1 = (p2, Returned tt) /\ running p2).
  { unfold notify_renderer.
    destruct Hself as [Hn | Hn]; rewrite Hn.
    - exists p1. split; [reflexivity | exact R2].
    - destruct oid as [i|]; [|exists p1; split; [reflexivity | exact R2]].
      destruct title as [t|]; [|exists p1; split; [reflexivity | exact R2]].
      destruct (truthy_str i && truthy_str t);
        [|exists p1; split; [reflexivity | exact R2]].
      exists (on_event (DiagramUpdate d t i) p1). split.
      + simpl. rewrite (surjective_pairing (diagramUpdateHandler d t i p1)).
        now rewrite diagramUpdateHandler_returns.
      + now apply running_event. }
  destruct Hnote as [p2 [Hn R3]]. rewrite Hn, focusWindow_total. simpl.
  now apply (running_event p2 FocusWindow).
Qed.

(** A tool call leaves the application in a running state. *)
Lemma handleCallTool_running request p :
  running p ->
  running (fst (handleCallTool renderer detectGitRepo mcpServer request p)).
Proof.
  intro Hrun. unfold handleCallTool, callTool, try_catch, bind.
  destruct (name request =? "render_mermaid").
  - pose proof (renderMermaid_running mcpServer
                  (arg_diagram (arguments request))
                  (arg_background (arguments request))
                  (arg_title (arguments request)) p
                  (or_intror eq_refl) Hrun) as R.
    destruct (renderMermaid renderer detectGitRepo mcpServer _ _ _ p) as [p' [r|e]];
      exact R.
  - destruct (name request =? "open_ui"); [|exact Hrun].
    unfold openUI, bind.
    destruct (match arg_autoOpen (arguments request) with
              | Some b => b
              | None => true
              end).
    + rewrite focusWindow_total. simpl.
      now apply (running_event p FocusWindow).
    + exact Hrun.
Qed.

(** So does a [diagram:render] call from the renderer. *)
Lemma DIAGRAM_RENDER_running d bg workingDir title p :
  running p ->
  running (fst (IpcHandlers.DIAGRAM_RENDER renderer detectGitRepo d bg
                  workingDir title p)).
Proof.
  intro Hrun. apply (running_elsewhere p); [assumption|].
  unfold IpcHandlers.DIAGRAM_RENDER, bind, call_renderer.
  destruct (renderer d bg) as [r|e]; simpl; [|now repeat split].
  destruct workingDir as [wd|]; [destruct title as [t|]|];
    try (now repeat split).
  destruct (is_str (get r "type") "success" && truthy_str wd && truthy_str t);
    [|now repeat split].
  unfold try_catch, bind, call_detectGitRepo, lift. simpl.
  destruct (detectGitRepo wd) as [c|e]; simpl; [|now repeat split].
  unfold HistoryService.saveDiagram, HistoryStore.saveDiagram, HistoryStore.persist.
  simpl. destruct (disk_writable p); now repeat split.
Qed.

End RunningFacts.

Section ServerClaims.
Import Js Electron EmbeddedServer.

Variable renderer : string -> option string -> Outcome Obj.
Variable detectGitRepo : string -> Outcome (option string).

Lemma DIAGRAM_RENDER_cases d bg workingDir title p :
  exists p',
    fst (IpcHandlers.DIAGRAM_RENDER renderer detectGitRepo d bg workingDir title p) = p' /\
    renders p' = (renders p ++ [(d, bg)])%list /\
    windows p' = windows p /\
    match renderer d bg with
    | Threw e =>
        p' = rendering d bg p /\
        snd (IpcHandlers.DIAGRAM_RENDER renderer detectGitRepo d bg workingDir title p)
        = Threw e
    | Returned r =>
        (is_str (get r "type") "success" = false -> p' = rendering d bg p) /\
        (disk_writable p = false -> history_file p' = history_file p) /\
        ((is_str (get r "type") "success" = false \/ disk_writable p = false) ->
         snd (IpcHandlers.DIAGRAM_RENDER renderer detectGitRepo d bg workingDir title p)
         = Returned r)
    end.
Proof.
  unfold IpcHandlers.DIAGRAM_RENDER, bind, call_renderer.
  destruct (renderer d bg) as [r|e]; simpl.
  2: { eexists. repeat split. }
  destruct workingDir as [wd|]; [destruct title as [t|]|];
    try (eexists; repeat split; fail).
  destruct (is_str (get r "type") "success" && truthy_str wd && truthy_str t) eqn:C.
  2: { eexists. repeat split. }
  apply andb_prop in C. destruct C as [C _]. apply andb_prop in C.
  destruct C as [Hs _].
  unfold try_catch, bind, call_detectGitRepo, lift. simpl.
  destruct (detectGitRepo wd) as [c|e]; simpl.
  - unfold HistoryService.saveDiagram, HistoryStore.saveDiagram, HistoryStore.persist.
    simpl. destruct (disk_writable p); simpl.
    + eexists. split; [reflexivity|]. simpl. repeat split; try congruence.
      intros [H|H]; congruence.
    + eexists. split; [reflexivity|]. simpl. repeat split; congruence.
  - eexists. split; [reflexivity|]. simpl. repeat split; congruence.
Qed.

(** C3. When the rendering library rejects the source, by returning a
    result of type [error] or by throwing, the [render_mermaid] tool
    leaves the history file as it was, has called the library once, and
    answers with an object of type [error]: the library's own result, or
    [{type: "error", diagram, error: message}] built from the exception;
    this object, serialised, is the text of the tool response.  The
    [diagram:render] IPC handler likewise leaves the history file alone
    after one call of the library, and hands the library's error result
    or exception to its caller.  Conversely either path changes the
    history file only when the library returned a result that is not of
    type [error] (for the IPC handler: of type [success]). *)
Theorem C3_failed_render_not_persisted (self : EmbeddedMCPServer)
    (d : string) (bg title workingDir : option string) (autoOpen : option bool)
    (p : Process) :
  (rejected (renderer d bg) ->
   (exists p' r,
      renderMermaid renderer detectGitRepo self d bg title p = (p', Returned r) /\
      handleCallTool renderer detectGitRepo self
        (mkRequest "render_mermaid" (mkArgs d bg title autoOpen)) p
      = (p', Returned (text_result (JSON_stringify r 2))) /\
      history_file p' = history_file p /\
      renders p' = (renders p ++ [(d, bg)])%list /\
      is_str (get r "type") "error" = true /\
      (renderer d bg = Returned r \/
       exists e, renderer d bg = Threw e /\
         r = [("type", JStr "error"); ("diagram", JStr d);
              ("error", JStr (message_or e "Failed to render diagram"))])) /\
   (exists p' out,
      IpcHandlers.DIAGRAM_RENDER renderer detectGitRepo d bg workingDir title p
      = (p', out) /\
      history_file p' = history_file p /\
      renders p' = (renders p ++ [(d, bg)])%list /\
      match renderer d bg with
      | Threw e => out = Threw e
      | Returned r => out = Returned r
      end)) /\
  (history_file (fst (renderMermaid renderer detectGitRepo self d bg title p))
     <> history_file p ->
   exists r, renderer d bg = Returned r /\ is_str (get r "type") "error" = false) /\
  (history_file
     (fst (IpcHandlers.DIAGRAM_RENDER renderer detectGitRepo d bg workingDir title p))
     <> history_file p ->
   exists r, renderer d bg = Returned r /\ is_str (get r "type") "success" = true).
Proof.
  split; [|split].
  - intro Hf. split.
    + destruct (renderMermaid_failed renderer detectGitRepo self d bg title p Hf)
        as [r [Hr [Ht Hsrc]]].
      exists (rendering d bg p), r. split; [exact Hr|].
      split.
      { unfold handleCallTool, callTool, try_catch, bind. simpl.
        now rewrite Hr. }
      repeat split; auto.
    + destruct (DIAGRAM_RENDER_cases d bg workingDir title p)
        as [p' [Hp [Hre [_ Hc]]]].
      destruct (IpcHandlers.DIAGRAM_RENDER renderer detectGitRepo d bg workingDir title p)
        as [q out] eqn:E. simpl in *. subst q.
      exists p', out. split; [reflexivity|].
      unfold rejected in Hf. destruct (renderer d bg) as [r|e].
      * destruct Hc as [Hp [_ Hout]].
        assert (Hns : is_str (get r "type") "success" = false).
        { unfold is_str in *. destruct (get r "type"); try reflexivity.
          apply String.eqb_eq in Hf. subst. reflexivity. }
        rewrite (Hp Hns). repeat split; auto.
      * destruct Hc as [Hp Hout]. subst p'. repeat split; auto.
  - intro Hne. destruct (renderer d bg) as [r|e] eqn:H.
    + exists r. split; [reflexivity|].
      destruct (is_str (get r "type") "error") eqn:Ht; [|reflexivity].
      elim Hne. now rewrite (renderMermaid_error renderer detectGitRepo self d bg title p r H Ht).
    + elim Hne. now rewrite (renderMermaid_threw renderer detectGitRepo self d bg title p e H).
  - intro Hne.
    destruct (DIAGRAM_RENDER_cases d bg workingDir title p)
      as [p' [Hp [_ [_ Hc]]]].
    rewrite Hp in Hne.
    destruct (renderer d bg) as [r|e].
    + exists r. split; [reflexivity|].
      destruct (is_str (get r "type") "success") eqn:Ht; [reflexivity|].
      destruct Hc as [Hc _]. elim Hne. now rewrite (Hc eq_refl).
    + destruct Hc as [Hc _]. elim Hne. now rewrite Hc.
Qed.

(** C2, as the code has it.  When the backing file cannot be written,
    [saveDiagram] fails with [StorageError] and the store is left as it
    was, and the [history:save] handler passes that failure on to its
    caller.  The render paths catch it instead: the [render_mermaid] tool
    still returns the render result with type [success], and the
    [diagram:render] handler returns the render result without a
    [diagramId]; the history file is unchanged, no diagram update is sent
    to a window, and the failure is written to the console. *)
Theorem C2_save_failure_is_caught (self : EmbeddedMCPServer)
    (d t : string) (c bg title workingDir : option string) (p : Process) :
  disk_writable p = false ->
  HistoryStore.saveDiagram d t c (HistoryService.env_of p) (history_file p)
  = HistoryStore.Err HistoryStore.StorageError /\
  IpcHandlers.HISTORY_SAVE d t c p
  = (p, Threw (ErrorObject "StorageError" "the backing file cannot be written")) /\
  (forall r, renderer d bg = Returned r ->
     is_str (get r "type") "error" = false ->
     exists p',
       renderMermaid renderer detectGitRepo self d bg title p
       = (p', Returned (set r "type" (JStr "success"))) /\
       history_file p' = history_file p /\
       map received (windows p') = map received (windows p) /\
       (truthy_opt title = true ->
        exists e, console p'
                  = (console p ++
                     [ConsoleError "[EmbeddedMCP] Failed to save diagram to history:" e])%list)) /\
  (forall r, renderer d bg = Returned r ->
     exists p',
       IpcHandlers.DIAGRAM_RENDER renderer detectGitRepo d bg workingDir title p
       = (p', Returned r) /\
       history_file p' = history_file p /\
       windows p' = windows p /\
       (forall wd t',
          workingDir = Some wd -> title = Some t' ->
          is_str (get r "type") "success" && truthy_str wd && truthy_str t' = true ->
          exists e, console p'
                    = (console p ++
                       [ConsoleError "Failed to save diagram to history:" e])%list)).
Proof.
  intro Hw. split; [|split; [|split]].
  - unfold HistoryStore.saveDiagram, HistoryStore.persist. simpl. now rewrite Hw.
  - unfold IpcHandlers.HISTORY_SAVE, HistoryService.saveDiagram,
      HistoryStore.saveDiagram, HistoryStore.persist. simpl. now rewrite Hw.
  - intros r Hr Ht.
    destruct (save_to_history_returns detectGitRepo d title (rendering d bg p))
      as [p1 [oid [Hs [Hwin [Hmain [Hren [Hhist Hfail]]]]]]].
    destruct (Hfail Hw) as [Hoid Hlog]. subst oid.
    destruct (focusWindow_returns p1) as [p2 [Hfoc [Hh2 [_ [Hc2 Hrec]]]]].
    exists p2. split.
    + unfold renderMermaid, try_catch, bind, call_renderer.
      rewrite Hr, Ht. fold (rendering d bg p). rewrite Hs.
      unfold notify_renderer.
      destruct (onDiagramUpdate self); simpl; now rewrite Hfoc.
    + split; [rewrite Hh2; now apply Hhist|].
      split; [now rewrite Hrec, Hwin|].
      intro Htitle. destruct (Hlog Htitle) as [e He].
      exists e. now rewrite Hc2, He.
  - intros r Hr.
    unfold IpcHandlers.DIAGRAM_RENDER, bind, call_renderer. rewrite Hr.
    destruct workingDir as [wd|]; [destruct title as [t'|]|];
      try (eexists; split; [reflexivity|]; repeat split; intros; discriminate).
    destruct (is_str (get r "type") "success" && truthy_str wd && truthy_str t')
      eqn:C.
    2: { eexists; split; [reflexivity|]; repeat split.
         intros wd' t'' Hwd Ht' C'. inversion Hwd; inversion Ht'; subst.
         congruence. }
    unfold try_catch, bind, call_detectGitRepo, lift. simpl.
    destruct (detectGitRepo wd) as [col|e]; simpl.
    + unfold HistoryService.saveDiagram, HistoryStore.saveDiagram,
        HistoryStore.persist. simpl. rewrite Hw. simpl.
      eexists; split; [reflexivity|]; repeat split. intros. eexists. reflexivity.
    + eexists; split; [reflexivity|]; repeat split. intros. eexists. reflexivity.
Qed.

End ServerClaims.

Section ToolCallClaims.
Import Js Electron EmbeddedServer.






End ToolCallClaims.

Section ServerExamples.
Import Js Electron EmbeddedServer Main Samples.

(** C2, as stated, fails: on a disk that cannot be written
    [saveDiagram] throws [StorageError], yet the [render_mermaid] tool,
    which triggered the save, answers with the render result of type
    [success]; the caller sees no failure, the store holds no entry and
    the window was sent nothing after the status message of the start. *)
Lemma C2_counterexample :
  disk_writable started_read_only = false /\
  snd (HistoryService.saveDiagram "graph TD;A-->B" "flow" None
         started_read_only)
  = Threw (ErrorObject "StorageError" "the backing file cannot be written") /\
  snd (handleCallTool accepting_renderer no_repository server render_request
         started_read_only)
  = Returned (text_result
                (JSON_stringify
                   [("type", JStr "success"); ("diagram", JStr "graph TD;A-->B");
                    ("svg", JStr "<svg/>")] 2)) /\
  HistoryStore.entries
    (history_file
       (fst (handleCallTool accepting_renderer no_repository server render_request
               started_read_only))) = [] /\
  inbox 0 (fst (handleCallTool accepting_renderer no_repository server render_request
                  started_read_only))
  = [mkIpc MCP_STATUS [JObj [("active", JBool true)]]].
Proof.
  repeat split.
Qed.

Lemma C2_save_failure_is_caught_witness :
  disk_writable read_only_process = false /\
  IpcHandlers.HISTORY_SAVE "graph TD;A-->B" "flow" None read_only_process
  = (read_only_process,
     Threw (ErrorObject "StorageError" "the backing file cannot be written")) /\
  exists p',
    renderMermaid accepting_renderer no_repository server
      "graph TD;A-->B" None (Some "flow") read_only_process
    = (p', Returned (set [("type", JStr "success"); ("diagram", JStr "graph TD;A-->B");
                          ("svg", JStr "<svg/>")] "type" (JStr "success"))) /\
    history_file p' = HistoryStore.empty.
Proof.
  split; [reflexivity|].
  destruct (C2_save_failure_is_caught accepting_renderer no_repository server
              "graph TD;A-->B" "flow" None None (Some "flow") None
              read_only_process eq_refl) as [_ [Hsave [Htool _]]].
  split; [exact Hsave|].
  destruct (Htool _ eq_refl eq_refl) as [p' [Hr [Hh _]]].
  exists p'. split; [exact Hr | exact Hh].
Defined.

Lemma C3_failed_render_not_persisted_witness :
  exists p' r,
    renderMermaid rejecting_renderer no_repository server
      "graph TD;A--" None (Some "flow") fresh_process = (p', Returned r) /\
    history_file p' = HistoryStore.empty /\
    renders p' = [("graph TD;A--", None)] /\
    is_str (get r "type") "error" = true.
Proof.
  destruct (proj1 (proj1 (C3_failed_render_not_persisted
                     rejecting_renderer no_repository server
                     "graph TD;A--" None (Some "flow") None None fresh_process)
                     eq_refl))
    as [p' [r [Hr [_ [Hh [Hn [Ht _]]]]]]].
  exists p', r. repeat split; assumption.
Defined.


End ServerExamples.

(** ** Viewer *)

Section ViewerClaims.
Import Js Viewer Samples.

Lemma get_prop_defined (data : JsVal) (k k' : string) (v : JsVal) :
  get_prop data k = Returned v -> exists v', get_prop data k' = Returned v'.
Proof.
  destruct data; simpl; intro H; try discriminate; eauto.
Qed.

(** C5, as stated, fails: a viewer that shows a diagram and receives
    [{type: "render_result", diagram: ""}] keeps the diagram it shows. *)
Lemma C5_counterexample :
  diagram viewer_showing_diagram = JStr "graph TD;A-->B" /\
  diagram (fst (onMessage (render_result_message EmptyString)
                  viewer_showing_diagram))
  = JStr "graph TD;A-->B" /\
  diagram (fst (onMessage (render_result_message EmptyString)
                  viewer_showing_diagram))
  <> JStr EmptyString.
Proof.
  repeat split. discriminate.
Qed.

(** C5, as the code has it.  On a message of type [render_result] whose
    [diagram] is truthy (for a string: not empty) the viewer's diagram
    becomes that value, the status reports the broadcast, a
    fit-to-screen is scheduled, and nothing is sent: the viewer need not
    have asked for anything. *)
Theorem C5_render_result_adopted (fields : Obj) (a : App) :
  get fields "type" = JStr "render_result" ->
  truthy (get fields "diagram") = true ->
  exists a',
    onMessage (JObj fields) a = (a', Returned tt) /\
    diagram a' = get fields "diagram" /\
    status a' = "Rendered successfully (via broadcast)" /\
    hasManuallyZoomed a' = false /\
    timers a' = (timers a ++ [FitToScreen true 100])%list /\
    sent a' = sent a.
Proof.
  intros Ht Hd. unfold onMessage. simpl. rewrite Ht, Hd. simpl.
  eexists. split; [reflexivity|]. repeat split.
Qed.

Lemma C5_render_result_adopted_witness :
  exists a',
    onMessage (render_result_message "graph TD;A-->B") (initial visible_page)
    = (a', Returned tt) /\
    diagram a' = JStr "graph TD;A-->B" /\
    sent a' = [].
Proof.
  destruct (C5_render_result_adopted
              [("type", JStr "render_result"); ("diagram", JStr "graph TD;A-->B")]
              (initial visible_page) eq_refl eq_refl)
    as [a' [Hm [Hd [_ [_ [_ Hs]]]]]].
  exists a'. repeat split; assumption.
Defined.

(** C6. On a message of type [visibility_query] the viewer, within the
    handler, reads the visibility of its page ([document.hidden]) and
    passes to [send] one message
    [{type: "visibility_response", isVisible: !document.hidden}], whose
    [isVisible] is a boolean; nothing is deferred to a timer, and the
    diagram is untouched. *)
Theorem C6_visibility_query_answered (fields : Obj) (a : App) :
  get fields "type" = JStr "visibility_query" ->
  exists a',
    onMessage (JObj fields) a = (a', Returned tt) /\
    sent a' = (sent a ++ [[("type", JStr "visibility_response");
                           ("isVisible", JBool (negb (hidden (document a))))]])%list /\
    diagram a' = diagram a /\
    timers a' = timers a /\
    document a' = document a.
Proof.
  intro Ht. unfold onMessage. simpl. rewrite Ht. simpl.
  eexists. split; [reflexivity|]. repeat split.
Qed.

Lemma C6_visibility_query_answered_witness :
  exists a',
    onMessage (JObj [("type", JStr "visibility_query")]) (initial visible_page)
    = (a', Returned tt) /\
    sent a' = [[("type", JStr "visibility_response"); ("isVisible", JBool true)]].
Proof.
  destruct (C6_visibility_query_answered [("type", JStr "visibility_query")]
              (initial visible_page) eq_refl)
    as [a' [Hm [Hs _]]].
  exists a'. split; assumption.
Defined.

(** C7. A message whose [type] can be read and is neither
    [render_result] nor [visibility_query] makes the handler return
    normally with the diagram, the status, the zoom flag, the timers and
    the messages sent all as they were. *)
Theorem C7_unknown_type_ignored (data ty : JsVal) (a : App) :
  get_prop data "type" = Returned ty ->
  is_str ty "render_result" = false ->
  is_str ty "visibility_query" = false ->
  exists a',
    onMessage data a = (a', Returned tt) /\
    diagram a' = diagram a /\
    status a' = status a /\
    hasManuallyZoomed a' = hasManuallyZoomed a /\
    timers a' = timers a /\
    sent a' = sent a.
Proof.
  intros Ht H1 H2. unfold onMessage. rewrite Ht.
  destruct (get_prop_defined data "type" "diagram" ty Ht) as [d Hd].
  rewrite Hd, H1, H2. simpl.
  eexists. split; [reflexivity|]. repeat split.
Qed.

Lemma C7_unknown_type_ignored_witness :
  exists a',
    onMessage (JObj [("type", JStr "theme_changed"); ("diagram", JStr "graph LR;X-->Y")])
              viewer_showing_diagram = (a', Returned tt) /\
    diagram a' = JStr "graph TD;A-->B" /\
    sent a' = [].
Proof.
  destruct (C7_unknown_type_ignored
              (JObj [("type", JStr "theme_changed"); ("diagram", JStr "graph LR;X-->Y")])
              (JStr "theme_changed") viewer_showing_diagram
              eq_refl eq_refl eq_refl)
    as [a' [Hm [Hd [_ [_ [_ Hs]]]]]].
  exists a'. repeat split; assumption.
Defined.

End ViewerClaims.

Section CommandLineFacts.
Import Js CommandLine.

Lemma skipn_cons_nth {A : Type} (l : list A) (i : nat) (a : A) (rest : list A) :
  skipn i l = a :: rest ->
  nth_error l i = Some a /\ skipn (S i) l = rest /\ i < length l.
Proof.
  revert l. induction i as [|i IH]; intros l H.
  - destruct l; simpl in H; inversion H; subst. simpl. repeat split. lia.
  - destruct l as [|x l]; simpl in H; [discriminate|].
    destruct (IH l H) as [Hn [Hs Hl]]. simpl. repeat split; auto. lia.
Qed.

Lemma skipn_nil_length {A : Type} (l : list A) (i : nat) :
  skipn i l = [] -> length l <= i.
Proof.
  revert l. induction i as [|i IH]; intros l H.
  - simpl in H. subst. simpl. lia.
  - destruct l as [|x l]; simpl in *; [lia|]. apply IH in H. lia.
Qed.

(** The loop of [parseArgs], with fuel for every remaining argument,
    reads the remaining arguments as [walk] does. *)
Lemma loop_walk (args : list string) (fuel i : nat) (r : Parsed) :
  length args <= i + fuel ->
  loop fuel args i r = walk (skipn i args) r.
Proof.
  revert i r. induction fuel as [|fuel IH]; intros i r Hf; cbn [loop].
  - rewrite skipn_all2 by lia. reflexivity.
  - replace (i + 1) with (S i) by lia.
    destruct (skipn i args) as [|a rest] eqn:Hs.
    + apply skipn_nil_length in Hs.
      assert (E : (i <? length args)%nat = false) by (apply Nat.ltb_ge; lia).
      now rewrite E.
    + destruct (skipn_cons_nth _ _ _ _ Hs) as [Ha [Hr Hl]].
      assert (E : (i <? length args)%nat = true) by (apply Nat.ltb_lt; lia).
      rewrite E. unfold arg. rewrite Ha. cbn [is_flag walk].
      destruct rest as [|v rest'].
      * assert (Hnone : nth_error args (S i) = None).
        { apply nth_error_None. now apply skipn_nil_length. }
        rewrite Hnone. cbn [truthy_opt]. rewrite andb_false_r. rewrite Ha.
        cbn [is_flag]. rewrite IH by lia.
        replace (i + 1) with (S i) by lia. rewrite Hr. reflexivity.
      * destruct (skipn_cons_nth _ _ _ _ Hr) as [Hv [Hr' _]].
        rewrite Hv. cbn [truthy_opt].
        destruct ((a =? "--data-path") && truthy_str v) eqn:Hit.
        -- rewrite Hv. cbn [is_flag]. rewrite IH by lia.
           replace (S i + 1) with (S (S i)) by lia. rewrite Hr'. reflexivity.
        -- rewrite Ha. cbn [is_flag]. rewrite IH by lia.
           replace (i + 1) with (S i) by lia. rewrite Hr. reflexivity.
Qed.

Lemma parseArgs_walk (argv : list string) :
  parseArgs argv = walk (skipn 2 argv) (mkParsed None false).
Proof.
  unfold parseArgs. now rewrite loop_walk by lia.
Qed.

End CommandLineFacts.

Section CommandLineProperties.
Import Js CommandLine.

Lemma list_ind_two {A : Type} (P : list A -> Prop) :
  P [] -> (forall a, P [a]) ->
  (forall a v l, P l -> P (v :: l) -> P (a :: v :: l)) ->
  forall l, P l.
Proof.
  intros H0 H1 H2.
  assert (H : forall l, P l /\ forall a, P (a :: l)).
  { induction l as [|x l [IH1 IH2]].
    - split; [exact H0 | exact H1].
    - split; [apply IH2 | intro a; apply H2; [exact IH1 | apply IH2]]. }
  intro l. apply H.
Qed.

Lemma mark_dataPath (s : string) (r : Parsed) : dataPath (mark s r) = dataPath r.
Proof. unfold mark. destruct (s =? "--disable-analytics"); reflexivity. Qed.

Lemma mark_disable (s : string) (r : Parsed) :
  disableAnalytics (mark s r) = disableAnalytics r || (s =? "--disable-analytics").
Proof.
  unfold mark. destruct (s =? "--disable-analytics"); simpl;
    [now rewrite orb_true_r | now rewrite orb_false_r].
Qed.

Lemma walk_two (a v : string) (l : list string) (r : Parsed) :
  walk (a :: v :: l) r
  = if (a =? "--data-path") && truthy_str v
    then walk l (mark v (mkParsed (Some v) (disableAnalytics r)))
    else walk (v :: l) (mark a r).
Proof. reflexivity. Qed.

Lemma walk_disable (l : list string) :
  forall r, disableAnalytics (walk l r)
            = disableAnalytics r || existsb (fun s => s =? "--disable-analytics") l.
Proof.
  induction l as [| a | a v l IH1 IH2] using list_ind_two; intro r.
  - simpl. now rewrite orb_false_r.
  - simpl. rewrite mark_disable. now rewrite orb_false_r.
  - rewrite walk_two.
    destruct ((a =? "--data-path") && truthy_str v) eqn:Hit.
    + apply andb_prop in Hit. destruct Hit as [Ha _]. apply String.eqb_eq in Ha.
      subst a. rewrite IH1, mark_disable. simpl. now rewrite orb_assoc.
    + rewrite IH2, mark_disable. cbn [existsb]. now rewrite !orb_assoc.
Qed.

(** X1. [parseArgs] of [main.ts] turns analytics off exactly when
    [--disable-analytics] occurs among the arguments, also where it
    stands as the value of [--data-path]. *)
Theorem X1_disable_analytics_iff_present (argv : list string) :
  disableAnalytics (parseArgs argv) = true <->
  In "--disable-analytics" (skipn 2 argv).
Proof.
  rewrite parseArgs_walk, walk_disable. simpl.
  rewrite existsb_exists. split.
  - intros [s [Hin Hs]]. apply String.eqb_eq in Hs. now subst s.
  - intro Hin. exists "--disable-analytics". split; [assumption | reflexivity].
Qed.

Lemma walk_dataPath_sound (l : list string) :
  forall r p, dataPath (walk l r) = Some p ->
    dataPath r = Some p \/
    (truthy_str p = true /\
     exists pre post, l = (pre ++ "--data-path" :: p :: post)%list).
Proof.
  induction l as [| a | a v l IH1 IH2] using list_ind_two; intros r p H.
  - left. exact H.
  - left. simpl in H. now rewrite mark_dataPath in H.
  - rewrite walk_two in H.
    destruct ((a =? "--data-path") && truthy_str v) eqn:Hit.
    + apply andb_prop in Hit. destruct Hit as [Ha Hv]. apply String.eqb_eq in Ha.
      subst a. destruct (IH1 _ _ H) as [Hr | [Hp [pre [post E]]]].
      * rewrite mark_dataPath in Hr. simpl in Hr. inversion Hr; subst.
        right. split; [assumption|]. exists [], l. reflexivity.
      * right. split; [assumption|].
        exists ("--data-path" :: v :: pre)%list, post. now rewrite E.
    + destruct (IH2 _ _ H) as [Hr | [Hp [pre [post E]]]].
      * left. now rewrite mark_dataPath in Hr.
      * right. split; [assumption|]. exists (a :: pre)%list, post. now rewrite E.
Qed.

(** X2. A data path that [parseArgs] of [main.ts] returns is a
    non-empty argument that stands right after a [--data-path]; so
    without that flag, with the flag in last place, or with the flag
    followed only by an empty argument, there is no data path. *)
Theorem X2_data_path_comes_from_flag (argv : list string) (p : string) :
  dataPath (parseArgs argv) = Some p ->
  p <> EmptyString /\
  exists pre post, skipn 2 argv = (pre ++ "--data-path" :: p :: post)%list.
Proof.
  rewrite parseArgs_walk. intro H.
  destruct (walk_dataPath_sound _ _ _ H) as [Hr | [Hp Hex]]; [discriminate|].
  split; [|exact Hex].
  intro E. subst p. discriminate.
Qed.

Lemma X2_data_path_comes_from_flag_witness :
  dataPath (parseArgs ["electron"; "main.js"; "--data-path"; "/tmp/diagrams"])
  = Some "/tmp/diagrams" /\
  "/tmp/diagrams" <> EmptyString /\
  exists pre post,
    skipn 2 ["electron"; "main.js"; "--data-path"; "/tmp/diagrams"]
    = (pre ++ "--data-path" :: "/tmp/diagrams" :: post)%list.
Proof.
  split; [reflexivity|].
  apply (X2_data_path_comes_from_flag
           ["electron"; "main.js"; "--data-path"; "/tmp/diagrams"] "/tmp/diagrams").
  reflexivity.
Defined.

Lemma walk_cons_other (a : string) (rest : list string) (r : Parsed) :
  a <> "--data-path" -> walk (a :: rest) r = walk rest (mark a r).
Proof.
  intro Ha. apply String.eqb_neq in Ha.
  destruct rest as [|v rest']; [reflexivity|]. rewrite walk_two. now rewrite Ha.
Qed.

Lemma walk_no_flag (l : list string) :
  forall r, ~ In "--data-path" l -> dataPath (walk l r) = dataPath r.
Proof.
  induction l as [|a l IH]; intros r Hn; [reflexivity|].
  rewrite walk_cons_other by (intro E; apply Hn; left; exact E).
  rewrite IH by (intro E; apply Hn; right; exact E).
  apply mark_dataPath.
Qed.

(** X3. When [--data-path] occurs once among the arguments and a
    non-empty argument follows it, [parseArgs] of [main.ts] returns that
    argument as the data path, whatever it is and whatever stands
    around. *)
Theorem X3_single_data_path_is_found (argv pre post : list string) (p : string) :
  skipn 2 argv = (pre ++ "--data-path" :: p :: post)%list ->
  ~ In "--data-path" pre -> ~ In "--data-path" post ->
  p <> EmptyString ->
  dataPath (parseArgs argv) = Some p.
Proof.
  intros E Hpre Hpost Hp. rewrite parseArgs_walk, E.
  assert (Ht : truthy_str p = true).
  { unfold truthy_str. apply String.eqb_neq in Hp. now rewrite Hp. }
  clear E. generalize (mkParsed None false) as r. revert Hpre.
  induction pre as [|a pre IH]; intros Hpre r.
  - cbn [app]. rewrite walk_two. rewrite String.eqb_refl, Ht. cbn [andb].
    rewrite walk_no_flag by assumption. now rewrite mark_dataPath.
  - cbn [app]. rewrite walk_cons_other by (intro E'; apply Hpre; left; exact E').
    apply IH. intro E'. apply Hpre. right. exact E'.
Qed.

Lemma X3_single_data_path_is_found_witness :
  dataPath (parseArgs ["electron"; "main.js"; "--disable-analytics";
                       "--data-path"; "--disable-analytics"; "extra"])
  = Some "--disable-analytics".
Proof.
  apply (X3_single_data_path_is_found _ ["--disable-analytics"] ["extra"]).
  - reflexivity.
  - intros [H | []]. discriminate.
  - intros [H | []]. discriminate.
  - discriminate.
Defined.

Lemma ui_loop_end (fuel : nat) (args : list string) (i : nat) (r : UiParsed) :
  length args <= i -> ui_loop fuel args i r = r.
Proof.
  intro H. destruct fuel as [|fuel]; [reflexivity|]. cbn [ui_loop].
  assert (E : (i <? length args)%nat = false) by (apply Nat.ltb_ge; lia).
  now rewrite E.
Qed.

(** One turn of the loop on [--show-diagram] followed by an id. *)
Lemma ui_loop_show (fuel : nat) (args : list string) (i : nat) (r : UiParsed)
    (v : string) :
  i < length args ->
  arg args i = Some "--show-diagram" -> arg args (i + 1) = Some v ->
  truthy_str v = true ->
  ui_loop (S fuel) args i r
  = ui_loop fuel args (i + 1 + 1)
      (mkUiParsed (ui_dataPath r) (ui_disableAnalytics r) (Some v)).
Proof.
  intros Hl Ha Hv Ht. cbn [ui_loop].
  assert (E : (i <? length args)%nat = true) by (apply Nat.ltb_lt; lia).
  rewrite E, Ha, Hv. cbn [is_flag truthy_opt].
  change ("--show-diagram" =? "--data-path") with false.
  change ("--show-diagram" =? "--disable-analytics") with false.
  change ("--show-diagram" =? "--show-diagram") with true.
  cbn [andb]. rewrite Ha, Hv. cbn [is_flag truthy_opt].
  change ("--show-diagram" =? "--disable-analytics") with false.
  change ("--show-diagram" =? "--show-diagram") with true.
  rewrite Ht. cbn [andb]. destruct r; reflexivity.
Qed.

(** One turn of the loop on a final [--data-path] followed by a path. *)
Lemma ui_loop_data (fuel : nat) (args : list string) (i : nat) (r : UiParsed)
    (v : string) :
  i < length args ->
  arg args i = Some "--data-path" -> arg args (i + 1) = Some v ->
  arg args (i + 1 + 1) = None ->
  truthy_str v = true ->
  ui_loop (S fuel) args i r
  = ui_loop fuel args (i + 1 + 1)
      (mkUiParsed (Some v)
                  (if v =? "--disable-analytics" then true else ui_disableAnalytics r)
                  (showDiagramId r)).
Proof.
  intros Hl Ha Hv Hn Ht. cbn [ui_loop].
  assert (E : (i <? length args)%nat = true) by (apply Nat.ltb_lt; lia).
  rewrite E, Ha, Hv. cbn [is_flag truthy_opt].
  change ("--data-path" =? "--data-path") with true.
  rewrite Ht. cbn [andb]. rewrite Hv, Hn. cbn [is_flag truthy_opt].
  rewrite andb_false_r.
  destruct (v =? "--disable-analytics"); destruct r; reflexivity.
Qed.

(** X4. The command line that [launchElectronUI] builds is read back by
    the UI's [parseArgs]: the diagram id and the data path come out as
    they went in (an absent or empty one as absent), for every id and
    path; analytics are turned off only when the data path is itself
    [--disable-analytics]. *)
Theorem X4_launch_args_round_trip (electronBin electronMainPath : string)
    (diagramId dataPath : option string) :
  ui_parseArgs (electronBin :: launch_args electronMainPath diagramId dataPath)
  = mkUiParsed (if_truthy dataPath)
               (is_flag (if_truthy dataPath) "--disable-analytics")
               (if_truthy diagramId).
Proof.
  unfold ui_parseArgs, launch_args, if_truthy.
  destruct diagramId as [i|]; destruct dataPath as [d|]; cbn [truthy_opt];
    try destruct (truthy_str i) eqn:Hi; try destruct (truthy_str d) eqn:Hd;
    cbn [app skipn length is_flag];
    try reflexivity.
  - rewrite (ui_loop_show _ _ 0 _ i) by (simpl; try lia; auto).
    rewrite (ui_loop_data _ _ 2 _ d) by (simpl; try lia; auto).
    rewrite ui_loop_end by (simpl; lia).
    destruct (d =? "--disable-analytics"); reflexivity.
  - rewrite (ui_loop_show _ _ 0 _ i) by (simpl; try lia; auto).
    rewrite ui_loop_end by (simpl; lia). reflexivity.
  - rewrite (ui_loop_data _ _ 0 _ d) by (simpl; try lia; auto).
    rewrite ui_loop_end by (simpl; lia).
    destruct (d =? "--disable-analytics"); reflexivity.
  - rewrite (ui_loop_show _ _ 0 _ i) by (simpl; try lia; auto).
    rewrite ui_loop_end by (simpl; lia). reflexivity.
  - rewrite (ui_loop_data _ _ 0 _ d) by (simpl; try lia; auto).
    rewrite ui_loop_end by (simpl; lia).
    destruct (d =? "--disable-analytics"); reflexivity.
Qed.
Lemma indexOf_app_fresh (pre rest : list string) (s : string) :
  ~ In s pre -> indexOf (pre ++ s :: rest) s = Some (length pre).
Proof.
  induction pre as [|a pre IH]; intro Hn; simpl.
  - now rewrite String.eqb_refl.
  - assert (Ha : (a =? s) = false).
    { apply String.eqb_neq. intro E. apply Hn. left. exact E. }
    rewrite Ha, IH; [reflexivity|]. intro E. apply Hn. right. exact E.
Qed.

(** X5. The [second-instance] listener finds the diagram id that a
    launch put on the command line, whatever precedes the first
    [--show-diagram]: it takes the argument after it, if that is not
    empty. *)
Theorem X5_second_instance_finds_id (pre post : list string) (i : string) :
  ~ In "--show-diagram" pre ->
  requested_diagram (pre ++ "--show-diagram" :: i :: post)
  = if_truthy (Some i).
Proof.
  intro Hn. unfold requested_diagram, if_truthy, arg.
  rewrite indexOf_app_fresh by assumption.
  replace (length pre + 1) with (S (length pre)) by lia.
  assert (E : nth_error (pre ++ "--show-diagram" :: i :: post) (S (length pre))
              = Some i).
  { rewrite nth_error_app2 by lia.
    replace (S (length pre) - length pre) with 1 by lia. reflexivity. }
  rewrite E. reflexivity.
Qed.

Lemma X5_second_instance_finds_id_witness :
  requested_diagram
    (["electron"; "--allow-file-access"]
     ++ "--show-diagram" :: "12" :: ["--data-path"; "/tmp/diagrams"])
  = Some "12".
Proof.
  apply (X5_second_instance_finds_id ["electron"; "--allow-file-access"]
           ["--data-path"; "/tmp/diagrams"] "12").
  intros [H | [H | []]]; discriminate.
Defined.

End CommandLineProperties.

Section GeometryProperties.
Import WindowGeometry.
Local Open Scope Z_scope.

Lemma isVisible_iff_shared_pixel (b wa : Rectangle) :
  0 < width b -> 0 < height b -> 0 < width wa -> 0 < height wa ->
  (isVisible b wa = true <-> exists px py, covers b px py /\ covers wa px py).
Proof.
  intros Hwb Hhb Hww Hhw. unfold isVisible, covers.
  rewrite !andb_true_iff, !Z.ltb_lt, !Z.gtb_lt. split.
  - intros [[[H1 H2] H3] H4].
    exists (Z.max (x b) (x wa)), (Z.max (y b) (y wa)). lia.
  - intros [px [py H]]. lia.
Qed.

(** X6. For a window and a work area of positive size,
    [ensureWindowVisible] leaves the window where it is when the two
    share at least one pixel, and centres it when they share none (also
    when they only touch along an edge); without a main window it does
    nothing. *)
Theorem X6_window_centred_iff_off_screen
    (workAreaMatching center : Rectangle -> Rectangle) (b : Rectangle) :
  0 < width b -> 0 < height b ->
  0 < width (workAreaMatching b) -> 0 < height (workAreaMatching b) ->
  ((exists px py, covers b px py /\ covers (workAreaMatching b) px py) ->
   ensureWindowVisible workAreaMatching center (Some b) = Some b) /\
  ((forall px py, covers b px py -> ~ covers (workAreaMatching b) px py) ->
   ensureWindowVisible workAreaMatching center (Some b) = Some (center b)) /\
  ensureWindowVisible workAreaMatching center None = None.
Proof.
  intros Hwb Hhb Hww Hhw.
  unfold ensureWindowVisible. split; [|split; [|reflexivity]].
  - intro Hex.
    apply (isVisible_iff_shared_pixel b (workAreaMatching b) Hwb Hhb Hww Hhw) in Hex.
    now rewrite Hex.
  - intro Hno. destruct (isVisible b (workAreaMatching b)) eqn:E; [|reflexivity].
    apply (isVisible_iff_shared_pixel b (workAreaMatching b) Hwb Hhb Hww Hhw) in E.
    destruct E as [px [py [H1 H2]]]. now elim (Hno px py H1).
Qed.

Lemma X6_window_centred_iff_off_screen_witness :
  ensureWindowVisible (fun _ => mkRectangle 0 0 1920 1080)
    (fun b => mkRectangle 360 140 (width b) (height b))
    (Some (mkRectangle 1920 100 1200 800))
  = Some (mkRectangle 360 140 1200 800).
Proof.
  refine (proj1 (proj2 (X6_window_centred_iff_off_screen
                   (fun _ => mkRectangle 0 0 1920 1080)
                   (fun b => mkRectangle 360 140 (width b) (height b))
                   (mkRectangle 1920 100 1200 800) _ _ _ _)) _);
    try reflexivity.
  unfold covers. simpl. intros px py H1 H2. lia.
Defined.

End GeometryProperties.

Section RegistryProperties.
Import Js IpcRegistry.

Lemma has_handler_In (hs : Handlers) (ch : string) :
  has_handler hs ch = true <-> In ch hs.
Proof.
  unfold has_handler. rewrite existsb_exists. split.
  - intros [c [Hin Hc]]. apply String.eqb_eq in Hc. now subst c.
  - intro Hin. exists ch. split; [assumption | apply String.eqb_refl].
Qed.

Lemma handle_all_fresh (chs : list string) :
  forall hs, NoDup chs -> (forall ch, In ch chs -> ~ In ch hs) ->
    handle_all chs hs = ((hs ++ chs)%list, Returned tt).
Proof.
  induction chs as [|c chs IH]; intros hs Hnd Hdis; simpl.
  - now rewrite app_nil_r.
  - inversion Hnd as [|? ? Hnin Hnd']; subst. unfold handle.
    assert (E : has_handler hs c = false).
    { destruct (has_handler hs c) eqn:E; [|reflexivity].
      apply has_handler_In in E. elim (Hdis c (or_introl eq_refl) E). }
    rewrite E. rewrite IH; auto.
    + now rewrite <- app_assoc.
    + intros ch Hch Hin. apply in_app_or in Hin. destruct Hin as [Hin | [Hin | []]].
      * apply (Hdis ch (or_intror Hch) Hin).
      * subst ch. contradiction.
Qed.

Lemma handle_all_taken (chs : list string) :
  forall hs ch, In ch chs -> In ch hs ->
    exists hs' e, handle_all chs hs = (hs', Threw e).
Proof.
  induction chs as [|c chs IH]; intros hs ch Hch Hin; [destruct Hch|].
  simpl. unfold handle. destruct (has_handler hs c) eqn:E.
  - eexists _, _. reflexivity.
  - destruct Hch as [Hc | Hch].
    + subst c. apply has_handler_In in Hin. congruence.
    + apply (IH (hs ++ [c])%list ch Hch). apply in_or_app. now left.
Qed.

Lemma handled_channels_are_the_table :
  channels_of handled_keys = channel_values.
Proof. reflexivity. Qed.

Lemma distinct_NoDup (l : list string) : distinct l = true -> NoDup l.
Proof.
  induction l as [|a l IH]; simpl; intro H; [constructor|].
  apply andb_prop in H. destruct H as [Ha Hl]. constructor; [|now apply IH].
  intro Hin. apply negb_true_iff in Ha.
  assert (existsb (String.eqb a) l = true).
  { apply existsb_exists. exists a. split; [assumption | apply String.eqb_refl]. }
  congruence.
Qed.

Lemma channel_values_NoDup : NoDup channel_values.
Proof. apply distinct_NoDup. vm_compute. reflexivity. Qed.

Lemma disjoint_check (chs hs : list string) :
  forallb (fun ch => negb (existsb (String.eqb ch) hs)) chs = true ->
  forall ch, In ch chs -> ~ In ch hs.
Proof.
  intros H ch Hch Hin. rewrite forallb_forall in H. specialize (H ch Hch).
  apply negb_true_iff in H.
  assert (existsb (String.eqb ch) hs = true).
  { apply existsb_exists. exists ch. split; [assumption | apply String.eqb_refl]. }
  congruence.
Qed.

Lemma handle_all_returned (chs : list string) :
  forall hs hs1 u, handle_all chs hs = (hs1, Returned u) ->
    forall c, In c chs \/ In c hs -> In c hs1.
Proof.
  induction chs as [|ch chs IH]; intros hs hs1 u H c Hc; simpl in H.
  - inversion H; subst. destruct Hc as [[] | Hc]. exact Hc.
  - unfold handle in H. destruct (has_handler hs ch) eqn:E; [discriminate|].
    apply (IH _ _ _ H). destruct Hc as [[Hc | Hc] | Hc].
    + subst c. right. apply in_or_app. right. now left.
    + now left.
    + right. apply in_or_app. now left.
Qed.

Lemma initialize_fresh (hs : Handlers) :
  (forall ch, In ch channel_values -> ~ In ch hs) ->
  initializeIPCHandlers hs = ((hs ++ channel_values)%list, Returned tt).
Proof.
  intro Hdis. unfold initializeIPCHandlers.
  rewrite handled_channels_are_the_table.
  apply handle_all_fresh; [apply channel_values_NoDup | exact Hdis].
Qed.

(** X7. [initializeIPCHandlers] succeeds exactly when none of the
    channels of [IPC_CHANNELS] has a handler yet; it then registers one
    handler for every channel of the table, in the order of the table,
    and touches no other channel.  Called a second time without a
    clean-up in between, it throws. *)
Theorem X7_initialize_registers_the_table (hs : Handlers) :
  ((forall ch, In ch channel_values -> ~ In ch hs) ->
   initializeIPCHandlers hs = ((hs ++ channel_values)%list, Returned tt)) /\
  ((exists ch, In ch channel_values /\ In ch hs) ->
   exists hs' e, initializeIPCHandlers hs = (hs', Threw e)) /\
  (forall hs1, initializeIPCHandlers hs = (hs1, Returned tt) ->
   exists hs2 e, initializeIPCHandlers hs1 = (hs2, Threw e)).
Proof.
  unfold initializeIPCHandlers. rewrite handled_channels_are_the_table.
  split; [|split].
  - intro Hdis. apply handle_all_fresh; [apply channel_values_NoDup | exact Hdis].
  - intros [ch [Hch Hin]]. now apply (handle_all_taken _ hs ch).
  - intros hs1 H.
    assert (Hch : In "diagram:render" channel_values).
    { unfold channel_values, IPC_CHANNELS. simpl. now left. }
    apply (handle_all_taken channel_values hs1 "diagram:render" Hch).
    apply (handle_all_returned _ _ _ _ H). now left.
Qed.

Lemma X7_initialize_registers_the_table_witness :
  initializeIPCHandlers ["menu:state"]
  = (("menu:state" :: channel_values)%list, Returned tt).
Proof.
  apply (proj1 (X7_initialize_registers_the_table ["menu:state"])).
  apply disjoint_check. vm_compute. reflexivity.
Defined.

Lemma removeHandler_In (c ch : string) (hs : Handlers) :
  In c (removeHandler ch hs) <-> In c hs /\ c <> ch.
Proof.
  unfold removeHandler. rewrite filter_In, negb_true_iff, String.eqb_neq.
  tauto.
Qed.

Lemma cleanup_fold_In (chs : list string) :
  forall hs c,
    In c (fold_left (fun acc ch => removeHandler ch acc) chs hs) <->
    In c hs /\ ~ In c chs.
Proof.
  induction chs as [|ch chs IH]; intros hs c; simpl.
  - tauto.
  - rewrite IH, removeHandler_In. split.
    + intros [[H1 H2] H3]. split; [assumption|]. intros [E | E]; [congruence | tauto].
    + intros [H1 H2]. repeat split; auto.
Qed.

Lemma removeHandler_absent (ch : string) (hs : Handlers) :
  ~ In ch hs -> removeHandler ch hs = hs.
Proof.
  intro Hn. unfold removeHandler. induction hs as [|c hs IH]; simpl; [reflexivity|].
  assert (E : (c =? ch) = false).
  { apply String.eqb_neq. intro E. apply Hn. left. exact E. }
  rewrite E. simpl. rewrite IH; [reflexivity|]. intro H. apply Hn. now right.
Qed.

Lemma removeHandler_app (ch : string) (hs hs' : Handlers) :
  removeHandler ch (hs ++ hs')%list
  = (removeHandler ch hs ++ removeHandler ch hs')%list.
Proof. unfold removeHandler. apply filter_app. Qed.

Lemma cleanup_fold_undo (chs : list string) :
  forall hs, (forall ch, In ch chs -> ~ In ch hs) ->
    fold_left (fun acc ch => removeHandler ch acc) chs (hs ++ chs)%list = hs.
Proof.
  induction chs as [|c chs IH] using rev_ind; intros hs Hdis; simpl.
  - apply app_nil_r.
  - rewrite fold_left_app. simpl. rewrite app_assoc.
    assert (Hfold : forall l acc,
               (forall ch, In ch l -> ch <> c) ->
               fold_left (fun acc ch => removeHandler ch acc) l (acc ++ [c])%list
               = (fold_left (fun acc ch => removeHandler ch acc) l acc ++ [c])%list).
    { induction l as [|a l IHl]; intros acc Hl; simpl; [reflexivity|].
      rewrite removeHandler_app.
      assert (E : removeHandler a [c] = [c]).
      { apply removeHandler_absent. intros [H | []].
        apply (Hl a (or_introl eq_refl)). now symmetry. }
      rewrite E. apply IHl. intros ch Hch. apply Hl. now right. }
    destruct (in_dec string_dec c chs) as [Hin | Hnin].
    + (* c occurs earlier: it is removed from the whole list on the way *)
      assert (Hgone : forall l acc,
                 In c l ->
                 fold_left (fun acc ch => removeHandler ch acc) l (acc ++ [c])%list
                 = fold_left (fun acc ch => removeHandler ch acc) l acc).
      { induction l as [|a l IHl]; intros acc Hl; [destruct Hl|]. simpl.
        rewrite removeHandler_app.
        destruct (string_dec a c) as [Ea | Na].
        - subst a. assert (E : removeHandler c [c] = []).
          { unfold removeHandler. simpl. now rewrite String.eqb_refl. }
          now rewrite E, app_nil_r.
        - assert (E : removeHandler a [c] = [c]).
          { apply removeHandler_absent. intros [H | []]. congruence. }
          rewrite E. apply IHl. destruct Hl as [Hl | Hl]; [congruence | exact Hl]. }
      rewrite Hgone by assumption. rewrite IH.
      * apply removeHandler_absent. apply Hdis. apply in_or_app. right. now left.
      * intros ch Hch. apply Hdis. apply in_or_app. now left.
    + rewrite Hfold by (intros ch Hch E; subst ch; contradiction).
      rewrite IH by (intros ch Hch; apply Hdis; apply in_or_app; now left).
      rewrite removeHandler_app.
      rewrite removeHandler_absent
        by (apply Hdis; apply in_or_app; right; now left).
      unfold removeHandler. simpl. rewrite String.eqb_refl. simpl.
      apply app_nil_r.
Qed.

(** X8. [cleanupIPCHandlers] removes the handlers of the channels of
    [IPC_CHANNELS] and of no other channel; after
    [initializeIPCHandlers] it gives back the registry as it was before,
    so that the handlers can be initialised again. *)
Theorem X8_cleanup_undoes_initialize (hs : Handlers) :
  (forall c, In c (cleanupIPCHandlers hs) <-> In c hs /\ ~ In c channel_values) /\
  ((forall ch, In ch channel_values -> ~ In ch hs) ->
   cleanupIPCHandlers (fst (initializeIPCHandlers hs)) = hs /\
   snd (initializeIPCHandlers
          (cleanupIPCHandlers (fst (initializeIPCHandlers hs)))) = Returned tt).
Proof.
  split.
  - intro c. unfold cleanupIPCHandlers. apply cleanup_fold_In.
  - intro Hdis.
    rewrite (initialize_fresh hs Hdis).
    unfold cleanupIPCHandlers. simpl fst.
    rewrite cleanup_fold_undo by exact Hdis.
    split; [reflexivity|].
    now rewrite (initialize_fresh hs Hdis).
Qed.

Lemma X8_cleanup_undoes_initialize_witness :
  cleanupIPCHandlers (fst (initializeIPCHandlers ["menu:state"])) = ["menu:state"] /\
  snd (initializeIPCHandlers
         (cleanupIPCHandlers (fst (initializeIPCHandlers ["menu:state"]))))
  = Returned tt.
Proof.
  apply (proj2 (X8_cleanup_undoes_initialize ["menu:state"])).
  apply disjoint_check. vm_compute. reflexivity.
Defined.

End RegistryProperties.

Section LifecycleProperties.
Import Js Electron IpcRegistry AppLifecycle.

Lemma viewers_createMainWindow (p : Process) :
  viewers (createMainWindow p) = (viewers p ++ [next_window p])%list.
Proof.
  unfold viewers, getAllWindows, createMainWindow. simpl.
  now rewrite filter_app, map_app.
Qed.

Lemma cleanup_leaves_no_channel (hs : Handlers) (ch : string) :
  In ch channel_values -> ~ In ch (cleanupIPCHandlers hs).
Proof.
  intros Hch Hin. unfold cleanupIPCHandlers in Hin.
  apply cleanup_fold_In in Hin. tauto.
Qed.

(** X9. In [main.ts], once all windows are closed no channel of
    [IPC_CHANNELS] keeps its handler, on any platform.  On macOS the
    application is not asked to quit, and activating it again opens a
    new window while the handlers are still missing; elsewhere
    [app.quit()] is called. *)
Theorem X9_handlers_gone_after_last_window (platform : string) (a : MainApp) :
  (forall ch, In ch channel_values ->
     ~ In ch (handlers (window_all_closed platform a))) /\
  (platform <> "darwin" -> quit (window_all_closed platform a) = true) /\
  (platform = "darwin" -> viewers (process a) = [] ->
   quit (activate (window_all_closed platform a)) = quit a /\
   viewers (process (activate (window_all_closed platform a)))
   = [next_window (process a)] /\
   forall ch, In ch channel_values ->
     ~ In ch (handlers (activate (window_all_closed platform a)))).
Proof.
  split; [|split].
  - intros ch Hch. unfold window_all_closed.
    destruct (negb (platform =? "darwin")); cbn [handlers];
      now apply cleanup_leaves_no_channel.
  - intro Hp. apply String.eqb_neq in Hp. unfold window_all_closed.
    rewrite Hp. reflexivity.
  - intros Hp Hv. subst platform. unfold window_all_closed, activate.
    change (negb ("darwin" =? "darwin")) with false.
    cbn [handlers quit process Main.on_event].
    split; [reflexivity|]. split.
    + unfold viewers in Hv. apply map_eq_nil in Hv. rewrite Hv.
      cbn [length Nat.eqb].
      rewrite viewers_createMainWindow. unfold viewers. now rewrite Hv.
    + intros ch Hch. now apply cleanup_leaves_no_channel.
Qed.

Lemma X9_handlers_gone_after_last_window_witness :
  viewers (process
             (activate (window_all_closed "darwin"
                (mkMainApp Samples.fresh_process channel_values false))))
  = [0] /\
  forall ch, In ch channel_values ->
    ~ In ch (handlers
               (activate (window_all_closed "darwin"
                  (mkMainApp Samples.fresh_process channel_values false)))).
Proof.
  destruct (proj2 (proj2 (X9_handlers_gone_after_last_window "darwin"
              (mkMainApp Samples.fresh_process channel_values false)))
              eq_refl eq_refl) as [_ [Hv Hh]].
  split; [exact Hv | exact Hh].
Defined.

End LifecycleProperties.

Section RenderPathProperties.
Import Js Electron EmbeddedServer Main.

Variable renderer : string -> option string -> Outcome Obj.
Variable detectGitRepo : string -> Outcome (option string).

Lemma saveDiagram_same_windows d t c p q o :
  HistoryService.saveDiagram d t c p = (q, o) -> same_windows p q.
Proof.
  unfold HistoryService.saveDiagram.
  destruct (HistoryStore.saveDiagram d t c (HistoryService.env_of p) (history_file p))
    as [[e st]|err]; intro H; inversion H; subst; now repeat split.
Qed.

Lemma inbox_same_windows (p q : Process) (v : nat) :
  windows q = windows p -> inbox v q = inbox v p.
Proof. intro H. unfold inbox. now rewrite H. Qed.

Lemma inbox_focusWindow (p : Process) (v : nat) :
  inbox v (fst (focusWindow p)) = inbox v p.
Proof.
  unfold focusWindow. destruct (getAllWindows p) as [|w ws]; [reflexivity|].
  unfold inbox. simpl. rewrite find_update_window by reflexivity.
  destruct (find (is_window v) (windows p)) as [w'|]; [|reflexivity].
  simpl. destruct (is_window (wid w) w'); reflexivity.
Qed.

Lemma get_set_same (o : Obj) (k : string) (v : JsVal) : get (set o k v) k = v.
Proof.
  induction o as [|[k' v'] o IH]; simpl.
  - now rewrite String.eqb_refl.
  - destruct (k' =? k) eqn:E; simpl; now rewrite E.
Qed.

Lemma get_set_other (o : Obj) (k k' : string) (v : JsVal) :
  k' <> k -> get (set o k v) k' = get o k'.
Proof.
  intro Hk. induction o as [|[k0 v0] o IH]; simpl.
  - assert (E : (k =? k') = false) by (apply String.eqb_neq; congruence).
    now rewrite E.
  - destruct (k0 =? k) eqn:E; simpl.
    + apply String.eqb_eq in E. subst k0.
      assert (E' : (k =? k') = false) by (apply String.eqb_neq; congruence).
      now rewrite E'.
    + destruct (k0 =? k'); [reflexivity | exact IH].
Qed.

(** What [renderMermaid] does once the library has accepted the source,
    in terms of its three later steps. *)
Lemma renderMermaid_accepted self d bg title p r :
  renderer d bg = Returned r -> is_str (get r "type") "error" = false ->
  renderMermaid renderer detectGitRepo self d bg title p
  = match save_to_history detectGitRepo d title (rendering d bg p) with
    | (p1, Returned oid) =>
        match notify_renderer self d title oid p1 with
        | (p2, Returned _) =>
            (fst (focusWindow p2), Returned (set r "type" (JStr "success")))
        | (p2, Threw e) => (p2, Returned (error_result d e))
        end
    | (p1, Threw e) => (p1, Returned (error_result d e))
    end.
Proof.
  intros Hr Ht. unfold renderMermaid, try_catch, bind, call_renderer.
  rewrite Hr, Ht.
  destruct (save_to_history detectGitRepo d title (rendering d bg p))
    as [p1 [oid|e]]; [|reflexivity].
  destruct (notify_renderer self d title oid p1) as [p2 [u|e]]; [|reflexivity].
  rewrite focusWindow_total. reflexivity.
Qed.

Lemma handler_keeps_windows (d t i : string) (p : Process) :
  viewers (fst (diagramUpdateHandler d t i p)) = viewers p /\
  map wid (windows (fst (diagramUpdateHandler d t i p))) = map wid (windows p).
Proof.
  rewrite diagramUpdateHandler_eq.
  destruct (getMainWindow p) as [w|]; [|now split].
  destruct (destroyed w); [now split|].
  unfold viewers, getAllWindows. cbn [negb windows set_windows set_console].
  split; [now rewrite live_update_window | now rewrite wid_update_window].
Qed.

(** X10. When the main window is the one open window, the library
    accepts the source, a title is given, the repository is detected
    and [saveDiagram] returns an entry, the [render_mermaid] tool
    answers with type [success], leaves the history file as
    [saveDiagram] wrote it, sends the window exactly one further
    message, [{diagram, title, id}] with the id of the saved entry on
    the channel of diagram updates, and raises the window, whether it
    was minimised, hidden or in the background, and whatever it had
    been sent before. *)
Theorem X10_saved_diagram_reaches_the_window
    (d t : string) (bg c : option string) (p p1 : Process) (r : Obj)
    (e : HistoryStore.DiagramEntry) (v : nat) :
  viewers p = [v] -> mainWindow p = Some v -> NoDup (map wid (windows p)) ->
  renderer d bg = Returned r -> is_str (get r "type") "error" = false ->
  truthy_str t = true ->
  detectGitRepo (cwd p) = Returned c ->
  HistoryService.saveDiagram d t c (rendering d bg p) = (p1, Returned e) ->
  truthy_str (HistoryStore.id e) = true ->
  exists p',
    renderMermaid renderer detectGitRepo mcpServer d bg (Some t) p
    = (p', Returned (set r "type" (JStr "success"))) /\
    history_file p' = history_file p1 /\
    inbox v p'
    = (inbox v p ++
       [mkIpc MCP_DIAGRAM_UPDATE
          [JObj [("diagram", JStr d); ("title", JStr t);
                 ("id", JStr (HistoryStore.id e))]]])%list /\
    exists w, find (is_window v) (windows p') = Some w /\
              shown w = true /\ focused w = true /\ minimized w = false.
Proof.
  intros Hview Hmain Hnd Hr Ht Htitle Hdet Hsave Hid.
  rewrite (renderMermaid_accepted mcpServer d bg (Some t) p r Hr Ht).
  assert (Hs : save_to_history detectGitRepo d (Some t) (rendering d bg p)
               = (set_console
                    (console p1 ++ [ConsoleLog (saved_line t (HistoryStore.id e))])%list
                    p1,
                  Returned (Some (HistoryStore.id e)))).
  { unfold save_to_history. rewrite Htitle.
    unfold try_catch, bind, call_detectGitRepo, lift, read. simpl.
    rewrite Hdet, Hsave. reflexivity. }
  rewrite Hs. clear Hs.
  set (p2 := set_console _ p1).
  assert (Hsame : same_windows p p2).
  { destruct (saveDiagram_same_windows _ _ _ _ _ _ Hsave) as [H1 [H2 H3]].
    subst p2. simpl in *. now repeat split. }
  destruct Hsame as [Hw2 [Hm2 _]].
  destruct (find_live v p Hnd) as [w [Hf [Hw Hd]]]; [rewrite Hview; now left|].
  assert (Hmain2 : getMainWindow p2 = Some w).
  { unfold getMainWindow. now rewrite Hm2, Hmain, Hw2. }
  unfold notify_renderer. rewrite Hid, Htitle.
  change (onDiagramUpdate mcpServer) with (Some diagramUpdateHandler).
  cbn [andb].
  rewrite (surjective_pairing (diagramUpdateHandler d t (HistoryStore.id e) p2)).
  rewrite diagramUpdateHandler_returns.
  set (p3 := fst (diagramUpdateHandler d t (HistoryStore.id e) p2)).
  destruct (handler_on_main d t (HistoryStore.id e) p2 w Hmain2 Hd) as [Hin _].
  fold p3 in Hin. rewrite Hw in Hin.
  destruct (handler_keeps_windows d t (HistoryStore.id e) p2) as [Hv3 Hid3].
  fold p3 in Hv3, Hid3.
  exists (fst (focusWindow p3)). split; [reflexivity|]. split; [|split].
  - assert (H3 : history_file p3 = history_file p2).
    { subst p3. rewrite diagramUpdateHandler_eq.
      destruct (getMainWindow p2) as [w'|]; [|reflexivity].
      destruct (destroyed w'); reflexivity. }
    assert (Hh : history_file (fst (focusWindow p3)) = history_file p3).
    { unfold focusWindow. destruct (getAllWindows p3); reflexivity. }
    rewrite Hh, H3. reflexivity.
  - rewrite inbox_focusWindow, Hin.
    rewrite (inbox_same_windows p p2 v Hw2). reflexivity.
  - assert (Hv3' : viewers p3 = [v]).
    { rewrite Hv3. unfold viewers, getAllWindows. now rewrite Hw2. }
    assert (Hnd3 : NoDup (map wid (windows p3))) by now rewrite Hid3, Hw2.
    destruct (find_live v p3 Hnd3) as [w3 [Hf3 [Hw3 Hd3]]];
      [rewrite Hv3'; now left|].
    unfold focusWindow.
    destruct (getAllWindows p3) as [|w0 ws] eqn:Hall.
    { unfold viewers in Hv3'. rewrite Hall in Hv3'. discriminate. }
    assert (Hw0 : wid w0 = v).
    { unfold viewers in Hv3'. rewrite Hall in Hv3'. simpl in Hv3'. congruence. }
    simpl. rewrite find_update_window by reflexivity. rewrite Hf3. simpl.
    unfold is_window. rewrite Hw3, Hw0, Nat.eqb_refl.
    eexists. split; [reflexivity|]. simpl. auto.
Qed.

(** X11. Without a title, or with the empty title, the
    [render_mermaid] tool saves nothing and sends no diagram update,
    whatever callback is registered, and still answers an accepted
    source with type [success]. *)
Theorem X11_no_title_no_history (self : EmbeddedMCPServer)
    (d : string) (bg title : option string) (p : Process) (r : Obj) :
  title = None \/ title = Some EmptyString ->
  renderer d bg = Returned r -> is_str (get r "type") "error" = false ->
  exists p',
    renderMermaid renderer detectGitRepo self d bg title p
    = (p', Returned (set r "type" (JStr "success"))) /\
    history_file p' = history_file p /\
    console p' = console p /\
    forall v, inbox v p' = inbox v p.
Proof.
  intros Htitle Hr Ht.
  rewrite (renderMermaid_accepted self d bg title p r Hr Ht).
  assert (Hs : save_to_history detectGitRepo d title (rendering d bg p)
               = (rendering d bg p, Returned None)).
  { destruct Htitle; subst title; reflexivity. }
  rewrite Hs.
  assert (Hn : notify_renderer self d title None (rendering d bg p)
               = (rendering d bg p, Returned tt)).
  { unfold notify_renderer. destruct (onDiagramUpdate self); reflexivity. }
  rewrite Hn.
  eexists. split; [reflexivity|].
  destruct (focusWindow_returns (rendering d bg p)) as [q [Hq [Hh [_ [Hc _]]]]].
  rewrite Hq. simpl. repeat split; auto.
  intro v. replace q with (fst (focusWindow (rendering d bg p)))
    by now rewrite Hq.
  now rewrite inbox_focusWindow.
Qed.

End RenderPathProperties.

Section RenderPathWitnesses.
Import Js Electron EmbeddedServer Main Samples.

Lemma X11_no_title_no_history_witness :
  exists p',
    renderMermaid accepting_renderer no_repository mcpServer
      "graph TD;A-->B" None (Some EmptyString) started
    = (p', Returned (set [("type", JStr "success");
                          ("diagram", JStr "graph TD;A-->B");
                          ("svg", JStr "<svg/>")] "type" (JStr "success"))) /\
    history_file p' = HistoryStore.empty /\
    inbox 0 p' = [mkIpc MCP_STATUS [JObj [("active", JBool true)]]].
Proof.
  destruct (X11_no_title_no_history accepting_renderer no_repository mcpServer
              "graph TD;A-->B" None (Some EmptyString) started
              [("type", JStr "success"); ("diagram", JStr "graph TD;A-->B");
               ("svg", JStr "<svg/>")]
              (or_intror eq_refl) eq_refl eq_refl) as [p' [Hr [Hh [_ Hi]]]].
  exists p'. split; [exact Hr|]. split; [exact Hh | exact (Hi 0)].
Defined.

Lemma X10_saved_diagram_reaches_the_window_witness :
  find (is_window 0) (windows minimised)
  = Some (mkWindow 0 false true true false
            [mkIpc MCP_STATUS [JObj [("active", JBool true)]]]) /\
  exists p',
    renderMermaid accepting_renderer no_repository mcpServer
      "graph TD;A-->B" None (Some "flow") minimised
    = (p', Returned (set [("type", JStr "success");
                          ("diagram", JStr "graph TD;A-->B");
                          ("svg", JStr "<svg/>")] "type" (JStr "success"))) /\
    inbox 0 p'
    = [mkIpc MCP_STATUS [JObj [("active", JBool true)]];
       mkIpc MCP_DIAGRAM_UPDATE
         [JObj [("diagram", JStr "graph TD;A-->B"); ("title", JStr "flow");
                ("id", JStr "0")]]] /\
    exists w, find (is_window 0) (windows p') = Some w /\
              shown w = true /\ focused w = true /\ minimized w = false.
Proof.
  split; [reflexivity|].
  assert (Hnd : NoDup (map wid (windows minimised))).
  { repeat constructor. intros []. }
  destruct (X10_saved_diagram_reaches_the_window accepting_renderer no_repository
              "graph TD;A-->B" "flow" None None minimised
              _ _ _ 0 eq_refl eq_refl Hnd
              eq_refl eq_refl eq_refl eq_refl eq_refl eq_refl)
    as [p' [Hr [_ [Hi Hw]]]].
  exists p'. split; [exact Hr|]. split; [exact Hi | exact Hw].
Defined.

End RenderPathWitnesses.

Section RenderEdgeProperties.
Import Js Electron EmbeddedServer.

Variable renderer : string -> option string -> Outcome Obj.
Variable detectGitRepo : string -> Outcome (option string).

Lemma is_str_eq (v : JsVal) (s : string) : is_str v s = true -> v = JStr s.
Proof.
  destruct v; simpl; try discriminate. intro H.
  apply String.eqb_eq in H. now subst.
Qed.

(** X12. When the detection of the repository of the working directory
    throws, the [render_mermaid] tool saves nothing, however writable
    the disk is: the history file is as before, the exception is
    written to the console, no window is sent anything, and the answer
    is still the render result with type [success]. *)
Theorem X12_detection_failure_loses_the_entry (self : EmbeddedMCPServer)
    (d t : string) (bg : option string) (p : Process) (r : Obj) (ex : Thrown) :
  renderer d bg = Returned r -> is_str (get r "type") "error" = false ->
  truthy_str t = true ->
  detectGitRepo (cwd p) = Threw ex ->
  exists p',
    renderMermaid renderer detectGitRepo self d bg (Some t) p
    = (p', Returned (set r "type" (JStr "success"))) /\
    history_file p' = history_file p /\
    console p'
    = (console p ++
       [ConsoleError "[EmbeddedMCP] Failed to save diagram to history:" ex])%list /\
    forall v, inbox v p' = inbox v p.
Proof.
  intros Hr Ht Htitle Hdet.
  rewrite (renderMermaid_accepted renderer detectGitRepo self d bg (Some t) p r Hr Ht).
  set (q := set_console
              (console p ++
               [ConsoleError "[EmbeddedMCP] Failed to save diagram to history:" ex])%list
              (rendering d bg p)).
  assert (Hs : save_to_history detectGitRepo d (Some t) (rendering d bg p)
               = (q, Returned None)).
  { unfold save_to_history. rewrite Htitle.
    unfold try_catch, bind, call_detectGitRepo, lift, read. simpl.
    rewrite Hdet. reflexivity. }
  rewrite Hs.
  assert (Hn : notify_renderer self d (Some t) None q = (q, Returned tt)).
  { unfold notify_renderer. destruct (onDiagramUpdate self); reflexivity. }
  rewrite Hn.
  exists (fst (focusWindow q)). split; [reflexivity|].
  destruct (focusWindow_returns q) as [q' [Hq [Hh [_ [Hc _]]]]].
  rewrite Hq. simpl. split; [exact Hh|]. split; [exact Hc|].
  intro v. replace q' with (fst (focusWindow q)) by now rewrite Hq.
  now rewrite inbox_focusWindow.
Qed.

(** X13. When the registered callback throws after the entry has been
    saved, the [render_mermaid] tool answers with type [error] and the
    message of the exception, although the library accepted the source
    and [saveDiagram] returned: the process is left as the callback left
    it, so the save is not undone and the window is not raised. *)
Theorem X13_failing_callback_after_save
    (handler : string -> string -> string -> Proc unit) (self : EmbeddedMCPServer)
    (d t : string) (bg c : option string) (p p1 p3 : Process) (r : Obj)
    (e : HistoryStore.DiagramEntry) (ex : Thrown) :
  renderer d bg = Returned r -> is_str (get r "type") "error" = false ->
  truthy_str t = true ->
  detectGitRepo (cwd p) = Returned c ->
  HistoryService.saveDiagram d t c (rendering d bg p) = (p1, Returned e) ->
  truthy_str (HistoryStore.id e) = true ->
  handler d t (HistoryStore.id e)
    (set_console
       (console p1 ++ [ConsoleLog (saved_line t (HistoryStore.id e))])%list p1)
  = (p3, Threw ex) ->
  renderMermaid renderer detectGitRepo (setDiagramUpdateHandler handler self)
    d bg (Some t) p
  = (p3, Returned [("type", JStr "error"); ("diagram", JStr d);
                   ("error", JStr (message_or ex "Failed to render diagram"))]).
Proof.
  intros Hr Ht Htitle Hdet Hsave Hid Hh.
  rewrite (renderMermaid_accepted renderer detectGitRepo _ d bg (Some t) p r Hr Ht).
  assert (Hs : save_to_history detectGitRepo d (Some t) (rendering d bg p)
               = (set_console
                    (console p1 ++ [ConsoleLog (saved_line t (HistoryStore.id e))])%list
                    p1,
                  Returned (Some (HistoryStore.id e)))).
  { unfold save_to_history. rewrite Htitle.
    unfold try_catch, bind, call_detectGitRepo, lift, read. simpl.
    rewrite Hdet, Hsave. reflexivity. }
  rewrite Hs. unfold notify_renderer. rewrite Hid, Htitle.
  change (onDiagramUpdate (setDiagramUpdateHandler handler self))
    with (Some handler).
  cbn [andb]. rewrite Hh. reflexivity.
Qed.

(** X14. Whenever the [render_mermaid] tool answers with type
    [success], every other field of the answer is the field of the
    result that the rendering library returned. *)
Theorem X14_success_keeps_the_render_fields (self : EmbeddedMCPServer)
    (d : string) (bg title : option string) (p p' : Process) (r a : Obj) :
  renderer d bg = Returned r ->
  renderMermaid renderer detectGitRepo self d bg title p = (p', Returned a) ->
  get a "type" = JStr "success" ->
  forall k, k <> "type" -> get a k = get r k.
Proof.
  intros Hr Hrun Ha k Hk.
  destruct (is_str (get r "type") "error") eqn:Ht.
  - assert (a = r).
    { unfold renderMermaid, try_catch, bind, call_renderer in Hrun.
      rewrite Hr, Ht in Hrun. now inversion Hrun. }
    subst a. apply is_str_eq in Ht. congruence.
  - rewrite (renderMermaid_accepted renderer detectGitRepo self d bg title p r Hr Ht)
      in Hrun.
    destruct (save_to_history detectGitRepo d title (rendering d bg p))
      as [p1 [oid|ex]].
    + destruct (notify_renderer self d title oid p1) as [p2 [u|ex]].
      * inversion Hrun. now apply get_set_other.
      * inversion Hrun. subst a. discriminate Ha.
    + inversion Hrun. subst a. discriminate Ha.
Qed.

(** X15. When the library returned a result of type [success], a
    working directory and a title are given, the repository of that
    working directory is detected and [saveDiagram] returns an entry,
    the [diagram:render] handler answers with the render result
    extended by [diagramId], the id of the saved entry, every other
    field kept, and leaves the process as [saveDiagram] left it: it
    writes nothing to the console and sends no window anything.  The
    repository is that of the working directory passed in, not of the
    directory of the process. *)
Theorem X15_ipc_render_reports_the_saved_id
    (d wd t : string) (bg c : option string) (p p1 : Process) (r : Obj)
    (e : HistoryStore.DiagramEntry) :
  renderer d bg = Returned r -> is_str (get r "type") "success" = true ->
  truthy_str wd = true -> truthy_str t = true ->
  detectGitRepo wd = Returned c ->
  HistoryService.saveDiagram d t c (rendering d bg p) = (p1, Returned e) ->
  exists a,
    IpcHandlers.DIAGRAM_RENDER renderer detectGitRepo d bg (Some wd) (Some t) p
    = (p1, Returned a) /\
    get a "diagramId" = JStr (HistoryStore.id e) /\
    forall k, k <> "diagramId" -> get a k = get r k.
Proof.
  intros Hr Ht Hwd Htitle Hdet Hsave.
  exists (set r "diagramId" (JStr (HistoryStore.id e))).
  split; [|split].
  - unfold IpcHandlers.DIAGRAM_RENDER, bind, call_renderer.
    rewrite Hr, Ht, Hwd, Htitle.
    unfold try_catch, bind, call_detectGitRepo, lift. cbn [andb].
    rewrite Hdet, Hsave. reflexivity.
  - apply get_set_same.
  - intros k Hk. now apply get_set_other.
Qed.

End RenderEdgeProperties.

Section RenderEdgeWitnesses.
Import Js Electron EmbeddedServer Main Samples.

Lemma X12_detection_failure_loses_the_entry_witness :
  exists p',
    renderMermaid accepting_renderer
      (fun _ => Threw (ErrorObject "Error" "not a git repository")) mcpServer
      "graph TD;A-->B" None (Some "flow") started
    = (p', Returned (set [("type", JStr "success");
                          ("diagram", JStr "graph TD;A-->B");
                          ("svg", JStr "<svg/>")] "type" (JStr "success"))) /\
    history_file p' = HistoryStore.empty /\
    inbox 0 p' = [mkIpc MCP_STATUS [JObj [("active", JBool true)]]].
Proof.
  destruct (X12_detection_failure_loses_the_entry accepting_renderer
              (fun _ => Threw (ErrorObject "Error" "not a git repository"))
              mcpServer "graph TD;A-->B" "flow" None started
              _ _ eq_refl eq_refl eq_refl eq_refl) as [p' [Hr [Hh [_ Hi]]]].
  exists p'. split; [exact Hr|]. split; [exact Hh | exact (Hi 0)].
Defined.

Lemma X13_failing_callback_after_save_witness :
  exists p3,
    renderMermaid accepting_renderer no_repository
      (setDiagramUpdateHandler
         (fun _ _ _ => throw (ErrorObject "Error" "window is gone"))
         (mkServer false None))
      "graph TD;A-->B" None (Some "flow") started
    = (p3, Returned [("type", JStr "error"); ("diagram", JStr "graph TD;A-->B");
                     ("error", JStr "window is gone")]) /\
    history_file p3 <> HistoryStore.empty.
Proof.
  eexists. split.
  - apply (X13_failing_callback_after_save accepting_renderer no_repository
             (fun _ _ _ => throw (ErrorObject "Error" "window is gone"))
             (mkServer false None)
             "graph TD;A-->B" "flow" None None started
             _ _ _ _ (ErrorObject "Error" "window is gone")
             eq_refl eq_refl eq_refl eq_refl eq_refl eq_refl eq_refl).
  - vm_compute. discriminate.
Defined.

Lemma X14_success_keeps_the_render_fields_witness :
  get (set [("type", JStr "success"); ("diagram", JStr "graph TD;A-->B");
            ("svg", JStr "<svg/>")] "type" (JStr "success")) "svg"
  = JStr "<svg/>".
Proof.
  refine (X14_success_keeps_the_render_fields accepting_renderer no_repository
            mcpServer "graph TD;A-->B" None None started
            _ _ _ eq_refl eq_refl eq_refl "svg" _).
  discriminate.
Defined.

Lemma X15_ipc_render_reports_the_saved_id_witness :
  exists p1 a,
    IpcHandlers.DIAGRAM_RENDER accepting_renderer no_repository
      "graph TD;A-->B" None (Some "/work") (Some "flow") fresh_process
    = (p1, Returned a) /\
    get a "diagramId" = JStr "0".
Proof.
  destruct (X15_ipc_render_reports_the_saved_id accepting_renderer no_repository
              "graph TD;A-->B" "/work" "flow" None None fresh_process
              _ _ _ eq_refl eq_refl eq_refl eq_refl eq_refl eq_refl)
    as [a [Hrun [Hid _]]].
  eexists _, a. split; [exact Hrun | exact Hid].
Defined.

End RenderEdgeWitnesses.

Section StandaloneProperties.
Import Js Electron CommandLine StandaloneServer.
Import EmbeddedServer (rendering, error_result).

Variable renderer : string -> option string -> Outcome Obj.
Variable detectGitRepo : string -> Outcome (option string).
Variable spawn : string -> list string -> Outcome unit.
Variable path_resolve : string -> string -> string.
Variable path_join : list string -> string.
Variable dirname : string.
Variable platform : string.
Variable dataPath : option string.

Local Abbreviation bin := (electronBin path_resolve path_join dirname platform).
Local Abbreviation main_js := (electronMainPath path_resolve dirname).

Lemma launchElectronUI_proc (i : option string) (n : Node) :
  proc (launchElectronUI spawn path_resolve path_join dirname platform dataPath i n)
  = proc n.
Proof.
  unfold launchElectronUI.
  destruct (spawn _ _); reflexivity.
Qed.

Lemma launchElectronUI_spawned (i : option string) (n : Node) :
  spawned (launchElectronUI spawn path_resolve path_join dirname platform dataPath i n)
  = match spawn bin (launch_args main_js i dataPath) with
    | Returned _ => (spawned n ++ [(bin, launch_args main_js i dataPath)])%list
    | Threw _ => spawned n
    end.
Proof.
  unfold launchElectronUI.
  destruct (spawn bin (launch_args main_js i dataPath)); reflexivity.
Qed.

Lemma launch_args_with_id (i : string) :
  truthy_str i = true ->
  launch_args main_js (Some i) dataPath
  = (main_js :: "--show-diagram" :: i ::
     match if_truthy dataPath with
     | Some dp => ["--data-path"; dp]
     | None => []
     end)%list.
Proof.
  intro Hi. unfold launch_args, if_truthy. rewrite Hi.
  destruct dataPath as [dp|]; cbn [truthy_opt app]; [|reflexivity].
  destruct (truthy_str dp); reflexivity.
Qed.

(** X16. When the library accepts the source, a title is given, the
    repository is detected and [saveDiagram] returns an entry, the
    stand-alone server answers [render_mermaid] with type [success],
    leaves the process as [saveDiagram] left it, and starts the UI once,
    with the command line [main.js --show-diagram <id of the saved
    entry>], followed by [--data-path <path>] when the server has a
    data path.  When [spawn] throws, no child is started, the failure
    is logged, and the answer is the same. *)
Theorem X16_render_launches_the_ui_with_the_saved_id
    (d t : string) (bg c : option string) (n : Node) (p1 : Process) (r : Obj)
    (e : HistoryStore.DiagramEntry) :
  renderer d bg = Returned r -> is_str (get r "type") "error" = false ->
  truthy_str t = true ->
  detectGitRepo (cwd (proc n)) = Returned c ->
  HistoryService.saveDiagram d t c (rendering d bg (proc n)) = (p1, Returned e) ->
  truthy_str (HistoryStore.id e) = true ->
  exists n',
    handleRenderMermaid renderer detectGitRepo spawn path_resolve path_join
      dirname platform dataPath d bg (Some t) n
    = (n', set r "type" (JStr "success")) /\
    proc n' = p1 /\
    let args := (main_js :: "--show-diagram" :: HistoryStore.id e ::
                 match if_truthy dataPath with
                 | Some dp => ["--data-path"; dp]
                 | None => []
                 end)%list in
    match spawn bin args with
    | Returned _ => spawned n' = (spawned n ++ [(bin, args)])%list
    | Threw ex =>
        spawned n' = spawned n /\
        In (LogError "Failed to launch Electron UI" ex) (log n')
    end.
Proof.
  intros Hr Ht Htitle Hdet Hsave Hid.
  unfold handleRenderMermaid. rewrite Hr, Ht.
  unfold save_to_history. rewrite Htitle.
  cbn [proc set_proc].
  change (cwd (rendering d bg (proc n))) with (cwd (proc n)).
  rewrite Hdet, Hsave.
  cbn [truthy_opt]. rewrite Hid.
  eexists. split; [reflexivity|]. split.
  - now rewrite launchElectronUI_proc.
  - cbv zeta. unfold launchElectronUI, HistoryStore.EntryId.
    rewrite (launch_args_with_id _ Hid).
    destruct (spawn bin _).
    + reflexivity.
    + split; [reflexivity|]. cbn [log logger_error]. apply in_or_app. right.
      now left.
Qed.

(** X17. Whatever the library, the repository detection, the history
    service and [spawn] do, [render_mermaid] of the stand-alone server
    starts at most one child, and only for an entry that [saveDiagram]
    has just returned: the command line carries the id of that entry. *)
Theorem X17_ui_launched_only_for_a_saved_entry
    (d : string) (bg title : option string) (n : Node) :
  let n' := fst (handleRenderMermaid renderer detectGitRepo spawn path_resolve
                   path_join dirname platform dataPath d bg title n) in
  spawned n' = spawned n \/
  exists t c p1 e r,
    title = Some t /\
    renderer d bg = Returned r /\ is_str (get r "type") "error" = false /\
    detectGitRepo (cwd (proc n)) = Returned c /\
    HistoryService.saveDiagram d t c (rendering d bg (proc n)) = (p1, Returned e) /\
    spawned n'
    = (spawned n ++ [(bin, launch_args main_js (Some (HistoryStore.id e)) dataPath)])%list.
Proof.
  unfold handleRenderMermaid.
  destruct (renderer d bg) as [r|ex] eqn:Hr; [|now left].
  destruct (is_str (get r "type") "error") eqn:Ht; [now left|].
  unfold save_to_history.
  destruct title as [t|]; [|now left].
  destruct (truthy_str t); [|now left].
  cbn [proc set_proc].
  change (cwd (rendering d bg (proc n))) with (cwd (proc n)).
  destruct (detectGitRepo (cwd (proc n))) as [c|ex] eqn:Hdet; [|now left].
  destruct (HistoryService.saveDiagram d t c (rendering d bg (proc n)))
    as [p1 [e|ex]] eqn:Hsave; [|now left].
  cbn [truthy_opt]. destruct (truthy_str (HistoryStore.id e)); [|now left].
  cbn [fst]. rewrite launchElectronUI_spawned.
  destruct (spawn bin (launch_args main_js (Some (HistoryStore.id e)) dataPath));
    [|now left].
  right. exists t, c, p1, e, r. repeat split; auto.
Qed.

End StandaloneProperties.

Section StandaloneWitnesses.
Import Js Electron CommandLine StandaloneServer Samples.

Lemma X16_render_launches_the_ui_with_the_saved_id_witness :
  exists n',
    handleRenderMermaid accepting_renderer no_repository
      (fun _ _ => Returned tt) (fun a b => a ++ "/" ++ b)
      (String.concat "/") "/opt/mindpilot/dist/mcp" "linux" (Some "/data")
      "graph TD;A-->B" None (Some "flow") (mkNode fresh_process [] [])
    = (n', set [("type", JStr "success"); ("diagram", JStr "graph TD;A-->B");
                ("svg", JStr "<svg/>")] "type" (JStr "success")) /\
    spawned n'
    = [("/opt/mindpilot/dist/mcp/../../node_modules/.bin/electron",
        ["/opt/mindpilot/dist/mcp/../electron/main.js"; "--show-diagram"; "0";
         "--data-path"; "/data"])].
Proof.
  destruct (X16_render_launches_the_ui_with_the_saved_id
              accepting_renderer no_repository
              (fun _ _ => Returned tt) (fun a b => a ++ "/" ++ b)
              (String.concat "/") "/opt/mindpilot/dist/mcp" "linux" (Some "/data")
              "graph TD;A-->B" "flow" None None (mkNode fresh_process [] [])
              _ _ _ eq_refl eq_refl eq_refl eq_refl eq_refl eq_refl)
    as [n' [Hrun [_ Hs]]].
  exists n'. split; [exact Hrun | exact Hs].
Defined.

End StandaloneWitnesses.

Section SecondInstanceProperties.
Import Js Electron CommandLine SecondInstance Main.

Variable notices : Method -> BrowserWindow -> nat.

Lemma find_diagram_id (ds : list HistoryStore.DiagramEntry) (i : string) e :
  find_diagram ds i = Some e -> HistoryStore.id e = i.
Proof.
  intro H. apply find_some in H. now apply String.eqb_eq.
Qed.

Lemma perform_wid (m : Method) (w : BrowserWindow) : wid (perform notices m w) = wid w.
Proof. reflexivity. Qed.

(** The window after the three method calls of the listener. *)
Lemma raised_window (w : BrowserWindow) :
  let w1 := if minimized w then perform notices Restore w else w in
  let w3 := perform notices Focus (perform notices Show w1) in
  wid w3 = wid w /\ destroyed w3 = destroyed w /\
  shown w3 = true /\ focused w3 = true /\ minimized w3 = false /\
  exists k,
    received w3 = (received w ++ repeat window_focus_message k)%list /\
    (forall c, (forall m x, notices m x = c m) ->
       k = (if minimized w then c Restore else 0) + c Show + c Focus).
Proof.
  intros w1 w3. subst w3 w1.
  destruct (minimized w) eqn:Hmin.
  - repeat split; try (destruct w; reflexivity).
    exists (notices Restore w
            + notices Show (perform notices Restore w)
            + notices Focus (perform notices Show (perform notices Restore w))).
    split.
    + cbn [received perform]. rewrite !repeat_app, <- !app_assoc. reflexivity.
    + intros c H0. now rewrite !H0.
  - repeat split; try (destruct w; simpl in *; congruence).
    exists (notices Show w + notices Focus (perform notices Show w)).
    split.
    + cbn [received perform]. rewrite !repeat_app, <- !app_assoc. reflexivity.
    + intros c H0. now rewrite !H0.
Qed.

(** X18. Without a main window the [second-instance] listener does
    nothing.  With one, it leaves the window shown, focused and not
    minimised, whatever state it was in, leaves the history file alone
    and sends no other window anything.  The window is sent whatever its
    [show] and [focus] listeners send while it is raised, which is
    nothing but [WINDOW_FOCUS] notices, one for each such event that
    Electron emits during [restore()] (called on a minimised window
    only), [show()] and [focus()], and none where the listeners are
    absent; after these, when the
    command line asks for a diagram, it is sent exactly one diagram
    update, [{diagram, title, id}] of the first stored entry that has
    the requested id, and none when no stored entry has it or no
    diagram is asked for. *)
Theorem X18_second_instance_shows_the_requested_diagram
    (commandLine : list string) (p : Process) :
  (getMainWindow p = None ->
   second_instance notices commandLine p = (p, Returned tt)) /\
  (forall w, getMainWindow p = Some w -> destroyed w = false ->
   exists p' k,
     second_instance notices commandLine p = (p', Returned tt) /\
     history_file p' = history_file p /\
     (exists w', find (is_window (wid w)) (windows p') = Some w' /\
                 destroyed w' = false /\
                 shown w' = true /\ focused w' = true /\ minimized w' = false) /\
     inbox (wid w) p'
     = (inbox (wid w) p ++ repeat (mkIpc WINDOW_FOCUS []) k ++
        match requested_diagram commandLine with
        | Some i =>
            match find_diagram (HistoryStore.getDiagrams None (history_file p)) i with
            | Some e =>
                [mkIpc MCP_DIAGRAM_UPDATE
                   [JObj [("diagram", JStr (HistoryStore.diagram e));
                          ("title", JStr (HistoryStore.title e));
                          ("id", JStr i)]]]
            | None => []
            end
        | None => []
        end)%list /\
     (forall c, (forall m x, notices m x = c m) ->
        k = (if minimized w then c Restore else 0) + c Show + c Focus) /\
     (forall v, v <> wid w -> inbox v p' = inbox v p)).
Proof.
  split.
  - intro Hm. unfold second_instance, bind, read. now rewrite Hm.
  - intros w Hmain Hd.
    assert (Hf : find (is_window (wid w)) (windows p) = Some w).
    { unfold getMainWindow in Hmain.
      destruct (mainWindow p) as [j|]; [|discriminate].
      destruct (find_is_window _ _ _ Hmain) as [_ Hj]. now rewrite Hj. }
    destruct (raised_window w) as [Hw3 [Hd3 [Hs3 [Hf3 [Hm3 [k [Hr3 Hk]]]]]]].
    set (w1 := if minimized w then perform notices Restore w else w) in *.
    set (w3 := perform notices Focus (perform notices Show w1)) in *.
    set (raise_it := fun x : BrowserWindow =>
                       if is_window (wid w) x
                       then perform notices Focus
                              (perform notices Show
                                 (if minimized w then perform notices Restore x else x))
                       else x).
    set (q := set_windows (map raise_it (windows p)) p).
    assert (Hq : forall (B : Type) (k' : Proc B),
               ((if minimized w then call notices Restore (wid w) else ret tt) ;;;
                call notices Show (wid w) ;;; call notices Focus (wid w) ;;; k') p
               = k' q).
    { intros B k'. unfold bind, call, ret.
      assert (E : forall ws,
                 update_window (wid w) (perform notices Focus)
                   (update_window (wid w) (perform notices Show)
                      (if minimized w
                       then update_window (wid w) (perform notices Restore) ws
                       else ws))
                 = map raise_it ws).
      { intro ws. unfold update_window, raise_it.
        destruct (minimized w); rewrite !map_map; apply map_ext; intro x;
          unfold is_window;
          destruct (wid x =? wid w)%nat eqn:Ex;
          repeat (rewrite ?perform_wid, ?Ex; cbv iota); reflexivity. }
      unfold q. rewrite <- E. destruct (minimized w); reflexivity. }
    assert (Hfq : find (is_window (wid w)) (windows q) = Some w3).
    { unfold q. cbn [windows set_windows].
      change (map raise_it (windows p))
        with (update_window (wid w)
                (fun x => perform notices Focus
                            (perform notices Show
                               (if minimized w then perform notices Restore x else x)))
                (windows p)).
      rewrite find_update_window, Hf.
      - cbn [option_map]. unfold is_window. rewrite Nat.eqb_refl.
        subst w3 w1. now destruct (minimized w).
      - intro x. now destruct (minimized w). }
    assert (Hoq : forall v, v <> wid w ->
               find (is_window v) (windows q) = find (is_window v) (windows p)).
    { intros v Hv. unfold q. cbn [windows set_windows].
      change (map raise_it (windows p))
        with (update_window (wid w)
                (fun x => perform notices Focus
                            (perform notices Show
                               (if minimized w then perform notices Restore x else x)))
                (windows p)).
      rewrite find_update_window by (intro x; now destruct (minimized w)).
      destruct (find (is_window v) (windows p)) as [x|] eqn:Hx; [|reflexivity].
      cbn [option_map]. destruct (find_is_window _ _ _ Hx) as [_ Hxv].
      unfold is_window. destruct (wid x =? wid w)%nat eqn:Ex; [|reflexivity].
      apply Nat.eqb_eq in Ex. congruence. }
    unfold second_instance. unfold bind at 1. unfold read at 1.
    rewrite Hmain. rewrite Hq.
    destruct (requested_diagram commandLine) as [i|].
    + unfold console_log, try_catch, bind, HistoryService.getDiagrams.
      cbn [history_file set_console].
      change (history_file q) with (history_file p).
      destruct (find_diagram (HistoryStore.getDiagrams None (history_file p)) i)
        as [e|] eqn:He.
      * rewrite (find_diagram_id _ _ _ He).
        eexists _, k. split; [reflexivity|]. split; [reflexivity|].
        unfold inbox. cbn [fst windows set_windows set_console send_to].
        split; [|split; [|split]].
        -- rewrite find_update_window, Hfq by reflexivity. cbn [option_map].
           eexists. split; [reflexivity|].
           unfold is_window. rewrite Hw3, Nat.eqb_refl.
           cbn [destroyed shown focused minimized webContents_send].
           rewrite Hd3, Hd. auto.
        -- rewrite find_update_window, Hfq, Hf by reflexivity. cbn [option_map].
           unfold is_window. rewrite Hw3, Nat.eqb_refl.
           cbn [received webContents_send]. rewrite Hr3, <- app_assoc.
           reflexivity.
        -- exact Hk.
        -- intros v Hv. rewrite find_update_window, (Hoq v Hv) by reflexivity.
           destruct (find (is_window v) (windows p)) as [x|] eqn:Hx; [|reflexivity].
           cbn [option_map]. destruct (find_is_window _ _ _ Hx) as [_ Hxv].
           unfold is_window. destruct (wid x =? wid w)%nat eqn:Ex; [|reflexivity].
           apply Nat.eqb_eq in Ex. congruence.
      * eexists _, k. split; [reflexivity|]. split; [reflexivity|].
        unfold inbox. cbn [fst windows set_windows set_console].
        split; [|split; [|split]].
        -- rewrite Hfq. eexists. split; [reflexivity|]. rewrite Hd3, Hd. auto.
        -- rewrite Hfq, Hf, Hr3, app_nil_r. reflexivity.
        -- exact Hk.
        -- intros v Hv. now rewrite (Hoq v Hv).
    + exists q, k. split; [reflexivity|]. split; [reflexivity|].
      unfold inbox. split; [|split; [|split]].
      * rewrite Hfq. eexists. split; [reflexivity|]. rewrite Hd3, Hd. auto.
      * rewrite Hfq, Hf, Hr3, app_nil_r. reflexivity.
      * exact Hk.
      * intros v Hv. now rewrite (Hoq v Hv).
Qed.

End SecondInstanceProperties.

Section SecondInstanceWitnesses.
Import Js Electron CommandLine SecondInstance Samples.

Lemma X18_second_instance_shows_the_requested_diagram_witness :
  exists p',
    second_instance (fun m _ => match m with Restore => 0 | _ => 1 end)
      ["electron"; "main.js"; "--show-diagram"; "0"] ui_minimised
    = (p', Returned tt) /\
    (exists w', find (is_window 0) (windows p') = Some w' /\
                destroyed w' = false /\
                shown w' = true /\ focused w' = true /\ minimized w' = false) /\
    inbox 0 p'
    = [mkIpc WINDOW_FOCUS []; mkIpc WINDOW_FOCUS [];
       mkIpc MCP_DIAGRAM_UPDATE
         [JObj [("diagram", JStr "graph TD;A-->B"); ("title", JStr "flow");
                ("id", JStr "0")]]].
Proof.
  destruct (proj2 (X18_second_instance_shows_the_requested_diagram
                     (fun m _ => match m with Restore => 0 | _ => 1 end)
                     ["electron"; "main.js"; "--show-diagram"; "0"] ui_minimised)
              (mkWindow 0 false true true false []) eq_refl eq_refl)
    as [p' [k [Hrun [_ [Hw [Hi [Hk _]]]]]]].
  exists p'. split; [exact Hrun|]. split; [exact Hw|].
  cbn [wid] in Hi. rewrite Hi.
  rewrite (Hk (fun m => match m with Restore => 0 | _ => 1 end)
              (fun m x => eq_refl)).
  reflexivity.
Defined.

End SecondInstanceWitnesses.

Section WindowStateProperties.
Import Js Electron WindowState.

Variable JSON_parse : string -> Outcome JsVal.



End WindowStateProperties.

Section FocusProperties.
Import Js Electron EmbeddedServer.

Lemma update_window_twice (i : nat) (f : BrowserWindow -> BrowserWindow)
    (ws : list BrowserWindow) :
  (forall w, wid (f w) = wid w) -> (forall w, f (f w) = f w) ->
  update_window i f (update_window i f ws) = update_window i f ws.
Proof.
  intros Hw Hf. unfold update_window. rewrite map_map. apply map_ext.
  intro w. unfold is_window. destruct (wid w =? i)%nat eqn:E.
  - now rewrite Hw, E, Hf.
  - now rewrite E.
Qed.

Lemma getAllWindows_raised (i : nat) (p : Process) :
  getAllWindows (set_windows (update_window i raise_window (windows p)) p)
  = map (fun w => if is_window i w then raise_window w else w) (getAllWindows p).
Proof.
  unfold getAllWindows. cbn [windows set_windows]. unfold update_window.
  induction (windows p) as [|w ws IH]; [reflexivity|].
  simpl. destruct (is_window i w) eqn:E; simpl;
    destruct (destroyed w); simpl; rewrite ?E, IH; reflexivity.
Qed.

Lemma focusWindow_twice (p : Process) :
  fst (focusWindow (fst (focusWindow p))) = fst (focusWindow p).
Proof.
  unfold focusWindow at 2 3.
  destruct (getAllWindows p) as [|w ws] eqn:Hall; cbn [fst].
  - unfold focusWindow. now rewrite Hall.
  - unfold focusWindow. rewrite getAllWindows_raised, Hall. cbn [map fst].
    unfold is_window at 1. rewrite Nat.eqb_refl. cbn [wid raise_window].
    cbn [windows set_windows]. unfold set_windows. cbn.
    rewrite update_window_twice; [reflexivity | reflexivity | reflexivity].
Qed.

(** X20. [open_ui] is idempotent: a second call leaves the process as
    the first one did, whatever [autoOpen] is, and both calls give the
    same answer.  A call sends no window anything. *)
Theorem X20_open_ui_is_idempotent (autoOpen : option bool) (p : Process) :
  openUI autoOpen (fst (openUI autoOpen p))
  = (fst (openUI autoOpen p),
     Returned [("message", JStr "Mindpilot window focused")]) /\
  snd (openUI autoOpen p)
  = Returned [("message", JStr "Mindpilot window focused")] /\
  forall v, inbox v (fst (openUI autoOpen p)) = inbox v p.
Proof.
  assert (E : forall q,
             openUI autoOpen q
             = (if match autoOpen with Some b => b | None => true end
                then fst (focusWindow q) else q,
                Returned [("message", JStr "Mindpilot window focused")])).
  { intro q. unfold openUI, bind.
    destruct (match autoOpen with Some b => b | None => true end).
    - rewrite focusWindow_total. reflexivity.
    - reflexivity. }
  rewrite !E. cbn [fst snd].
  destruct (match autoOpen with Some b => b | None => true end).
  - rewrite focusWindow_twice. split; [reflexivity|]. split; [reflexivity|].
    intro v. apply inbox_focusWindow.
  - repeat split.
Qed.

End FocusProperties.

Section ViewerRunProperties.
Import Js Viewer ViewerRuns.

Lemma onMessage_step (data : JsVal) (a : App) :
  diagram (fst (onMessage data a))
  = match adopted data with Some d => d | None => diagram a end /\
  sent (fst (onMessage data a))
  = (sent a ++ if is_query data
               then [visibility_response (hidden (document a))] else [])%list /\
  document (fst (onMessage data a)) = document a.
Proof.
  unfold onMessage, adopted, is_query, visibility_response.
  destruct (get_prop data "type") as [ty|ex] eqn:Hty.
  - destruct (get_prop data "diagram") as [d|ex] eqn:Hd.
    + destruct (is_str ty "render_result") eqn:Hr.
      * assert (Hq : is_str ty "visibility_query" = false).
        { destruct ty; try reflexivity. simpl in *.
          apply String.eqb_eq in Hr. subst s. reflexivity. }
        rewrite Hq. destruct (truthy d); cbn; now rewrite ?app_nil_r.
      * cbn [andb]. destruct (is_str ty "visibility_query");
          cbn; now rewrite ?app_nil_r.
    + destruct data; simpl in Hty, Hd; discriminate.
  - cbn. now rewrite app_nil_r.
Qed.

(** X21. After any sequence of messages the viewer shows the diagram of
    the last [render_result] message that carried a non-empty diagram,
    and its own earlier diagram when there was none; messages of other
    types in between change nothing. *)
Theorem X21_last_render_result_is_shown (messages : list JsVal) (a : App) :
  diagram (deliver messages a) = last_adopted messages (diagram a).
Proof.
  unfold deliver, last_adopted. revert a.
  induction messages as [|m ms IH]; intro a; [reflexivity|].
  cbn [fold_left]. rewrite IH.
  now rewrite (proj1 (onMessage_step m a)).
Qed.

(** X22. After any sequence of messages the viewer has sent exactly one
    [visibility_response] for each [visibility_query] among them, in
    their order, each telling whether the document is hidden, and
    nothing else. *)
Theorem X22_one_response_per_visibility_query (messages : list JsVal) (a : App) :
  sent (deliver messages a)
  = (sent a ++ map (fun _ => visibility_response (hidden (document a)))
                   (filter is_query messages))%list.
Proof.
  unfold deliver. revert a.
  induction messages as [|m ms IH]; intro a.
  - cbn. now rewrite app_nil_r.
  - cbn [fold_left filter]. rewrite IH.
    destruct (onMessage_step m a) as [_ [Hs Hd]]. rewrite Hs, Hd.
    rewrite <- app_assoc. destruct (is_query m); reflexivity.
Qed.

End ViewerRunProperties.

Section WindowInvariant.
Import Js Electron Main.

(** X23. The running application never has more than one open window:
    through activation, window closing, diagram updates and focus
    requests, and likewise through [ready-to-show], a second instance
    and whatever the user does to a window, the open windows are
    exactly the window that the [mainWindow] variable names, none when
    it is [null], and no two window objects share an identity. *)
Theorem X23_at_most_one_open_window (p : Process) :
  running p ->
  length (viewers p) <= 1 /\
  (forall v, In v (viewers p) <-> mainWindow p = Some v) /\
  NoDup (map wid (windows p)).
Proof.
  intro R. destruct (running_single_window p R) as [Hv [Hnd _]].
  rewrite Hv. split; [|split; [|exact Hnd]].
  - destruct (mainWindow p); simpl; lia.
  - intro v. destruct (mainWindow p) as [j|]; simpl.
    + split; [intros [H | []]; now subst | intro H; left; congruence].
    + split; [tauto | discriminate].
Qed.

Lemma X23_at_most_one_open_window_witness :
  length (viewers (on_event Activate Samples.started)) <= 1.
Proof.
  apply (X23_at_most_one_open_window
           (on_event Activate Samples.started)).
  apply running_event. constructor; reflexivity.
Defined.

End WindowInvariant.
